(** * Genyx AI: inference client, history store, event log, orchestrator

    A shallow embedding of [genyx_final.py].  Python values are an
    inductive type, exceptions are an explicit outcome, and the mutable
    objects of the program (the in-memory history document, the two
    files, the network) are fields of one [world] record threaded
    through a state-and-exception monad. *)

From Stdlib Require Import ZArith String Ascii List Bool Lia PeanoNat.
From Stdlib Require Import Floats.PrimFloat DecimalString.
Import ListNotations.

Local Open Scope string_scope.
Set Warnings "-register-all,-inexact-float".

(** ** Python values *)

(** Everything [json.load] and [response.json()] can hand to the
    program, which is also everything the program stores: [None],
    booleans, arbitrary-precision integers, binary64 floats, strings,
    lists, and dictionaries with string keys.  A dictionary keeps its
    insertion order, so it is an association list; lookup takes the
    first binding of a key.  A [str] is a sequence of code points; the
    model has the code points below 256. *)
Inductive pyval : Type :=
| PNone
| PBool (b : bool)
| PInt (z : Z)
| PFloat (f : float)
| PStr (s : string)
| PList (l : list pyval)
| PDict (d : list (string * pyval)).

(** The exception classes the program can meet.  The last two derive
    from [BaseException] only, so [except Exception] lets them pass. *)
Inductive exn : Type :=
| requests_Timeout
| requests_ConnectionError
| requests_RequestException
| JSONDecodeError
| UnicodeDecodeError
| OSError
| KeyError
| IndexError
| TypeError
| AttributeError
| KeyboardInterrupt
| SystemExit.

Definition is_requests_Timeout (e : exn) : bool :=
  match e with requests_Timeout => true | _ => false end.

Definition is_Exception (e : exn) : bool :=
  match e with KeyboardInterrupt | SystemExit => false | _ => true end.

(** The outcome of evaluating a Python expression or call. *)
Inductive outcome (A : Type) : Type :=
| Ok (a : A)
| Raise (e : exn).
Arguments Ok {A} a.
Arguments Raise {A} e.

(** ** Strings *)

Definition dquote : ascii := ascii_of_nat 34.
Definition squote : ascii := ascii_of_nat 39.
Definition backslash : ascii := ascii_of_nat 92.
Definition newline : string := String (ascii_of_nat 10) "".

(** [str.isspace] on one code point below 256: tab to carriage return,
    the four separators 0x1c-0x1f, space, NEL and the no-break space. *)
Definition isspace (c : ascii) : bool :=
  let n := nat_of_ascii c in
  (((9 <=? n) && (n <=? 13)) || ((28 <=? n) && (n <=? 32))
   || (n =? 133) || (n =? 160))%nat.

Fixpoint dropwhile {A : Type} (p : A -> bool) (l : list A) : list A :=
  match l with
  | [] => []
  | x :: l' => if p x then dropwhile p l' else l
  end.

(** [s.strip()] *)
Definition strip (s : string) : string :=
  string_of_list_ascii
    (rev (dropwhile isspace (rev (dropwhile isspace (list_ascii_of_string s))))).

(** [s[:n]] *)
Fixpoint str_take (n : nat) (s : string) : string :=
  match n, s with
  | S n', String c s' => String c (str_take n' s')
  | _, _ => ""
  end.

(** [c * n] for a one-character string [c] *)
Fixpoint str_repeat (c : ascii) (n : nat) : string :=
  match n with
  | O => ""
  | S n' => String c (str_repeat c n')
  end.

Fixpoint str_mem (c : ascii) (s : string) : bool :=
  match s with
  | "" => false
  | String c' s' => Ascii.eqb c c' || str_mem c s'
  end.

Fixpoint str_join (sep : string) (l : list string) : string :=
  match l with
  | [] => ""
  | [x] => x
  | x :: l' => x ++ sep ++ str_join sep l'
  end.

Definition hex_digit (n : nat) : ascii :=
  if (n <? 10)%nat then ascii_of_nat (48 + n) else ascii_of_nat (87 + n).

(** One character of [repr(s)] inside the quote [q]. *)
Definition repr_char (q c : ascii) : string :=
  let n := nat_of_ascii c in
  if Ascii.eqb c backslash then String backslash (String backslash "")
  else if Ascii.eqb c q then String backslash (String q "")
  else if (n =? 9)%nat then String backslash "t"
  else if (n =? 10)%nat then String backslash "n"
  else if (n =? 13)%nat then String backslash "r"
  else if ((n <? 32) || ((127 <=? n) && (n <=? 160)) || (n =? 173))%nat
  then String backslash
         (String "x" (String (hex_digit (n / 16)) (String (hex_digit (n mod 16)) "")))
  else String c "".

Fixpoint repr_chars (q : ascii) (s : string) : string :=
  match s with
  | "" => ""
  | String c s' => repr_char q c ++ repr_chars q s'
  end.

(** [repr(s)] of a string: single quotes, unless the text has a single
    quote and no double quote. *)
Definition repr_str (s : string) : string :=
  let q := if str_mem squote s && negb (str_mem dquote s) then dquote else squote in
  String q (repr_chars q s ++ String q "").

(** [repr(z)] of an integer. *)
Definition repr_int (z : Z) : string := NilZero.string_of_int (Z.to_int z).

Section Repr.

(** [repr] of a float, the shortest decimal that reads back as the same
    binary64 value, is the interpreter's; it is taken as given. *)
Variable float_repr : float -> string.

Fixpoint py_repr (v : pyval) : string :=
  match v with
  | PNone => "None"
  | PBool true => "True"
  | PBool false => "False"
  | PInt z => repr_int z
  | PFloat f => float_repr f
  | PStr s => repr_str s
  | PList l => "[" ++ str_join ", " (map py_repr l) ++ "]"
  | PDict d =>
      "{" ++ str_join ", "
               (map (fun kv => repr_str (fst kv) ++ ": " ++ py_repr (snd kv)) d)
          ++ "}"
  end.

(** [str(v)], also what an f-string field [{v}] formats to. *)
Definition py_str (v : pyval) : string :=
  match v with
  | PStr s => s
  | _ => py_repr v
  end.

End Repr.

(** [bool(v)], the test of [if v:]. *)
Definition py_truthy (v : pyval) : bool :=
  match v with
  | PNone => false
  | PBool b => b
  | PInt z => negb (z =? 0)%Z
  | PFloat f => negb (PrimFloat.eqb f 0%float)
  | PStr s => negb (s =? "")
  | PList l => negb (Nat.eqb (List.length l) 0)
  | PDict d => negb (Nat.eqb (List.length d) 0)
  end.

(** [v[:n]]: strings and lists can be sliced, nothing else. *)
Definition py_slice_to (n : nat) (v : pyval) : outcome pyval :=
  match v with
  | PStr s => Ok (PStr (str_take n s))
  | PList l => Ok (PList (firstn n l))
  | _ => Raise TypeError
  end.

(** [l[-n:]] on a list. *)
Definition list_last_n {A : Type} (n : nat) (l : list A) : list A :=
  skipn (List.length l - n) l.

(** [v += 1] on a stored counter. *)
Definition py_add_one (v : pyval) : outcome pyval :=
  match v with
  | PInt z => Ok (PInt (z + 1))
  | PBool b => Ok (PInt ((if b then 1 else 0) + 1))
  | PFloat f => Ok (PFloat (f + 1)%float)
  | _ => Raise TypeError
  end.

(** [a == b] against a string literal [b]. *)
Definition py_eq_str (a : pyval) (b : string) : bool :=
  match a with
  | PStr s => s =? b
  | _ => false
  end.

(** ** Dictionaries *)

Fixpoint dict_get (k : string) (d : list (string * pyval)) : option pyval :=
  match d with
  | [] => None
  | (k', v) :: d' => if k' =? k then Some v else dict_get k d'
  end.

(** [d[k] = v]: an existing key keeps its place, a new one goes last. *)
Fixpoint dict_set (k : string) (v : pyval) (d : list (string * pyval))
  : list (string * pyval) :=
  match d with
  | [] => [(k, v)]
  | (k', v') :: d' => if k' =? k then (k, v) :: d' else (k', v') :: dict_set k v d'
  end.

(** [v[k]] with a string key. *)
Definition py_getitem (v : pyval) (k : string) : outcome pyval :=
  match v with
  | PDict d => match dict_get k d with Some x => Ok x | None => Raise KeyError end
  | _ => Raise TypeError
  end.

(** [v[k1][k2]] *)
Definition py_getitem2 (v : pyval) (k1 k2 : string) : outcome pyval :=
  match py_getitem v k1 with
  | Ok inner => py_getitem inner k2
  | Raise e => Raise e
  end.

(** [v[k] = x] with a string key. *)
Definition py_setitem (v : pyval) (k : string) (x : pyval) : outcome pyval :=
  match v with
  | PDict d => Ok (PDict (dict_set k x d))
  | _ => Raise TypeError
  end.

(** [v.get(k, default)]: only a dictionary has the method. *)
Definition py_get (v : pyval) (k : string) (default : pyval) : outcome pyval :=
  match v with
  | PDict d => Ok (match dict_get k d with Some x => x | None => default end)
  | _ => Raise AttributeError
  end.

(** [v.append(x)]: only a list has the method. *)
Definition py_append (v : pyval) (x : pyval) : outcome pyval :=
  match v with
  | PList l => Ok (PList (l ++ [x]))
  | _ => Raise AttributeError
  end.

(** Looking up [v.append], before the arguments of the call are evaluated. *)
Definition py_getattr_append (v : pyval) : outcome unit :=
  match v with
  | PList _ => Ok tt
  | _ => Raise AttributeError
  end.

(** [len(v)] *)
Definition py_len (v : pyval) : outcome nat :=
  match v with
  | PStr s => Ok (String.length s)
  | PList l => Ok (List.length l)
  | PDict d => Ok (List.length d)
  | _ => Raise TypeError
  end.

(** [v[-n:]] *)
Definition py_slice_last (n : nat) (v : pyval) : outcome pyval :=
  match v with
  | PList l => Ok (PList (list_last_n n l))
  | PStr s =>
      Ok (PStr (string_of_list_ascii (list_last_n n (list_ascii_of_string s))))
  | _ => Raise TypeError
  end.

(** ** The world the program runs in *)

(** A file on disk: missing, present but failing to open or decode with
    the given exception, or present with a text. *)
Inductive file : Type :=
| Absent
| Unreadable (e : exn)
| Content (text : string).

(** What [requests.post] is called with. *)
Record request : Type := mk_request {
  req_url : string;
  req_headers : list (string * string);
  req_json : pyval;
  req_timeout : Z
}.

(** What [requests.post] returns: the status code, and what calling
    [.json()] on it does. *)
Record response : Type := mk_response {
  status_code : Z;
  json : outcome pyval
}.

Inductive post_outcome : Type :=
| PostRaises (e : exn)
| PostReturns (r : response).

Record world : Type := mk_world {
  (** [BrainHistory.data], the history document in memory *)
  data : pyval;
  (** [Config.BRAIN_HISTORY] on disk, and whether opening it for writing works *)
  brain_history : file;
  brain_history_writable : bool;
  (** the text of [Config.LEARNING_LOG], and whether appending to it works *)
  learning_log : string;
  learning_log_writable : bool;
  (** how the remote endpoint answers a request *)
  network : request -> post_outcome;
  (** the requests posted so far, newest last *)
  requests_sent : list request;
  (** the results shown to the user by [print(result)], newest last *)
  printed : list pyval
}.

Definition set_data (d : pyval) (w : world) : world :=
  mk_world d (brain_history w) (brain_history_writable w) (learning_log w)
           (learning_log_writable w) (network w) (requests_sent w) (printed w).

Definition set_brain_history (f : file) (w : world) : world :=
  mk_world (data w) f (brain_history_writable w) (learning_log w)
           (learning_log_writable w) (network w) (requests_sent w) (printed w).

Definition set_learning_log (t : string) (w : world) : world :=
  mk_world (data w) (brain_history w) (brain_history_writable w) t
           (learning_log_writable w) (network w) (requests_sent w) (printed w).

Definition set_requests_sent (l : list request) (w : world) : world :=
  mk_world (data w) (brain_history w) (brain_history_writable w) (learning_log w)
           (learning_log_writable w) (network w) l (printed w).

Definition set_printed (l : list pyval) (w : world) : world :=
  mk_world (data w) (brain_history w) (brain_history_writable w) (learning_log w)
           (learning_log_writable w) (network w) (requests_sent w) l.

(** ** Computations: state plus exceptions *)

(** A call runs in a world and either returns a value or raises; either
    way it leaves a world behind, so what was mutated before an
    exception stays mutated. *)
Definition M (A : Type) : Type := world -> outcome A * world.

Definition ret {A : Type} (a : A) : M A := fun w => (Ok a, w).

Definition raise {A : Type} (e : exn) : M A := fun w => (Raise e, w).

Definition bind {A B : Type} (m : M A) (k : A -> M B) : M B :=
  fun w =>
    match m w with
    | (Ok a, w') => k a w'
    | (Raise e, w') => (Raise e, w')
    end.

Definition lift {A : Type} (o : outcome A) : M A := fun w => (o, w).

(** [try: body  except ...: handler] *)
Definition try_except {A : Type} (body : M A) (handler : exn -> M A) : M A :=
  fun w =>
    match body w with
    | (Ok a, w') => (Ok a, w')
    | (Raise e, w') => handler e w'
    end.

Declare Scope py_scope.
Delimit Scope py_scope with py.
Notation "x <- m ;; k" := (bind m (fun x => k))
  (at level 61, m at next level, right associativity) : py_scope.
Notation "m ;; k" := (bind m (fun _ => k))
  (at level 61, right associativity) : py_scope.
Local Open Scope py_scope.

Definition get_data : M pyval := fun w => (Ok (data w), w).

Definition put_data (d : pyval) : M unit := fun w => (Ok tt, set_data d w).

(** [self.data[k] = v] *)
Definition data_setitem (k : string) (v : pyval) : M unit :=
  d <- get_data ;;
  d' <- lift (py_setitem d k v) ;;
  put_data d'.

(** [self.data[k1][k2] += 1] *)
Definition data_incr (k1 k2 : string) : M unit :=
  d <- get_data ;;
  inner <- lift (py_getitem d k1) ;;
  old <- lift (py_getitem inner k2) ;;
  new <- lift (py_add_one old) ;;
  inner' <- lift (py_setitem inner k2 new) ;;
  data_setitem k1 inner'.

(** [self.filepath.exists()] *)
Definition path_exists : M bool :=
  fun w => (Ok (match brain_history w with Absent => false | _ => true end), w).

(** [open(self.filepath, 'r', encoding='utf-8')] and reading all of it *)
Definition read_brain_history : M string :=
  fun w =>
    match brain_history w with
    | Absent => (Raise OSError, w)
    | Unreadable e => (Raise e, w)
    | Content t => (Ok t, w)
    end.

(** [open(self.filepath, 'w', encoding='utf-8')] and writing [t] *)
Definition write_brain_history (t : string) : M unit :=
  fun w =>
    if brain_history_writable w
    then (Ok tt, set_brain_history (Content t) w)
    else (Raise OSError, w).

(** [open(self.filepath, 'a', encoding='utf-8')] and writing [t] *)
Definition append_learning_log (t : string) : M unit :=
  fun w =>
    if learning_log_writable w
    then (Ok tt, set_learning_log (learning_log w ++ t) w)
    else (Raise OSError, w).

(** [requests.post(...)] *)
Definition requests_post (r : request) : M response :=
  fun w =>
    let w' := set_requests_sent (requests_sent w ++ [r]) w in
    match network w r with
    | PostRaises e => (Raise e, w')
    | PostReturns resp => (Ok resp, w')
    end.

(** [print(result)] *)
Definition print_result (v : pyval) : M unit :=
  fun w => (Ok tt, set_printed (printed w ++ [v]) w).

(** A computation that shows nothing: whatever it does, the results
    printed so far stay as they are. *)
Definition keeps_printed {A : Type} (m : M A) : Prop :=
  forall w, printed (snd (m w)) = printed w.

(** A computation that leaves the observation [f] of the world as it was,
    whatever its outcome. *)
Definition preserves {A B : Type} (f : world -> B) (m : M A) : Prop :=
  forall w, f (snd (m w)) = f w.

(** A computation that leaves the observation [f] of the world as it was
    whenever it raises. *)
Definition preserves_on_raise {A B : Type} (f : world -> B) (m : M A) : Prop :=
  forall w e w', m w = (Raise e, w') -> f w' = f w.

(** ** Config *)

Definition API_ENDPOINT : string :=
  "https://router.huggingface.co/hf-inference/models/Qwen/Qwen2.5-7B-Instruct".
Definition API_TIMEOUT : Z := 120.

Section Genyx.

(** The interpreter and its [json] module are given: [repr] of a
    float, [json.dump(..., indent=2, ensure_ascii=False)] as the text it
    writes, and [json.load] as the value it reads or the exception it
    raises. *)
Variable float_repr : float -> string.
Variable json_dump : pyval -> string.
Variable json_load : string -> outcome pyval.

(** ** BrainHistory *)

(** [now] stands for [datetime.datetime.now().isoformat()] at the call. *)
Definition _create_default (now : string) : pyval :=
  PDict
    [ ("metadata",
       PDict [ ("created_at", PStr now);
               ("version", PStr "2.0.0");
               ("model", PStr "Qwen/Qwen2.5-7B-Instruct");
               ("total_interactions", PInt 0) ]);
      ("statistics",
       PDict [ ("prompts_generated", PInt 0);
               ("mindmaps_created", PInt 0);
               ("sessions", PInt 0) ]);
      ("interactions", PList []) ].

Definition _load (now : string) : M pyval :=
  found <- path_exists ;;
  if found : bool
  then try_except
         (text <- read_brain_history ;; lift (json_load text))
         (fun _ => ret (_create_default now))
  else ret (_create_default now).

(** [BrainHistory.__init__]: [self.data = self._load()] *)
Definition BrainHistory_init (now : string) : M unit :=
  d <- _load now ;;
  put_data d.

Definition save : M unit :=
  try_except
    (d <- get_data ;; write_brain_history (json_dump d))
    (fun _ => ret tt).

Definition add_interaction (now : string) (interaction_type prompt response : pyval)
  : M unit :=
  d <- get_data ;;
  interactions <- lift (py_getitem d "interactions") ;;
  lift (py_getattr_append interactions) ;;
  p <- lift (py_slice_to 200 prompt) ;;
  r <- lift (py_slice_to 500 response) ;;
  interactions' <- lift (py_append interactions
                           (PDict [ ("timestamp", PStr now);
                                    ("type", interaction_type);
                                    ("prompt", p);
                                    ("response", r) ])) ;;
  data_setitem "interactions" interactions' ;;
  data_incr "metadata" "total_interactions" ;;
  (if py_eq_str interaction_type "prompt"
   then data_incr "statistics" "prompts_generated"
   else if py_eq_str interaction_type "mindmap"
        then data_incr "statistics" "mindmaps_created"
        else ret tt) ;;
  d <- get_data ;;
  interactions <- lift (py_getitem d "interactions") ;;
  n <- lift (py_len interactions) ;;
  (if (100 <? n)%nat
   then d <- get_data ;;
        interactions <- lift (py_getitem d "interactions") ;;
        kept <- lift (py_slice_last 100 interactions) ;;
        data_setitem "interactions" kept
   else ret tt) ;;
  save.

Definition get_stats : M pyval :=
  d <- get_data ;;
  metadata <- lift (py_getitem d "metadata") ;;
  total <- lift (py_getitem metadata "total_interactions") ;;
  statistics <- lift (py_getitem d "statistics") ;;
  prompts <- lift (py_getitem statistics "prompts_generated") ;;
  mindmaps <- lift (py_getitem statistics "mindmaps_created") ;;
  sessions <- lift (py_getitem statistics "sessions") ;;
  ret (PDict [ ("total", total); ("prompts", prompts);
               ("mindmaps", mindmaps); ("sessions", sessions) ]).

Definition increment_session : M unit :=
  data_incr "statistics" "sessions" ;;
  save.

(** ** LearningLogger *)

(** [now] stands for [datetime.datetime.now().strftime("%Y-%m-%d %H:%M:%S")]. *)
Definition log (now : string) (interaction_type user_input ai_output : pyval)
  : M unit :=
  let rule := str_repeat "=" 70 in
  let log_entry :=
    newline ++ rule ++ newline
    ++ "[" ++ now ++ "] TYPE: " ++ py_str float_repr interaction_type ++ newline
    ++ rule ++ newline
    ++ newline
    ++ "USER INPUT:" ++ newline
    ++ py_str float_repr user_input ++ newline
    ++ newline
    ++ "AI OUTPUT:" ++ newline
    ++ py_str float_repr ai_output ++ newline
    ++ newline
    ++ rule ++ newline
    ++ newline in
  try_except (append_learning_log log_entry) (fun _ => ret tt).

Definition log_event (now : string) (event : string) : M unit :=
  try_except
    (append_learning_log ("[" ++ now ++ "] SYSTEM: " ++ event ++ newline))
    (fun _ => ret tt).

(** ** QwenClient *)

Record QwenClient : Type := mk_QwenClient {
  endpoint : string;
  token : string
}.

(** [QwenClient.__init__]: [hf_token] is [os.environ.get("HF_TOKEN")];
    a missing or empty token ends in [sys.exit(1)]. *)
Definition QwenClient_init (hf_token : option string) : outcome QwenClient :=
  match hf_token with
  | Some t => if t =? "" then Raise SystemExit else Ok (mk_QwenClient API_ENDPOINT t)
  | None => Raise SystemExit
  end.

(** The request [generate] posts: the headers and the payload it builds. *)
Definition generate_request (self : QwenClient) (prompt : string) (max_tokens : Z)
           (temperature : float) : request :=
  let headers :=
    [ ("Authorization", "Bearer " ++ token self);
      ("Content-Type", "application/json") ] in
  let payload :=
    PDict [ ("inputs", PStr prompt);
            ("parameters",
             PDict [ ("max_new_tokens", PInt max_tokens);
                     ("temperature", PFloat temperature);
                     ("top_p", PFloat 0.9%float);
                     ("return_full_text", PBool false) ]) ] in
  mk_request (endpoint self) headers payload API_TIMEOUT.

Definition generate (self : QwenClient) (prompt : string) (max_tokens : Z)
           (temperature : float) : M pyval :=
  try_except
    (response <- requests_post (generate_request self prompt max_tokens temperature) ;;
     if (status_code response =? 200)%Z
     then result <- lift (json response) ;;
          text <- match result with
                  | PList (first :: _) => lift (py_get first "generated_text" (PStr ""))
                  | PDict _ => lift (py_get result "generated_text" (PStr ""))
                  | _ => ret (PStr (py_str float_repr result))
                  end ;;
          if py_truthy text then ret text else ret PNone
     else if (status_code response =? 503)%Z then ret PNone
     else if (status_code response =? 401)%Z then ret PNone
     else if (status_code response =? 429)%Z then ret PNone
     else ret PNone)
    (fun e =>
       if is_requests_Timeout e then ret PNone
       else if is_Exception e then ret PNone
       else raise e).

(** ** GenyxAI *)

Definition prompt_template (topic : string) : string :=
  "You are an expert prompt engineer. Create a detailed professional prompt for: "
  ++ topic ++ "

Include:
1. OBJECTIVE: Main goal
2. CONTEXT: Background
3. REQUIREMENTS: Specific elements
4. CONSTRAINTS: Limitations
5. OUTPUT FORMAT: Structure
6. STYLE: Tone
7. EXAMPLES: Scenarios

Make it actionable and specific.".

Definition mindmap_template (topic : string) : string :=
  "Create a detailed mind map for: " ++ topic ++ "

CENTRAL CONCEPT: " ++ topic ++ "

MAIN BRANCHES (5-7):
- Branch 1: [Category]
  - Sub 1.1: [Detail]
  - Sub 1.2: [Detail]

- Branch 2: [Category]
  - Sub 2.1: [Detail]

[Continue...]

KEY CONNECTIONS:
- Relationships between branches

APPLICATIONS:
- Real-world uses

Format as clear indented text.".

(** [line] is what [input(...)] returns; [t_history] and [t_log] are the
    two readings of the clock, taken by [add_interaction] and by [log].
    The method has no [return] with a value: it returns [None] on every
    path, and hands the generated text on by printing and storing it. *)
Definition generate_prompt (client : QwenClient) (line t_history t_log : string)
  : M pyval :=
  let topic := strip line in
  if negb (py_truthy (PStr topic))
  then ret PNone
  else
    result <- generate client (prompt_template topic) 800 0.7%float ;;
    if py_truthy result
    then print_result result ;;
         add_interaction t_history (PStr "prompt") (PStr topic) result ;;
         log t_log (PStr "prompt_generation") (PStr topic) result ;;
         ret PNone
    else ret PNone.

Definition create_mindmap (client : QwenClient) (line t_history t_log : string)
  : M pyval :=
  let topic := strip line in
  if negb (py_truthy (PStr topic))
  then ret PNone
  else
    result <- generate client (mindmap_template topic) 1000 0.8%float ;;
    if py_truthy result
    then print_result result ;;
         add_interaction t_history (PStr "mindmap") (PStr topic) result ;;
         log t_log (PStr "mindmap_creation") (PStr topic) result ;;
         ret PNone
    else ret PNone.

(** [GenyxAI.__init__]: the history is loaded, the client is built, the
    session is counted, the start is logged. *)
Definition GenyxAI_init (t_created : string) (hf_token : option string) (t_log : string)
  : M QwenClient :=
  BrainHistory_init t_created ;;
  client <- lift (QwenClient_init hf_token) ;;
  increment_session ;;
  log_event t_log "SYSTEM_START" ;;
  ret client.

(** ** Runs of several calls *)

(** One call of [add_interaction] with string arguments, and the clock
    reading it gets. *)
Record interaction_call : Type := mk_call {
  call_now : string;
  call_type : pyval;
  call_prompt : string;
  call_response : string
}.

(** The record such a call appends. *)
Definition interaction_record (c : interaction_call) : pyval :=
  PDict [ ("timestamp", PStr (call_now c));
          ("type", call_type c);
          ("prompt", PStr (str_take 200 (call_prompt c)));
          ("response", PStr (str_take 500 (call_response c))) ].

(** A document of the shape [_create_default] builds, with any counters
    and interactions. *)
Definition history_document (created_at : string)
           (total prompts mindmaps sessions : Z) (interactions : list pyval) : pyval :=
  PDict
    [ ("metadata",
       PDict [ ("created_at", PStr created_at);
               ("version", PStr "2.0.0");
               ("model", PStr "Qwen/Qwen2.5-7B-Instruct");
               ("total_interactions", PInt total) ]);
      ("statistics",
       PDict [ ("prompts_generated", PInt prompts);
               ("mindmaps_created", PInt mindmaps);
               ("sessions", PInt sessions) ]);
      ("interactions", PList interactions) ].

Fixpoint add_interactions (calls : list interaction_call) : M unit :=
  match calls with
  | [] => ret tt
  | c :: calls' =>
      add_interaction (call_now c) (call_type c)
                      (PStr (call_prompt c)) (PStr (call_response c)) ;;
      add_interactions calls'
  end.

End Genyx.

(** ** The statistics screen and the menu loop *)

(** [s.split(sep)] for a separator of one character: never empty. *)
Fixpoint str_split (sep : ascii) (s : string) : list string :=
  match s with
  | "" => [""]
  | String c s' =>
      if Ascii.eqb c sep then "" :: str_split sep s'
      else match str_split sep s' with
           | x :: xs => String c x :: xs
           | [] => [String c ""]
           end
  end.

(** [v.split(sep)]: only a string has the method. *)
Definition py_split (v : pyval) (sep : ascii) : outcome (list string) :=
  match v with
  | PStr s => Ok (str_split sep s)
  | _ => Raise AttributeError
  end.

(** [l[n]] on the list a [split] gave. *)
Definition list_index (l : list string) (n : nat) : outcome string :=
  match nth_error l n with
  | Some x => Ok x
  | None => Raise IndexError
  end.

(** The items a [for] loop takes from a list or a string. *)
Definition py_iter (v : pyval) : outcome (list pyval) :=
  match v with
  | PList l => Ok l
  | PStr s => Ok (map (fun c => PStr (String c "")) (list_ascii_of_string s))
  | PDict d => Ok (map (fun kv => PStr (fst kv)) d)
  | _ => Raise TypeError
  end.

(** [for x in items: body(x)] *)
Fixpoint for_each (items : list pyval) (body : pyval -> M unit) : M unit :=
  match items with
  | [] => ret tt
  | x :: items' => body x ;; for_each items' body
  end.

Section Screens.

Variable float_repr : float -> string.
Variable json_dump : pyval -> string.

(** The line [show_stats] prints for one stored interaction:
    [f"  [{ts}] {i['type']}: {i['prompt'][:40]}..."], with [ts] the time of
    day cut out of the timestamp. *)
Definition recent_line (i : pyval) : M string :=
  timestamp <- lift (py_getitem i "timestamp") ;;
  date_time <- lift (py_split timestamp "T") ;;
  time <- lift (list_index date_time 1) ;;
  ts <- lift (list_index (str_split "." time) 0) ;;
  type <- lift (py_getitem i "type") ;;
  prompt <- lift (py_getitem i "prompt") ;;
  prompt40 <- lift (py_slice_to 40 prompt) ;;
  ret ("  [" ++ ts ++ "] " ++ py_str float_repr type ++ ": "
       ++ py_str float_repr prompt40 ++ "...").

(** [GenyxAI.show_stats]: the counters, then the last three interactions.
    The lines go to the terminal; what the model keeps of them is whether
    building them raises. *)
Definition show_stats : M unit :=
  stats <- get_stats ;;
  lift (py_getitem stats "total") ;;
  lift (py_getitem stats "prompts") ;;
  lift (py_getitem stats "mindmaps") ;;
  lift (py_getitem stats "sessions") ;;
  d <- get_data ;;
  interactions <- lift (py_getitem d "interactions") ;;
  if py_truthy interactions
  then d <- get_data ;;
       interactions <- lift (py_getitem d "interactions") ;;
       recent <- lift (py_slice_last 3 interactions) ;;
       items <- lift (py_iter recent) ;;
       for_each items (fun i => recent_line i ;; ret tt)
  else ret tt.

(** [GenyxAI.show_about] prints fixed text. *)
Definition show_about : M unit := ret tt.

(** [UI.print_menu(stats)] reads three of the counters it is given. *)
Definition print_menu (stats : pyval) : M unit :=
  lift (py_getitem stats "total") ;;
  lift (py_getitem stats "prompts") ;;
  lift (py_getitem stats "mindmaps") ;;
  ret tt.

(** The clock, read at each turn of the loop: [now_iso n] stands for
    [datetime.now().isoformat()] and [now_log n] for
    [datetime.now().strftime("%Y-%m-%d %H:%M:%S")] in turn [n]. *)
Variable now_iso : nat -> string.
Variable now_log : nat -> string.

(** How one turn of [while True] ends. *)
Inductive loop_signal : Type :=
| Continue
| Break.

(** Standard input is the list of what the calls of [input()] give, each
    a line or an exception (a keyboard interrupt at the prompt); when the
    list is used up the program is waiting at a prompt, which is [None]
    below. *)
Definition keyboard : Type := list (outcome string).

(** The [try] block of one turn: the choice, its action, and the pause. *)
Definition menu_body (client : QwenClient) (turn : nat) (keys : keyboard) (w : world)
  : option (outcome loop_signal * keyboard * world) :=
  let pause (keys : keyboard) (w : world) :=
    match keys with
    | [] => None
    | Raise e :: keys' => Some (Raise e, keys', w)
    | Ok _ :: keys' => Some (Ok Continue, keys', w)
    end in
  let after {A : Type} (r : outcome A * world) (keys : keyboard) :=
    match r with
    | (Ok _, w') => pause keys w'
    | (Raise e, w') => Some (Raise e, keys, w')
    end in
  match keys with
  | [] => None
  | Raise e :: keys' => Some (Raise e, keys', w)
  | Ok line :: keys' =>
      let choice := strip line in
      if choice =? "1"
      then match keys' with
           | [] => None
           | Raise e :: keys'' => Some (Raise e, keys'', w)
           | Ok topic :: keys'' =>
               after (generate_prompt float_repr json_dump client topic
                        (now_iso turn) (now_log turn) w) keys''
           end
      else if choice =? "2"
      then match keys' with
           | [] => None
           | Raise e :: keys'' => Some (Raise e, keys'', w)
           | Ok topic :: keys'' =>
               after (create_mindmap float_repr json_dump client topic
                        (now_iso turn) (now_log turn) w) keys''
           end
      else if choice =? "3" then after (show_stats w) keys'
      else if choice =? "4" then after (show_about w) keys'
      else if choice =? "0"
      then match log_event (now_log turn) "SYSTEM_EXIT" w with
           | (Ok _, w') => Some (Ok Break, keys', w')
           | (Raise e, w') => Some (Raise e, keys', w')
           end
      else pause keys' w
  end.

(** One turn of the loop: the counters for the menu, the [try] block, and
    its two [except] clauses. *)
Definition menu_turn (client : QwenClient) (turn : nat) (keys : keyboard) (w : world)
  : option (outcome loop_signal * keyboard * world) :=
  match (stats <- get_stats ;; print_menu stats) w with
  | (Raise e, w1) => Some (Raise e, keys, w1)
  | (Ok _, w1) =>
      match menu_body client turn keys w1 with
      | None => None
      | Some (Ok signal, keys', w2) => Some (Ok signal, keys', w2)
      | Some (Raise e, keys', w2) =>
          match e with
          | KeyboardInterrupt =>
              match log_event (now_log turn) "INTERRUPT" w2 with
              | (Ok _, w3) => Some (Ok Break, keys', w3)
              | (Raise e', w3) => Some (Raise e', keys', w3)
              end
          | _ =>
              if is_Exception e then Some (Ok Continue, keys', w2)
              else Some (Raise e, keys', w2)
          end
      end
  end.

(** [while True]: at most [fuel] turns. *)
Fixpoint menu_loop (fuel : nat) (client : QwenClient) (turn : nat) (keys : keyboard)
         (w : world) : option (outcome unit * keyboard * world) :=
  match fuel with
  | O => None
  | S fuel' =>
      match menu_turn client turn keys w with
      | None => None
      | Some (Ok Continue, keys', w') => menu_loop fuel' client (S turn) keys' w'
      | Some (Ok Break, keys', w') => Some (Ok tt, keys', w')
      | Some (Raise e, keys', w') => Some (Raise e, keys', w')
      end
  end.

(** [GenyxAI.run]: every turn that goes on takes at least one line, so one
    turn more than there are lines is fuel enough; [None] is the program
    waiting for a line the list does not have. *)
Definition run (client : QwenClient) (turn : nat) (keys : keyboard) (w : world)
  : option (outcome unit * keyboard * world) :=
  menu_loop (S (List.length keys)) client turn keys w.

Variable json_load : string -> outcome pyval.

(** [main]: build the application, run it, and turn any ordinary
    exception into [sys.exit(1)]. *)
Definition main (hf_token : option string) (keys : keyboard) (w : world)
  : option (outcome unit * keyboard * world) :=
  let fatal (e : exn) : exn := if is_Exception e then SystemExit else e in
  match GenyxAI_init json_dump json_load (now_iso 0) hf_token (now_log 0) w with
  | (Raise e, w1) => Some (Raise (fatal e), keys, w1)
  | (Ok client, w1) =>
      match run client 1 keys w1 with
      | None => None
      | Some (Ok _, keys', w2) => Some (Ok tt, keys', w2)
      | Some (Raise e, keys', w2) => Some (Raise (fatal e), keys', w2)
      end
  end.

End Screens.

(** ** Sample instances, for evaluating the model *)

(** A [repr] for floats that is Python's on the constants listed. *)
Definition sample_float_repr (f : float) : string :=
  if PrimFloat.eqb f 0%float then "0.0"
  else if PrimFloat.eqb f 1%float then "1.0"
  else if PrimFloat.eqb f 0.5%float then "0.5"
  else "nan".

(** A small JSON codec in the layout of [json.dump(..., indent=2,
    ensure_ascii=False)].  It reads back what it writes for documents
    without floats; it reads no fractions, exponents or [\u] escapes above
    [ÿ]. *)

Definition json_indent (level : nat) : string :=
  newline ++ str_repeat " " (2 * level).

Definition json_escape_char (c : ascii) : string :=
  let n := nat_of_ascii c in
  if Ascii.eqb c dquote then String backslash (String dquote "")
  else if Ascii.eqb c backslash then String backslash (String backslash "")
  else if (n =? 8)%nat then String backslash "b"
  else if (n =? 9)%nat then String backslash "t"
  else if (n =? 10)%nat then String backslash "n"
  else if (n =? 12)%nat then String backslash "f"
  else if (n =? 13)%nat then String backslash "r"
  else if (n <? 32)%nat
  then String backslash
         (String "u" (String "0" (String "0"
            (String (hex_digit (n / 16)) (String (hex_digit (n mod 16)) "")))))
  else String c "".

Fixpoint json_escape (s : string) : string :=
  match s with
  | "" => ""
  | String c s' => json_escape_char c ++ json_escape s'
  end.

Definition json_string (s : string) : string :=
  String dquote (json_escape s ++ String dquote "").

Fixpoint json_dump_at (float_repr : float -> string) (level : nat) (v : pyval) : string :=
  match v with
  | PNone => "null"
  | PBool true => "true"
  | PBool false => "false"
  | PInt z => repr_int z
  | PFloat f => float_repr f
  | PStr s => json_string s
  | PList [] => "[]"
  | PList l =>
      "[" ++ json_indent (S level)
          ++ str_join ("," ++ json_indent (S level))
               (map (json_dump_at float_repr (S level)) l)
          ++ json_indent level ++ "]"
  | PDict [] => "{}"
  | PDict d =>
      "{" ++ json_indent (S level)
          ++ str_join ("," ++ json_indent (S level))
               (map (fun kv => json_string (fst kv) ++ ": "
                               ++ json_dump_at float_repr (S level) (snd kv)) d)
          ++ json_indent level ++ "}"
  end.

Definition is_json_space (c : ascii) : bool :=
  let n := nat_of_ascii c in
  ((n =? 32) || (n =? 9) || (n =? 10) || (n =? 13))%nat.

Fixpoint skip_space (s : string) : string :=
  match s with
  | String c s' => if is_json_space c then skip_space s' else s
  | "" => ""
  end.

Definition digit_of (c : ascii) : option Z :=
  let n := nat_of_ascii c in
  if ((48 <=? n) && (n <=? 57))%nat then Some (Z.of_nat (n - 48)) else None.

Definition hex_of (c : ascii) : option nat :=
  let n := nat_of_ascii c in
  if ((48 <=? n) && (n <=? 57))%nat then Some (n - 48)
  else if ((97 <=? n) && (n <=? 102))%nat then Some (n - 87)
  else if ((65 <=? n) && (n <=? 70))%nat then Some (n - 55)
  else None.

(** The digits at the head of [s], read onto [acc]. *)
Fixpoint read_digits (acc : Z) (s : string) : Z * string :=
  match s with
  | String c s' =>
      match digit_of c with
      | Some d => read_digits (10 * acc + d) s'
      | None => (acc, s)
      end
  | "" => (acc, "")
  end.

Definition starts_fraction (s : string) : bool :=
  match s with
  | String c _ => Ascii.eqb c "." || Ascii.eqb c "e" || Ascii.eqb c "E"
  | "" => false
  end.

(** An integer literal at the head of [s]. *)
Definition read_int (s : string) : option (Z * string) :=
  let '(negative, body) :=
    match s with
    | String "-" s' => (true, s')
    | _ => (false, s)
    end in
  match body with
  | String c _ =>
      match digit_of c with
      | Some _ =>
          let '(n, rest) := read_digits 0 body in
          if starts_fraction rest then None
          else Some (if negative then (- n)%Z else n, rest)
      | None => None
      end
  | "" => None
  end.

(** The text of a string literal, after its opening quote. *)
Fixpoint read_string (s : string) : option (string * string) :=
  match s with
  | "" => None
  | String c s' =>
      if Ascii.eqb c dquote then Some ("", s')
      else if Ascii.eqb c backslash
      then match s' with
           | String e s'' =>
               let continue_with (x : ascii) (tail : string) :=
                 match read_string tail with
                 | Some (t, rest) => Some (String x t, rest)
                 | None => None
                 end in
               if Ascii.eqb e dquote then continue_with dquote s''
               else if Ascii.eqb e backslash then continue_with backslash s''
               else if Ascii.eqb e "/" then continue_with "/"%char s''
               else if Ascii.eqb e "b" then continue_with (ascii_of_nat 8) s''
               else if Ascii.eqb e "f" then continue_with (ascii_of_nat 12) s''
               else if Ascii.eqb e "n" then continue_with (ascii_of_nat 10) s''
               else if Ascii.eqb e "r" then continue_with (ascii_of_nat 13) s''
               else if Ascii.eqb e "t" then continue_with (ascii_of_nat 9) s''
               else if Ascii.eqb e "u"
               then match s'' with
                    | String "0" (String "0" (String h1 (String h2 tail))) =>
                        match hex_of h1, hex_of h2 with
                        | Some a, Some b => continue_with (ascii_of_nat (16 * a + b)) tail
                        | _, _ => None
                        end
                    | _ => None
                    end
               else None
           | "" => None
           end
      else if (nat_of_ascii c <? 32)%nat then None
      else match read_string s' with
           | Some (t, rest) => Some (String c t, rest)
           | None => None
           end
  end.

Definition starts_with (prefix s : string) : option string :=
  if String.prefix prefix s
  then Some (substring (String.length prefix) (String.length s - String.length prefix) s)
  else None.

(** One JSON value at the head of [s]; [fuel] bounds the nesting and the
    number of items. *)
Fixpoint read_value (fuel : nat) (s : string) : option (pyval * string) :=
  match fuel with
  | O => None
  | S fuel' =>
      let read_items :=
        fix read_items (n : nat) (acc : list pyval) (s : string)
          : option (pyval * string) :=
          match n with
          | O => None
          | S n' =>
              match read_value fuel' (skip_space s) with
              | Some (v, rest) =>
                  match skip_space rest with
                  | String "," rest' => read_items n' (acc ++ [v])%list rest'
                  | String "]" rest' => Some (PList (acc ++ [v]), rest')
                  | _ => None
                  end
              | None => None
              end
          end in
      let read_members :=
        fix read_members (n : nat) (acc : list (string * pyval)) (s : string)
          : option (pyval * string) :=
          match n with
          | O => None
          | S n' =>
              match skip_space s with
              | String q s1 =>
                  if Ascii.eqb q dquote
                  then match read_string s1 with
                       | Some (k, rest) =>
                           match skip_space rest with
                           | String ":" rest1 =>
                               match read_value fuel' (skip_space rest1) with
                               | Some (v, rest2) =>
                                   match skip_space rest2 with
                                   | String "," rest3 =>
                                       read_members n' (dict_set k v acc) rest3
                                   | String "}" rest3 =>
                                       Some (PDict (dict_set k v acc), rest3)
                                   | _ => None
                                   end
                               | None => None
                               end
                           | _ => None
                           end
                       | None => None
                       end
                  else None
              | "" => None
              end
          end in
      match s with
      | String "[" s' =>
          match skip_space s' with
          | String "]" rest => Some (PList [], rest)
          | _ => read_items fuel' [] s'
          end
      | String "{" s' =>
          match skip_space s' with
          | String "}" rest => Some (PDict [], rest)
          | _ => read_members fuel' [] s'
          end
      | String c s' =>
          if Ascii.eqb c dquote
          then match read_string s' with
               | Some (t, rest) => Some (PStr t, rest)
               | None => None
               end
          else match starts_with "null" s, starts_with "true" s, starts_with "false" s with
               | Some rest, _, _ => Some (PNone, rest)
               | _, Some rest, _ => Some (PBool true, rest)
               | _, _, Some rest => Some (PBool false, rest)
               | None, None, None =>
                   match read_int s with
                   | Some (n, rest) => Some (PInt n, rest)
                   | None => None
                   end
               end
      | "" => None
      end
  end.

Definition sample_json_dump (v : pyval) : string :=
  json_dump_at sample_float_repr 0 v.

Definition sample_json_load (t : string) : outcome pyval :=
  match read_value (S (String.length t)) (skip_space t) with
  | Some (v, rest) =>
      match skip_space rest with
      | "" => Ok v
      | _ => Raise JSONDecodeError
      end
  | None => Raise JSONDecodeError
  end.

(** A document after some use, with a quote, a backslash and a line break
    in a stored text. *)
Definition sample_document : pyval :=
  history_document "2025-01-01T00:00:00" 3 2 1 7
    [ PDict [ ("timestamp", PStr "2025-01-02T08:30:00.125000");
              ("type", PStr "prompt");
              ("prompt", PStr "tides");
              ("response",
               PStr ("Say " ++ String dquote ("ebb" ++ String dquote (" \\ flow," ++ newline
                                                                    ++ "twice a day.")))) ] ].

Definition sample_client : QwenClient := mk_QwenClient API_ENDPOINT "hf_sample".

(** A world with the default document in memory, no files yet, and an
    endpoint that gives every request the same answer. *)
Definition sample_world (answer : post_outcome) : world :=
  mk_world (_create_default "2025-01-01T00:00:00") Absent true "" true
           (fun _ => answer) [] [].

(** * Properties *)

(** ** QwenClient.generate *)

Section GenerateFacts.

Variable float_repr : float -> string.
Variables (self : QwenClient) (prompt : string) (max_tokens : Z) (temperature : float).
Variable w : world.

Let req := generate_request self prompt max_tokens temperature.
Let w_sent := set_requests_sent (requests_sent w ++ [req]) w.

Lemma generate_post_raises (e : exn) :
  network w req = PostRaises e ->
  generate float_repr self prompt max_tokens temperature w
  = if is_Exception e then (Ok PNone, w_sent) else (Raise e, w_sent).
Proof.
  intros Hnet. unfold generate, try_except, bind, requests_post.
  fold req. rewrite Hnet. fold w_sent.
  destruct e; reflexivity.
Qed.

Lemma generate_status_not_200 (r : response) :
  network w req = PostReturns r ->
  status_code r <> 200%Z ->
  generate float_repr self prompt max_tokens temperature w = (Ok PNone, w_sent).
Proof.
  intros Hnet Hst. unfold generate, try_except, bind, requests_post.
  fold req. rewrite Hnet. fold w_sent.
  apply Z.eqb_neq in Hst. rewrite Hst.
  destruct (status_code r =? 503)%Z; [reflexivity|].
  destruct (status_code r =? 401)%Z; [reflexivity|].
  destruct (status_code r =? 429)%Z; reflexivity.
Qed.

Lemma generate_status_200 (r : response) :
  network w req = PostReturns r ->
  status_code r = 200%Z ->
  generate float_repr self prompt max_tokens temperature w
  = match json r with
    | Raise e => if is_Exception e then (Ok PNone, w_sent) else (Raise e, w_sent)
    | Ok result =>
        match
          match result with
          | PList (first :: _) => py_get first "generated_text" (PStr "")
          | PDict _ => py_get result "generated_text" (PStr "")
          | _ => Ok (PStr (py_str float_repr result))
          end
        with
        | Raise e => if is_Exception e then (Ok PNone, w_sent) else (Raise e, w_sent)
        | Ok text => (Ok (if py_truthy text then text else PNone), w_sent)
        end
    end.
Proof.
  intros Hnet Hst. unfold generate, try_except, bind, requests_post.
  fold req. rewrite Hnet. fold w_sent. rewrite Hst. cbn [Z.eqb Pos.eqb].
  unfold lift.
  destruct (json r) as [result|e]; [|destruct e; reflexivity].
  assert (Htail : forall o : outcome pyval,
             (let (o0, w') :=
                (let (o1, w1) := (o, w_sent) in
                 match o1 with
                 | Ok text => (if py_truthy text then ret text else ret PNone) w1
                 | Raise e => (Raise e, w1)
                 end) in
              match o0 with
              | Ok a => (Ok a, w')
              | Raise e =>
                  (if is_requests_Timeout e then ret PNone
                   else if is_Exception e then ret PNone else raise e) w'
              end)
             = match o with
               | Raise e => if is_Exception e then (Ok PNone, w_sent) else (Raise e, w_sent)
               | Ok text => (Ok (if py_truthy text then text else PNone), w_sent)
               end).
  { intros [text|e]; [destruct (py_truthy text); reflexivity|].
    destruct e; reflexivity. }
  destruct result as [ |b|z|f|s|l|d].
  - exact (Htail (Ok (PStr (py_str float_repr PNone)))).
  - exact (Htail (Ok (PStr (py_str float_repr (PBool b))))).
  - exact (Htail (Ok (PStr (py_str float_repr (PInt z))))).
  - exact (Htail (Ok (PStr (py_str float_repr (PFloat f))))).
  - exact (Htail (Ok (PStr (py_str float_repr (PStr s))))).
  - destruct l as [|first l'].
    + exact (Htail (Ok (PStr (py_str float_repr (PList []))))).
    + exact (Htail (py_get first "generated_text" (PStr ""))).
  - exact (Htail (py_get (PDict d) "generated_text" (PStr ""))).
Qed.

End GenerateFacts.


(** C1.  For every HTTP status code other than 200, and whenever the
    request times out or a transport or parse exception occurs (the post
    raises, or reading the body as JSON raises, an exception derived from
    [Exception], as [requests.Timeout], [requests.ConnectionError] and the
    JSON decode error are), [generate] returns [None]; nothing is raised,
    and nothing but the list of posted requests has changed. *)
Theorem generate_failure_returns_None :
  forall float_repr self prompt max_tokens temperature w,
    let req := generate_request self prompt max_tokens temperature in
    (exists r, network w req = PostReturns r /\ status_code r <> 200%Z)
    \/ (exists e, network w req = PostRaises e /\ is_Exception e = true)
    \/ (exists r e, network w req = PostReturns r /\ json r = Raise e
                    /\ is_Exception e = true) ->
    generate float_repr self prompt max_tokens temperature w
    = (Ok PNone, set_requests_sent (requests_sent w ++ [req]) w).
Proof.
  intros fr self prompt mt temp w req [(r & Hnet & Hst)|[(e & Hnet & He)|(r & e & Hnet & Hj & He)]].
  - exact (generate_status_not_200 fr self prompt mt temp w r Hnet Hst).
  - rewrite (generate_post_raises fr self prompt mt temp w e Hnet), He. reflexivity.
  - destruct (Z.eq_dec (status_code r) 200) as [Hst|Hst].
    + rewrite (generate_status_200 fr self prompt mt temp w r Hnet Hst), Hj, He.
      reflexivity.
    + exact (generate_status_not_200 fr self prompt mt temp w r Hnet Hst).
Qed.

Lemma generate_failure_returns_None_witness :
  fst (generate sample_float_repr sample_client "tides" 512 0.7%float
         (sample_world (PostReturns (mk_response 503 (Raise JSONDecodeError)))))
  = Ok PNone
  /\ fst (generate sample_float_repr sample_client "tides" 512 0.7%float
            (sample_world (PostRaises requests_Timeout)))
     = Ok PNone.
Proof.
  split.
  - rewrite (generate_failure_returns_None sample_float_repr sample_client "tides" 512
               0.7%float (sample_world (PostReturns (mk_response 503 (Raise JSONDecodeError))))).
    + reflexivity.
    + left. eexists. split; [reflexivity|]. cbn. discriminate.
  - rewrite (generate_failure_returns_None sample_float_repr sample_client "tides" 512
               0.7%float (sample_world (PostRaises requests_Timeout))).
    + reflexivity.
    + right. left. eexists. split; reflexivity.
Defined.

(** C3.  On a 200 response [generate] takes the text from the first object
    of a list body, or from an object body: the value under
    ["generated_text"], the empty string when the key is missing, returned
    when it is truthy and replaced by [None] when not.  The body
    [[{"generated_text": "Hello"}]] gives ["Hello"], and the body
    [[{"generated_text": ""}]] gives [None]. *)
Theorem generate_extracts_generated_text :
  forall float_repr self prompt max_tokens temperature w r,
    let req := generate_request self prompt max_tokens temperature in
    let w_sent := set_requests_sent (requests_sent w ++ [req]) w in
    let text_of d :=
      match dict_get "generated_text" d with Some x => x | None => PStr "" end in
    network w req = PostReturns r ->
    status_code r = 200%Z ->
    (forall d rest, json r = Ok (PList (PDict d :: rest)) ->
       generate float_repr self prompt max_tokens temperature w
       = (Ok (if py_truthy (text_of d) then text_of d else PNone), w_sent))
    /\ (forall d, json r = Ok (PDict d) ->
          generate float_repr self prompt max_tokens temperature w
          = (Ok (if py_truthy (text_of d) then text_of d else PNone), w_sent))
    /\ (json r = Ok (PList [PDict [("generated_text", PStr "Hello")]]) ->
        generate float_repr self prompt max_tokens temperature w
        = (Ok (PStr "Hello"), w_sent))
    /\ (json r = Ok (PList [PDict [("generated_text", PStr "")]]) ->
        generate float_repr self prompt max_tokens temperature w
        = (Ok PNone, w_sent)).
Proof.
  intros fr self prompt mt temp w r req w_sent text_of Hnet Hst.
  pose proof (generate_status_200 fr self prompt mt temp w r Hnet Hst) as H.
  repeat split; intros; rewrite H;
    match goal with Hj : json r = _ |- _ => rewrite Hj end; reflexivity.
Qed.

Lemma generate_extracts_generated_text_witness :
  fst (generate sample_float_repr sample_client "tides" 512 0.7%float
         (sample_world
            (PostReturns
               (mk_response 200 (Ok (PList [PDict [("generated_text", PStr "Hello")]]))))))
  = Ok (PStr "Hello").
Proof.
  pose proof (generate_extracts_generated_text sample_float_repr sample_client "tides" 512
                0.7%float
                (sample_world
                   (PostReturns
                      (mk_response 200
                         (Ok (PList [PDict [("generated_text", PStr "Hello")]])))))
                (mk_response 200 (Ok (PList [PDict [("generated_text", PStr "Hello")]])))
                eq_refl eq_refl) as (_ & _ & H & _).
  rewrite (H eq_refl). reflexivity.
Defined.

(** *** The fallback: a body that is neither a non-empty list nor an object *)

Lemma string_of_uint_nonempty (d : Decimal.uint) :
  NilZero.string_of_uint d <> "".
Proof.
  destruct d; cbn; discriminate.
Qed.

Lemma repr_int_nonempty (z : Z) : repr_int z <> "".
Proof.
  unfold repr_int, NilZero.string_of_int.
  destruct (Z.to_int z) as [d|d].
  - apply string_of_uint_nonempty.
  - discriminate.
Qed.

(** The coercion [str(body)] is empty only for the empty string, as long
    as no float prints as nothing. *)
Lemma py_str_empty_iff (float_repr : float -> string) (body : pyval) :
  (forall f, float_repr f <> "") ->
  match body with PList (_ :: _) | PDict _ => False | _ => True end ->
  (py_str float_repr body = "" <-> body = PStr "").
Proof.
  intros Hf Hshape. split.
  - destruct body as [ |b|z|f|s|l|d]; cbn; intros H.
    + discriminate.
    + destruct b; discriminate.
    + destruct (repr_int_nonempty z H).
    + destruct (Hf f H).
    + now subst.
    + discriminate.
    + destruct Hshape.
  - intros ->. reflexivity.
Qed.

(** C9, as the code has it.  On a 200 response whose JSON body is neither
    a non-empty list nor an object, [generate] returns the coercion
    [str(body)] when that text is not empty, and [None] when it is; so the
    empty list gives ["[]"], and among such bodies only the empty JSON
    string gives [None] (no float prints as nothing). *)
Theorem generate_fallback_coerces_body :
  forall float_repr self prompt max_tokens temperature w r body,
    let req := generate_request self prompt max_tokens temperature in
    let w_sent := set_requests_sent (requests_sent w ++ [req]) w in
    network w req = PostReturns r ->
    status_code r = 200%Z ->
    json r = Ok body ->
    match body with PList (_ :: _) | PDict _ => False | _ => True end ->
    generate float_repr self prompt max_tokens temperature w
    = (Ok (if py_str float_repr body =? "" then PNone else PStr (py_str float_repr body)),
       w_sent)
    /\ (body = PList [] ->
        generate float_repr self prompt max_tokens temperature w
        = (Ok (PStr "[]"), w_sent))
    /\ ((forall f, float_repr f <> "") ->
        (fst (generate float_repr self prompt max_tokens temperature w) = Ok PNone
         <-> body = PStr "")).
Proof.
  intros fr self prompt mt temp w r body req w_sent Hnet Hst Hj Hshape.
  pose proof (generate_status_200 fr self prompt mt temp w r Hnet Hst) as H.
  rewrite Hj in H.
  assert (Hgen : generate fr self prompt mt temp w
                 = (Ok (if py_str fr body =? "" then PNone else PStr (py_str fr body)),
                    w_sent)).
  { rewrite H.
    destruct body as [ |b|z|f|s|l|d]; try reflexivity;
      try (cbn [py_truthy]; destruct (_ =? ""); reflexivity).
    - destruct l; [reflexivity|destruct Hshape].
    - destruct Hshape. }
  split; [exact Hgen|]. split.
  - intros ->. rewrite Hgen. reflexivity.
  - intros Hf. rewrite Hgen. cbn [fst].
    rewrite <- (py_str_empty_iff fr body Hf Hshape).
    destruct (py_str fr body =? "") eqn:E.
    + apply String.eqb_eq in E. tauto.
    + apply String.eqb_neq in E. split; [discriminate|contradiction].
Qed.

Lemma generate_fallback_coerces_body_witness :
  fst (generate sample_float_repr sample_client "tides" 512 0.7%float
         (sample_world (PostReturns (mk_response 200 (Ok (PList []))))))
  = Ok (PStr "[]").
Proof.
  pose proof (generate_fallback_coerces_body sample_float_repr sample_client "tides" 512
                0.7%float
                (sample_world (PostReturns (mk_response 200 (Ok (PList [])))))
                (mk_response 200 (Ok (PList []))) (PList [])
                eq_refl eq_refl eq_refl I) as (_ & H & _).
  rewrite (H eq_refl). reflexivity.
Defined.

(** The JSON document [""] is a 200 body that is neither a non-empty list
    nor an object; its coercion is the empty string, and [generate]
    returns [None], not that coercion. *)
Lemma generate_empty_string_body_returns_None :
  let body := PStr "" in
  let out := fst (generate sample_float_repr sample_client "tides" 512 0.7%float
                    (sample_world (PostReturns (mk_response 200 (Ok body))))) in
  match body with PList (_ :: _) | PDict _ => False | _ => True end
  /\ out = Ok PNone
  /\ out <> Ok (PStr (py_str sample_float_repr body)).
Proof.
  cbv zeta. split; [exact I|]. split; [reflexivity|]. cbn. discriminate.
Qed.


(** ** The state-and-exception monad *)

Lemma bind_Ok_inv {A B : Type} (m : M A) (k : A -> M B) (w w' : world) (b : B) :
  bind m k w = (Ok b, w') ->
  exists a w1, m w = (Ok a, w1) /\ k a w1 = (Ok b, w').
Proof.
  unfold bind. destruct (m w) as [[a|e] w1]; intros H.
  - exists a, w1. split; [reflexivity|exact H].
  - discriminate H.
Qed.

Lemma lift_Ok_inv {A : Type} (o : outcome A) (w w' : world) (a : A) :
  lift o w = (Ok a, w') -> o = Ok a /\ w' = w.
Proof.
  unfold lift. intros H. injection H as -> ->. split; reflexivity.
Qed.

(** ** Dictionaries *)

Lemma dict_get_set_same (k : string) (v : pyval) (d : list (string * pyval)) :
  dict_get k (dict_set k v d) = Some v.
Proof.
  induction d as [|[k' v'] d IH]; cbn.
  - rewrite String.eqb_refl. reflexivity.
  - destruct (k' =? k) eqn:E; cbn.
    + rewrite String.eqb_refl. reflexivity.
    + rewrite E. exact IH.
Qed.

Lemma dict_get_set_other (k k0 : string) (v : pyval) (d : list (string * pyval)) :
  k0 <> k ->
  dict_get k0 (dict_set k v d) = dict_get k0 d.
Proof.
  intros Hne. induction d as [|[k' v'] d IH]; cbn.
  - destruct (k =? k0) eqn:E; [|reflexivity].
    apply String.eqb_eq in E. congruence.
  - destruct (k' =? k) eqn:E; cbn.
    + apply String.eqb_eq in E. subst k'.
      destruct (k =? k0) eqn:E0; [|reflexivity].
      apply String.eqb_eq in E0. congruence.
    + destruct (k' =? k0); [reflexivity|exact IH].
Qed.

Lemma py_getitem_Ok_inv (v : pyval) (k : string) (x : pyval) :
  py_getitem v k = Ok x ->
  exists d, v = PDict d /\ dict_get k d = Some x.
Proof.
  destruct v; cbn; try discriminate.
  destruct (dict_get k d) eqn:E; [|discriminate].
  intros H. injection H as ->. eauto.
Qed.

Lemma py_getitem_set_same (d : list (string * pyval)) (k : string) (x : pyval) :
  py_getitem (PDict (dict_set k x d)) k = Ok x.
Proof.
  cbn. rewrite dict_get_set_same. reflexivity.
Qed.

Lemma py_getitem_set_other (d : list (string * pyval)) (k k0 : string) (x : pyval) :
  k0 <> k ->
  py_getitem (PDict (dict_set k x d)) k0 = py_getitem (PDict d) k0.
Proof.
  intros Hne. cbn. rewrite (dict_get_set_other k k0 x d Hne). reflexivity.
Qed.

(** ** BrainHistory: loading and saving *)

(** [save] swallows a failed write: it always returns, and the file holds
    the serialised document exactly when it could be opened for writing. *)
Lemma save_spec (json_dump : pyval -> string) (w : world) :
  save json_dump w
  = (Ok tt,
     if brain_history_writable w
     then set_brain_history (Content (json_dump (data w))) w
     else w).
Proof.
  unfold save, try_except, bind, get_data, write_brain_history.
  destruct (brain_history_writable w); reflexivity.
Qed.

Lemma save_keeps_data (json_dump : pyval -> string) (w : world) :
  data (snd (save json_dump w)) = data w.
Proof.
  rewrite save_spec. cbn. destruct (brain_history_writable w); reflexivity.
Qed.

(** What [_load] returns, by the state of the file. *)
Lemma _load_spec (json_load : string -> outcome pyval) (now : string) (w : world) :
  _load json_load now w
  = (Ok match brain_history w with
        | Absent => _create_default now
        | Unreadable _ => _create_default now
        | Content t =>
            match json_load t with
            | Ok d => d
            | Raise _ => _create_default now
            end
        end,
     w).
Proof.
  unfold _load, bind, path_exists, try_except, read_brain_history, lift, ret.
  destruct (brain_history w) as [|e|t] eqn:E; cbn; rewrite ?E; try reflexivity.
  destruct (json_load t); reflexivity.
Qed.

(** C8.  [_load] never raises and leaves the world as it was.  When the
    history file is absent, cannot be read, or holds a text that
    [json.load] rejects, it returns the default document for the current
    time: every statistics counter zero, [total_interactions] zero, no
    interactions. *)
Theorem load_falls_back_to_default :
  forall (json_load : string -> outcome pyval) (now : string) (w : world),
    (exists d, _load json_load now w = (Ok d, w))
    /\ (brain_history w = Absent
        \/ (exists e, brain_history w = Unreadable e)
        \/ (exists t e, brain_history w = Content t /\ json_load t = Raise e) ->
        _load json_load now w = (Ok (_create_default now), w))
    /\ py_getitem2 (_create_default now) "metadata" "total_interactions" = Ok (PInt 0)
    /\ py_getitem2 (_create_default now) "statistics" "prompts_generated" = Ok (PInt 0)
    /\ py_getitem2 (_create_default now) "statistics" "mindmaps_created" = Ok (PInt 0)
    /\ py_getitem2 (_create_default now) "statistics" "sessions" = Ok (PInt 0)
    /\ py_getitem (_create_default now) "interactions" = Ok (PList []).
Proof.
  intros json_load now w. rewrite _load_spec.
  split; [eexists; reflexivity|].
  split; [|repeat split; reflexivity].
  intros [H|[(e & H)|(t & e & H & Hj)]]; rewrite H; try rewrite Hj; reflexivity.
Qed.

Lemma load_falls_back_to_default_witness :
  _load sample_json_load "2025-06-01T12:00:00"
        (set_brain_history (Content "{ not json") (sample_world (PostRaises OSError)))
  = (Ok (_create_default "2025-06-01T12:00:00"),
     set_brain_history (Content "{ not json") (sample_world (PostRaises OSError))).
Proof.
  apply (load_falls_back_to_default sample_json_load "2025-06-01T12:00:00"
           (set_brain_history (Content "{ not json") (sample_world (PostRaises OSError)))).
  right. right. exists "{ not json", JSONDecodeError. split; reflexivity.
Defined.

(** C7.  Saving the document in memory and loading the file again gives
    back the same document, every counter, metadata field and interaction
    included, provided the file can be written and [json.load] reads
    [json.dump]'s text of this document back as the document.  Nothing on
    this path truncates the interactions: the reloaded list is the saved
    one whatever its length. *)
Theorem save_then_load_round_trip :
  forall (json_dump : pyval -> string) (json_load : string -> outcome pyval)
         (now : string) (w : world),
    brain_history_writable w = true ->
    json_load (json_dump (data w)) = Ok (data w) ->
    let w1 := snd (save json_dump w) in
    fst (save json_dump w) = Ok tt
    /\ brain_history w1 = Content (json_dump (data w))
    /\ _load json_load now w1 = (Ok (data w), w1).
Proof.
  intros json_dump json_load now w Hw Hrt w1. subst w1.
  rewrite _load_spec, save_spec, Hw. cbn. rewrite Hrt. repeat split.
Qed.

Lemma save_then_load_round_trip_witness :
  let w := set_data sample_document (sample_world (PostRaises OSError)) in
  fst (_load sample_json_load "2025-06-01T12:00:00" (snd (save sample_json_dump w)))
  = Ok sample_document.
Proof.
  intros w.
  assert (Hrt : sample_json_load (sample_json_dump (data w)) = Ok (data w))
    by (vm_compute; reflexivity).
  destruct (save_then_load_round_trip sample_json_dump sample_json_load
              "2025-06-01T12:00:00" w eq_refl Hrt) as (_ & _ & H).
  rewrite H. reflexivity.
Defined.

(** ** BrainHistory: the counters *)

(** [self.data[k1][k2] += 1] on an integer counter. *)
Lemma data_incr_spec (k1 k2 : string) (w : world) (d inner : list (string * pyval))
      (n : Z) :
  data w = PDict d ->
  dict_get k1 d = Some (PDict inner) ->
  dict_get k2 inner = Some (PInt n) ->
  data_incr k1 k2 w
  = (Ok tt, set_data (PDict (dict_set k1 (PDict (dict_set k2 (PInt (n + 1)) inner)) d)) w).
Proof.
  intros Hd H1 H2.
  unfold data_incr, data_setitem, bind, get_data, lift, put_data.
  rewrite Hd. cbn. rewrite H1. cbn. rewrite H2. cbn. reflexivity.
Qed.

(** Whenever [self.data[k1][k2] += 1] goes through, the document is a
    dictionary in which only the entry [k1] was replaced, by a dictionary
    in which only the entry [k2] was. *)
Lemma data_incr_Ok_inv (k1 k2 : string) (w w' : world) (u : unit) :
  data_incr k1 k2 w = (Ok u, w') ->
  exists d inner old new,
    data w = PDict d
    /\ dict_get k1 d = Some (PDict inner)
    /\ dict_get k2 inner = Some old
    /\ py_add_one old = Ok new
    /\ w' = set_data (PDict (dict_set k1 (PDict (dict_set k2 new inner)) d)) w.
Proof.
  unfold data_incr, data_setitem. intros H.
  apply bind_Ok_inv in H as (d0 & w1 & Hget & H).
  unfold get_data in Hget. injection Hget as <- <-.
  apply bind_Ok_inv in H as (inner0 & w2 & H1 & H).
  apply lift_Ok_inv in H1 as [H1 ->].
  apply py_getitem_Ok_inv in H1 as (d & Hd & H1).
  apply bind_Ok_inv in H as (old & w3 & H2 & H).
  apply lift_Ok_inv in H2 as [H2 ->].
  apply py_getitem_Ok_inv in H2 as (inner & -> & H2).
  apply bind_Ok_inv in H as (new & w4 & H3 & H).
  apply lift_Ok_inv in H3 as [H3 ->].
  apply bind_Ok_inv in H as (inner' & w5 & H4 & H).
  apply lift_Ok_inv in H4 as [H4 ->]. cbn in H4. injection H4 as <-.
  apply bind_Ok_inv in H as (d1 & w6 & Hget & H).
  unfold get_data in Hget. injection Hget as <- <-.
  apply bind_Ok_inv in H as (d2 & w7 & H5 & H).
  apply lift_Ok_inv in H5 as [H5 ->]. rewrite Hd in H5. cbn in H5. injection H5 as <-.
  unfold put_data in H. injection H as _ <-.
  exists d, inner, old, new. repeat split; assumption.
Qed.

(** C10.  On a document whose [statistics.sessions] is an integer [n],
    [increment_session] returns, and in the document it leaves
    [statistics.sessions] is [n + 1], every other entry of [statistics]
    ([prompts_generated], [mindmaps_created]) is as before, and every other
    entry of the document ([metadata] with its [total_interactions],
    [interactions]) is as before. *)
Theorem increment_session_changes_only_sessions :
  forall (json_dump : pyval -> string) (w : world) (statistics : pyval) (n : Z),
    py_getitem (data w) "statistics" = Ok statistics ->
    py_getitem statistics "sessions" = Ok (PInt n) ->
    exists w' statistics',
      increment_session json_dump w = (Ok tt, w')
      /\ py_getitem (data w') "statistics" = Ok statistics'
      /\ py_getitem statistics' "sessions" = Ok (PInt (n + 1))
      /\ (forall k, k <> "sessions" -> py_getitem statistics' k = py_getitem statistics k)
      /\ (forall k, k <> "statistics" -> py_getitem (data w') k = py_getitem (data w) k)
      /\ py_getitem (data w') "metadata" = py_getitem (data w) "metadata"
      /\ py_getitem (data w') "interactions" = py_getitem (data w) "interactions"
      /\ py_getitem statistics' "prompts_generated"
         = py_getitem statistics "prompts_generated"
      /\ py_getitem statistics' "mindmaps_created"
         = py_getitem statistics "mindmaps_created".
Proof.
  intros json_dump w statistics n H1 H2.
  apply py_getitem_Ok_inv in H1 as (d & Hd & H1).
  apply py_getitem_Ok_inv in H2 as (inner & -> & H2).
  pose proof (data_incr_spec "statistics" "sessions" w d inner n Hd H1 H2) as Hincr.
  set (inner' := dict_set "sessions" (PInt (n + 1)) inner) in *.
  set (d' := dict_set "statistics" (PDict inner') d) in *.
  exists (snd (save json_dump (set_data (PDict d') w))), (PDict inner').
  assert (Hdata : data (snd (save json_dump (set_data (PDict d') w))) = PDict d').
  { rewrite save_keeps_data. reflexivity. }
  assert (Hother : forall k, k <> "statistics" ->
                     py_getitem (PDict d') k = py_getitem (data w) k).
  { intros k Hk. rewrite Hd. apply py_getitem_set_other. exact Hk. }
  assert (Hinner : forall k, k <> "sessions" ->
                     py_getitem (PDict inner') k = py_getitem (PDict inner) k).
  { intros k Hk. apply py_getitem_set_other. exact Hk. }
  rewrite Hdata.
  split.
  { unfold increment_session, bind. rewrite Hincr.
    rewrite (surjective_pairing (save json_dump (set_data (PDict d') w))) at 1.
    rewrite save_spec at 1. reflexivity. }
  split; [apply py_getitem_set_same|].
  split; [apply py_getitem_set_same|].
  split; [exact Hinner|].
  split; [exact Hother|].
  repeat split; first [apply Hother | apply Hinner]; discriminate.
Qed.

Lemma increment_session_changes_only_sessions_witness :
  exists w',
    increment_session sample_json_dump (sample_world (PostRaises OSError)) = (Ok tt, w')
    /\ py_getitem2 (data w') "statistics" "sessions" = Ok (PInt 1).
Proof.
  destruct (increment_session_changes_only_sessions sample_json_dump
              (sample_world (PostRaises OSError))
              (PDict [ ("prompts_generated", PInt 0);
                       ("mindmaps_created", PInt 0);
                       ("sessions", PInt 0) ])
              0%Z eq_refl eq_refl)
    as (w' & st' & Hrun & Hst & Hs & _).
  exists w'. split; [exact Hrun|].
  unfold py_getitem2. rewrite Hst. exact Hs.
Defined.


(** ** BrainHistory: recording an interaction *)

Lemma data_setitem_Ok_inv (k : string) (v : pyval) (w w' : world) (u : unit) :
  data_setitem k v w = (Ok u, w') ->
  exists d, data w = PDict d /\ w' = set_data (PDict (dict_set k v d)) w.
Proof.
  unfold data_setitem. intros H.
  apply bind_Ok_inv in H as (d0 & w1 & Hget & H).
  unfold get_data in Hget. injection Hget as <- <-.
  apply bind_Ok_inv in H as (d1 & w2 & Hset & H).
  apply lift_Ok_inv in Hset as [Hset ->].
  destruct (data w) as [ | | | | | |d] eqn:Hd; try discriminate Hset.
  cbn in Hset. injection Hset as <-.
  unfold put_data in H. injection H as _ <-.
  exists d. split; reflexivity.
Qed.

(** An increment under the key [k1] leaves every other entry of the
    document alone. *)
Lemma data_incr_frame (k1 k2 : string) (w w' : world) (u : unit) :
  data_incr k1 k2 w = (Ok u, w') ->
  forall k, k <> k1 -> py_getitem (data w') k = py_getitem (data w) k.
Proof.
  intros H k Hk.
  apply data_incr_Ok_inv in H as (d & inner & old & new & Hd & _ & _ & _ & ->).
  cbn [data set_data]. rewrite Hd. apply py_getitem_set_other. exact Hk.
Qed.

(** ** Slices *)

Lemma list_last_n_short {A : Type} (n : nat) (l : list A) :
  List.length l <= n -> list_last_n n l = l.
Proof.
  intros H. unfold list_last_n.
  replace (List.length l - n) with 0 by lia. reflexivity.
Qed.

Lemma list_last_n_length {A : Type} (n : nat) (l : list A) :
  List.length (list_last_n n l) = Nat.min n (List.length l).
Proof.
  unfold list_last_n. rewrite length_skipn. lia.
Qed.

(** Keeping the last [n] after each append is keeping the last [n] of
    everything appended. *)
Lemma list_last_n_app {A : Type} (n : nat) (l r : list A) :
  list_last_n n (list_last_n n l ++ r) = list_last_n n (l ++ r).
Proof.
  unfold list_last_n.
  rewrite !length_app, length_skipn.
  destruct (Nat.le_gt_cases (List.length l) n) as [Hle|Hgt].
  - replace (List.length l - n) with 0 by lia. cbn [skipn].
    f_equal. lia.
  - rewrite (skipn_app (List.length l + List.length r - n) l r).
    rewrite (skipn_app (List.length l - (List.length l - n) + List.length r - n)
               (skipn (List.length l - n) l) r).
    rewrite length_skipn, skipn_skipn.
    f_equal; f_equal; lia.
Qed.

(** The cap of [add_interaction]: slicing only a list longer than 100 is
    slicing always. *)
Lemma cap_is_last_100 (l : list pyval) :
  (if (100 <? List.length l)%nat then list_last_n 100 l else l) = list_last_n 100 l.
Proof.
  destruct (100 <? List.length l)%nat eqn:E; [reflexivity|].
  apply Nat.ltb_ge in E. symmetry. apply list_last_n_short. exact E.
Qed.

(** The newest record survives the cap. *)
Lemma list_last_n_snoc {A : Type} (n : nat) (l : list A) (x : A) :
  0 < n ->
  exists older : list A, list_last_n n (l ++ [x]) = (older ++ [x])%list.
Proof.
  intros Hn. unfold list_last_n. rewrite length_app. cbn [List.length].
  rewrite skipn_app.
  replace (List.length l + 1 - n - List.length l) with 0 by lia.
  cbn [skipn]. eauto.
Qed.

Lemma str_take_length (n : nat) (s : string) :
  String.length (str_take n s) = Nat.min n (String.length s).
Proof.
  revert s. induction n as [|n IH]; intros s; [reflexivity|].
  destruct s as [|c s]; [reflexivity|].
  cbn. rewrite IH. reflexivity.
Qed.

Lemma str_take_prefix (n : nat) (s : string) :
  exists rest, s = str_take n s ++ rest.
Proof.
  revert s. induction n as [|n IH]; intros s; [exists s; reflexivity|].
  destruct s as [|c s]; [exists ""; reflexivity|].
  destruct (IH s) as [rest Hrest].
  exists rest. cbn. rewrite <- Hrest. reflexivity.
Qed.

Lemma ret_Ok_inv {A : Type} (a b : A) (w w' : world) :
  ret a w = (Ok b, w') -> b = a /\ w' = w.
Proof.
  unfold ret. intros H. injection H as -> ->. split; reflexivity.
Qed.

Lemma get_data_Ok_inv (d : pyval) (w w' : world) :
  get_data w = (Ok d, w') -> d = data w /\ w' = w.
Proof.
  unfold get_data. intros H. injection H as -> ->. split; reflexivity.
Qed.

(** Whenever [add_interaction] returns: the document was a dictionary with
    a list under ["interactions"], both texts could be sliced, and the
    list is now the last 100 of the old list with the new record appended. *)
Lemma add_interaction_Ok_inv (json_dump : pyval -> string) (now : string)
      (interaction_type prompt response : pyval) (w w' : world) (u : unit) :
  add_interaction json_dump now interaction_type prompt response w = (Ok u, w') ->
  exists d l p r,
    data w = PDict d
    /\ dict_get "interactions" d = Some (PList l)
    /\ py_slice_to 200 prompt = Ok p
    /\ py_slice_to 500 response = Ok r
    /\ py_getitem (data w') "interactions"
       = Ok (PList (list_last_n 100
                      (l ++ [PDict [ ("timestamp", PStr now);
                                     ("type", interaction_type);
                                     ("prompt", p);
                                     ("response", r) ]]))).
Proof.
  unfold add_interaction. intros H.
  apply bind_Ok_inv in H as (d0 & w1 & Hget & H).
  apply get_data_Ok_inv in Hget as [-> ->].
  apply bind_Ok_inv in H as (interactions & w2 & H1 & H).
  apply lift_Ok_inv in H1 as [H1 ->].
  apply py_getitem_Ok_inv in H1 as (d & Hd & H1).
  apply bind_Ok_inv in H as (u1 & w3 & H2 & H).
  apply lift_Ok_inv in H2 as [H2 ->].
  destruct interactions as [ | | | | |l| ]; try discriminate H2. clear H2 u1.
  apply bind_Ok_inv in H as (p & w4 & Hp & H).
  apply lift_Ok_inv in Hp as [Hp ->].
  apply bind_Ok_inv in H as (r & w5 & Hr & H).
  apply lift_Ok_inv in Hr as [Hr ->].
  apply bind_Ok_inv in H as (interactions' & w6 & Happ & H).
  apply lift_Ok_inv in Happ as [Happ ->]. cbn in Happ. injection Happ as <-.
  set (entry := PDict [ ("timestamp", PStr now); ("type", interaction_type);
                        ("prompt", p); ("response", r) ]) in *.
  apply bind_Ok_inv in H as (u2 & w7 & Hset & H).
  apply data_setitem_Ok_inv in Hset as (d' & Hd' & ->).
  rewrite Hd in Hd'. injection Hd' as <-.
  set (w1 := set_data (PDict (dict_set "interactions" (PList (l ++ [entry])) d)) w) in *.
  assert (Hw1 : py_getitem (data w1) "interactions" = Ok (PList (l ++ [entry]))).
  { apply py_getitem_set_same. }
  apply bind_Ok_inv in H as (u3 & w8 & Hmeta & H).
  assert (Hw8 : py_getitem (data w8) "interactions" = Ok (PList (l ++ [entry]))).
  { rewrite (data_incr_frame _ _ _ _ _ Hmeta) by discriminate. exact Hw1. }
  apply bind_Ok_inv in H as (u4 & w9 & Hstat & H).
  assert (Hw9 : py_getitem (data w9) "interactions" = Ok (PList (l ++ [entry]))).
  { destruct (py_eq_str interaction_type "prompt").
    - rewrite (data_incr_frame _ _ _ _ _ Hstat) by discriminate. exact Hw8.
    - destruct (py_eq_str interaction_type "mindmap").
      + rewrite (data_incr_frame _ _ _ _ _ Hstat) by discriminate. exact Hw8.
      + apply ret_Ok_inv in Hstat as [_ ->]. exact Hw8. }
  apply bind_Ok_inv in H as (d9 & w10 & Hget & H).
  apply get_data_Ok_inv in Hget as [-> ->].
  apply bind_Ok_inv in H as (interactions & w11 & H1' & H).
  apply lift_Ok_inv in H1' as [H1' ->].
  rewrite Hw9 in H1'. injection H1' as <-.
  apply bind_Ok_inv in H as (n & w12 & Hn & H).
  apply lift_Ok_inv in Hn as [Hn ->]. cbn [py_len] in Hn. injection Hn as <-.
  apply bind_Ok_inv in H as (u5 & w13 & Hcap & H).
  assert (Hw13 : py_getitem (data w13) "interactions"
                 = Ok (PList (list_last_n 100 (l ++ [entry])))).
  { rewrite <- cap_is_last_100.
    destruct (100 <? List.length (l ++ [entry]))%nat.
    - apply bind_Ok_inv in Hcap as (d9 & w14 & Hget & Hcap).
      apply get_data_Ok_inv in Hget as [-> ->].
      apply bind_Ok_inv in Hcap as (interactions & w15 & H1' & Hcap).
      apply lift_Ok_inv in H1' as [H1' ->].
      rewrite Hw9 in H1'. injection H1' as <-.
      apply bind_Ok_inv in Hcap as (kept & w16 & Hk & Hcap).
      apply lift_Ok_inv in Hk as [Hk ->]. cbn [py_slice_last] in Hk. injection Hk as <-.
      apply data_setitem_Ok_inv in Hcap as (d9 & Hd9 & ->).
      apply py_getitem_set_same.
    - apply ret_Ok_inv in Hcap as [_ ->]. exact Hw9. }
  assert (Hw' : data w' = data w13).
  { rewrite <- (save_keeps_data json_dump w13). rewrite H. reflexivity. }
  exists d, l, p, r. rewrite Hw'. repeat split; assumption.
Qed.

(** C6.  When [add_interaction] is given a prompt and a response that are
    strings and returns, the newest record of the stored list holds the
    first 200 characters of the prompt (all of it when it is shorter) and
    the first 500 characters of the response, whatever their lengths. *)
Theorem add_interaction_stores_truncated_texts :
  forall (json_dump : pyval -> string) (now : string) (interaction_type : pyval)
         (prompt response : string) (w w' : world),
    add_interaction json_dump now interaction_type (PStr prompt) (PStr response) w
    = (Ok tt, w') ->
    (exists older : list pyval,
        py_getitem (data w') "interactions"
        = Ok (PList (older ++ [PDict [ ("timestamp", PStr now);
                                       ("type", interaction_type);
                                       ("prompt", PStr (str_take 200 prompt));
                                       ("response", PStr (str_take 500 response)) ]])))
    /\ String.length (str_take 200 prompt) = Nat.min 200 (String.length prompt)
    /\ String.length (str_take 500 response) = Nat.min 500 (String.length response)
    /\ (exists rest, prompt = str_take 200 prompt ++ rest)
    /\ (exists rest, response = str_take 500 response ++ rest).
Proof.
  intros json_dump now ty prompt response w w' H.
  apply add_interaction_Ok_inv in H as (d & l & p & r & _ & _ & Hp & Hr & H).
  assert (Hp' : p = PStr (str_take 200 prompt)) by (unfold py_slice_to in Hp; congruence).
  assert (Hr' : r = PStr (str_take 500 response)) by (unfold py_slice_to in Hr; congruence).
  subst p r. clear Hp Hr.
  split.
  - destruct (list_last_n_snoc 100 l
                (PDict [ ("timestamp", PStr now); ("type", ty);
                         ("prompt", PStr (str_take 200 prompt));
                         ("response", PStr (str_take 500 response)) ]))
      as [older Holder]; [lia|].
    exists older. rewrite H, Holder. reflexivity.
  - repeat split; first [apply str_take_length | apply str_take_prefix].
Qed.

(** On a document of the default shape, a call with string arguments
    returns and leaves a document of the same shape: one more in
    [total_interactions], one more in the counter of its type, and the
    last 100 of the list with the new record appended. *)
Lemma add_interaction_on_document (json_dump : pyval -> string) (c : interaction_call)
      (w : world) (created : string) (total prompts mindmaps sessions : Z)
      (l : list pyval) :
  data w = history_document created total prompts mindmaps sessions l ->
  exists w',
    add_interaction json_dump (call_now c) (call_type c)
                    (PStr (call_prompt c)) (PStr (call_response c)) w
    = (Ok tt, w')
    /\ data w'
       = history_document created (total + 1)
           (if py_eq_str (call_type c) "prompt" then prompts + 1 else prompts)
           (if py_eq_str (call_type c) "prompt" then mindmaps
            else if py_eq_str (call_type c) "mindmap" then mindmaps + 1 else mindmaps)
           sessions
           (list_last_n 100 (l ++ [interaction_record c]))
    /\ requests_sent w' = requests_sent w
    /\ printed w' = printed w
    /\ learning_log w' = learning_log w.
Proof.
  intros Hd.
  rewrite <- (cap_is_last_100 (l ++ [interaction_record c])).
  unfold add_interaction, data_incr, data_setitem, bind, get_data, lift, put_data.
  rewrite Hd. unfold history_document.
  cbn -[str_take Nat.ltb list_last_n save Z.add].
  destruct (py_eq_str (call_type c) "prompt");
    [|destruct (py_eq_str (call_type c) "mindmap")];
    cbn -[str_take Nat.ltb list_last_n save Z.add];
    fold (interaction_record c);
    destruct (100 <? List.length (l ++ [interaction_record c]))%nat;
    cbn -[str_take Nat.ltb list_last_n save Z.add];
    rewrite save_spec;
    (eexists; split; [reflexivity|]);
    cbn [brain_history_writable set_data];
    destruct (brain_history_writable w); repeat split; reflexivity.
Qed.

Lemma add_interaction_stores_truncated_texts_witness :
  exists (w' : world) (older : list pyval),
    add_interaction sample_json_dump "2025-06-01T12:00:00" (PStr "prompt")
                    (PStr (str_repeat "a" 300)) (PStr (str_repeat "b" 700))
                    (sample_world (PostRaises OSError))
    = (Ok tt, w')
    /\ py_getitem (data w') "interactions"
       = Ok (PList (older ++ [PDict [ ("timestamp", PStr "2025-06-01T12:00:00");
                                      ("type", PStr "prompt");
                                      ("prompt", PStr (str_repeat "a" 200));
                                      ("response", PStr (str_repeat "b" 500)) ]])).
Proof.
  eexists.
  destruct (add_interaction_stores_truncated_texts sample_json_dump
              "2025-06-01T12:00:00" (PStr "prompt")
              (str_repeat "a" 300) (str_repeat "b" 700)
              (sample_world (PostRaises OSError)) _ eq_refl)
    as ((older & Holder) & _).
  exists older. split; [reflexivity|exact Holder].
Defined.

(** A run of calls on a document of the default shape, at most 100
    interactions long: every call returns, the total grows by the number
    of calls, each type counter by the number of calls of its type, and the
    list is the last 100 of the old list followed by the new records. *)
Lemma add_interactions_on_document (json_dump : pyval -> string)
      (calls : list interaction_call) :
  forall (w : world) (created : string) (total prompts mindmaps sessions : Z)
         (l : list pyval),
    data w = history_document created total prompts mindmaps sessions l ->
    List.length l <= 100 ->
    exists w',
      add_interactions json_dump calls w = (Ok tt, w')
      /\ data w'
         = history_document created
             (total + Z.of_nat (List.length calls))
             (prompts
              + Z.of_nat (List.length
                            (filter (fun c => py_eq_str (call_type c) "prompt") calls)))
             (mindmaps
              + Z.of_nat (List.length
                            (filter (fun c => py_eq_str (call_type c) "mindmap") calls)))
             sessions
             (list_last_n 100 (l ++ map interaction_record calls)).
Proof.
  induction calls as [|c calls IH]; intros w created total prompts mindmaps sessions l Hd Hl.
  - exists w. split; [reflexivity|].
    cbn [List.length filter map Z.of_nat]. rewrite !Z.add_0_r, app_nil_r.
    rewrite (list_last_n_short 100 l Hl). exact Hd.
  - destruct (add_interaction_on_document json_dump c w created total prompts mindmaps
                sessions l Hd) as (w1 & Hstep & Hd1 & _).
    destruct (IH w1 _ _ _ _ _ _ Hd1) as (w' & Hrun & Hd').
    { rewrite list_last_n_length. lia. }
    exists w'. split.
    + cbn [add_interactions]. unfold bind. rewrite Hstep. exact Hrun.
    + rewrite Hd'. rewrite list_last_n_app, <- app_assoc.
      cbn [map app filter List.length].
      assert (Hexcl : py_eq_str (call_type c) "prompt" = true ->
                      py_eq_str (call_type c) "mindmap" = false).
      { destruct (call_type c); cbn; try discriminate.
        intros E. apply String.eqb_eq in E. subst. reflexivity. }
      destruct (py_eq_str (call_type c) "prompt") eqn:Ep.
      * rewrite (Hexcl eq_refl). cbn [List.length].
        f_equal; lia.
      * destruct (py_eq_str (call_type c) "mindmap"); cbn [List.length]; f_equal; lia.
Qed.

(** C2.  From the default document, any run of N >= 101 calls of
    [add_interaction] with string arguments returns, and leaves exactly
    100 interactions, the records of the 100 latest calls in order, while
    [metadata.total_interactions] is N. *)
Theorem add_interaction_cap_invariant :
  forall (json_dump : pyval -> string) (now : string)
         (calls : list interaction_call) (w : world),
    data w = _create_default now ->
    101 <= List.length calls ->
    exists (w' : world) (stored : list pyval),
      add_interactions json_dump calls w = (Ok tt, w')
      /\ py_getitem (data w') "interactions" = Ok (PList stored)
      /\ List.length stored = 100
      /\ stored = list_last_n 100 (map interaction_record calls)
      /\ py_getitem2 (data w') "metadata" "total_interactions"
         = Ok (PInt (Z.of_nat (List.length calls))).
Proof.
  intros json_dump now calls w Hd HN.
  destruct (add_interactions_on_document json_dump calls w now 0 0 0 0 [] Hd)
    as (w' & Hrun & Hd'); [cbn; lia|].
  exists w', (list_last_n 100 (map interaction_record calls)).
  rewrite Hd'. cbn [app].
  split; [exact Hrun|]. split; [reflexivity|].
  split; [rewrite list_last_n_length, length_map; lia|].
  split; reflexivity.
Qed.

Lemma add_interaction_cap_invariant_witness :
  exists (w' : world) (stored : list pyval),
    add_interactions sample_json_dump
      (repeat (mk_call "2025-06-01T12:00:00" (PStr "mindmap") "tides" "Moon, Sun") 150)
      (sample_world (PostRaises OSError))
    = (Ok tt, w')
    /\ py_getitem (data w') "interactions" = Ok (PList stored)
    /\ List.length stored = 100
    /\ py_getitem2 (data w') "metadata" "total_interactions" = Ok (PInt 150).
Proof.
  destruct (add_interaction_cap_invariant sample_json_dump "2025-01-01T00:00:00"
              (repeat (mk_call "2025-06-01T12:00:00" (PStr "mindmap") "tides" "Moon, Sun") 150)
              (sample_world (PostRaises OSError)) eq_refl)
    as (w' & stored & Hrun & Hget & Hlen & _ & Htotal).
  - rewrite repeat_length. lia.
  - exists w', stored. repeat split; assumption.
Defined.


(** ** What is shown to the user *)

Create HintDb keeps discriminated.

Lemma keeps_ret {A : Type} (a : A) : keeps_printed (ret a).
Proof. intros w. reflexivity. Qed.

Lemma keeps_raise {A : Type} (e : exn) : keeps_printed (@raise A e).
Proof. intros w. reflexivity. Qed.

Lemma keeps_lift {A : Type} (o : outcome A) : keeps_printed (lift o).
Proof. intros w. reflexivity. Qed.

Lemma keeps_bind {A B : Type} (m : M A) (k : A -> M B) :
  keeps_printed m -> (forall a, keeps_printed (k a)) -> keeps_printed (bind m k).
Proof.
  intros Hm Hk w. unfold bind. specialize (Hm w).
  destruct (m w) as [[a|e] w1]; cbn in *.
  - rewrite (Hk a w1). exact Hm.
  - exact Hm.
Qed.

Lemma keeps_try_except {A : Type} (body : M A) (handler : exn -> M A) :
  keeps_printed body -> (forall e, keeps_printed (handler e)) ->
  keeps_printed (try_except body handler).
Proof.
  intros Hb Hh w. unfold try_except. specialize (Hb w).
  destruct (body w) as [[a|e] w1]; cbn in *.
  - exact Hb.
  - rewrite (Hh e w1). exact Hb.
Qed.

Lemma keeps_if {A : Type} (c : bool) (m1 m2 : M A) :
  keeps_printed m1 -> keeps_printed m2 -> keeps_printed (if c then m1 else m2).
Proof. destruct c; auto. Qed.

Lemma keeps_get_data : keeps_printed get_data.
Proof. intros w. reflexivity. Qed.

Lemma keeps_put_data (d : pyval) : keeps_printed (put_data d).
Proof. intros w. reflexivity. Qed.

Lemma keeps_write_brain_history (t : string) : keeps_printed (write_brain_history t).
Proof. intros w. unfold write_brain_history. destruct (brain_history_writable w); reflexivity. Qed.

Lemma keeps_append_learning_log (t : string) : keeps_printed (append_learning_log t).
Proof. intros w. unfold append_learning_log. destruct (learning_log_writable w); reflexivity. Qed.

#[local] Hint Resolve keeps_ret keeps_raise keeps_lift keeps_bind keeps_try_except keeps_if
  keeps_get_data keeps_put_data keeps_write_brain_history keeps_append_learning_log : keeps.

Lemma keeps_data_setitem (k : string) (v : pyval) : keeps_printed (data_setitem k v).
Proof. unfold data_setitem. auto 10 with keeps. Qed.

#[local] Hint Resolve keeps_data_setitem : keeps.

Lemma keeps_data_incr (k1 k2 : string) : keeps_printed (data_incr k1 k2).
Proof. unfold data_incr. auto 12 with keeps. Qed.

Lemma keeps_save (json_dump : pyval -> string) : keeps_printed (save json_dump).
Proof. unfold save. auto 10 with keeps. Qed.

#[local] Hint Resolve keeps_data_incr keeps_save : keeps.

Lemma keeps_add_interaction (json_dump : pyval -> string) (now : string)
      (interaction_type prompt response : pyval) :
  keeps_printed (add_interaction json_dump now interaction_type prompt response).
Proof. unfold add_interaction. auto 30 with keeps. Qed.

Lemma keeps_log (float_repr : float -> string) (now : string)
      (interaction_type user_input ai_output : pyval) :
  keeps_printed (log float_repr now interaction_type user_input ai_output).
Proof. unfold log. auto with keeps. Qed.

(** [log] swallows a failed write: it always returns. *)
Lemma log_returns (float_repr : float -> string) (now : string)
      (interaction_type user_input ai_output : pyval) (w : world) :
  fst (log float_repr now interaction_type user_input ai_output w) = Ok tt.
Proof.
  unfold log, try_except, append_learning_log.
  destruct (learning_log_writable w); reflexivity.
Qed.

(** Whatever the endpoint does, [generate] changes nothing but the list
    of posted requests. *)
Lemma generate_world (float_repr : float -> string) (self : QwenClient)
      (prompt : string) (max_tokens : Z) (temperature : float) (w : world) :
  snd (generate float_repr self prompt max_tokens temperature w)
  = set_requests_sent
      (requests_sent w ++ [generate_request self prompt max_tokens temperature]) w.
Proof.
  destruct (network w (generate_request self prompt max_tokens temperature))
    as [e|r] eqn:Hnet.
  - rewrite (generate_post_raises float_repr self prompt max_tokens temperature w e Hnet).
    destruct (is_Exception e); reflexivity.
  - destruct (Z.eq_dec (status_code r) 200) as [Hst|Hst].
    + rewrite (generate_status_200 float_repr self prompt max_tokens temperature w r Hnet Hst).
      destruct (json r) as [result|e]; [|destruct (is_Exception e); reflexivity].
      match goal with |- context [match ?o with Ok _ => _ | Raise _ => _ end] =>
        destruct o as [text|e] end;
        [reflexivity|destruct (is_Exception e); reflexivity].
    + rewrite (generate_status_not_200 float_repr self prompt max_tokens temperature w r
                 Hnet Hst).
      reflexivity.
Qed.

(** What [generate] returns is [None] or truthy. *)
Lemma generate_result (float_repr : float -> string) (self : QwenClient)
      (prompt : string) (max_tokens : Z) (temperature : float) (w : world) (v : pyval) :
  fst (generate float_repr self prompt max_tokens temperature w) = Ok v ->
  v = PNone \/ py_truthy v = true.
Proof.
  destruct (network w (generate_request self prompt max_tokens temperature))
    as [e|r] eqn:Hnet.
  - rewrite (generate_post_raises float_repr self prompt max_tokens temperature w e Hnet).
    destruct (is_Exception e); cbn; intros H; [left; congruence|discriminate].
  - destruct (Z.eq_dec (status_code r) 200) as [Hst|Hst].
    + rewrite (generate_status_200 float_repr self prompt max_tokens temperature w r Hnet Hst).
      destruct (json r) as [result|e];
        [|destruct (is_Exception e); cbn; intros H; [left; congruence|discriminate]].
      match goal with |- context [match ?o with Ok _ => _ | Raise _ => _ end] =>
        destruct o as [text|e] end.
      * cbn. destruct (py_truthy text) eqn:E; intros H; injection H as <-; auto.
      * destruct (is_Exception e); cbn; intros H; [left; congruence|discriminate].
    + rewrite (generate_status_not_200 float_repr self prompt max_tokens temperature w r
                 Hnet Hst).
      cbn. intros H. left. congruence.
Qed.

(** ** GenyxAI: handling a task *)

Lemma dropwhile_all {A : Type} (p : A -> bool) (l : list A) :
  forallb p l = true -> dropwhile p l = [].
Proof.
  induction l as [|x l IH]; cbn; [reflexivity|].
  destruct (p x); [exact IH|discriminate].
Qed.

(** A line of nothing but whitespace strips to the empty string. *)
Lemma strip_whitespace (line : string) :
  forallb isspace (list_ascii_of_string line) = true -> strip line = "".
Proof.
  intros H. unfold strip. rewrite (dropwhile_all _ _ H). reflexivity.
Qed.

(** The body both handlers share, once the topic is known not to be empty:
    generate, and on a truthy result show it, record it and log it. *)
Lemma handler_outcome (float_repr : float -> string) (json_dump : pyval -> string)
      (g : M pyval) (kind log_kind topic : pyval) (t_history t_log : string) (w : world) :
  keeps_printed g ->
  let out :=
    bind g (fun result =>
      if py_truthy result
      then bind (print_result result) (fun _ =>
           bind (add_interaction json_dump t_history kind topic result) (fun _ =>
           bind (log float_repr t_log log_kind topic result) (fun _ => ret PNone)))
      else ret PNone) w in
  (fst out = Ok PNone \/ exists e, fst out = Raise e)
  /\ exists shown : list pyval,
       printed (snd out) = (printed w ++ shown)%list
       /\ Forall (fun v => py_truthy v = true) shown.
Proof.
  intros Hg out.
  assert (Hout : out = out) by reflexivity.
  unfold out at 2 in Hout. clearbody out.
  unfold bind at 1 in Hout. specialize (Hg w).
  destruct (g w) as [[result|e] w1]; cbn [fst snd] in *.
  - destruct (py_truthy result) eqn:Htruthy.
    + pose proof (keeps_add_interaction json_dump t_history kind topic result
                    (set_printed (printed w1 ++ [result]) w1)) as Hadd.
      cbn [printed set_printed] in Hadd.
      unfold bind, print_result in Hout.
      destruct (add_interaction json_dump t_history kind topic result
                  (set_printed (printed w1 ++ [result]) w1)) as [[u|e] w2];
        cbn [fst snd] in *; rewrite Hg in Hadd.
      * pose proof (keeps_log float_repr t_log log_kind topic result w2) as Hlog.
        pose proof (log_returns float_repr t_log log_kind topic result w2) as Hret.
        destruct (log float_repr t_log log_kind topic result w2) as [o w3];
          cbn [fst snd] in *. subst o out. cbn [fst snd ret].
        split; [left; reflexivity|].
        exists [result]. split; [congruence|].
        constructor; [exact Htruthy|constructor].
      * subst out. cbn [fst snd].
        split; [right; eexists; reflexivity|].
        exists [result]. split; [exact Hadd|].
        constructor; [exact Htruthy|constructor].
    + subst out. cbn. split; [left; reflexivity|].
      exists []. rewrite app_nil_r. split; [exact Hg|constructor].
  - subst out. cbn [fst snd].
    split; [right; eexists; reflexivity|].
    exists []. rewrite app_nil_r. split; [exact Hg|constructor].
Qed.

Lemma keeps_generate (float_repr : float -> string) (self : QwenClient)
      (prompt : string) (max_tokens : Z) (temperature : float) :
  keeps_printed (generate float_repr self prompt max_tokens temperature).
Proof.
  intros w. rewrite generate_world. reflexivity.
Qed.

Lemma truthy_not_empty_string (v : pyval) : py_truthy v = true -> v <> PStr "".
Proof.
  intros H ->. discriminate H.
Qed.

(** C4.  For every line whose stripped topic is not empty, each of
    [generate_prompt] and [create_mindmap] either returns [None] or raises;
    it never returns the empty string.  What it shows to the user by
    [print(result)] is at most one value, and a truthy one: a string shown
    is never empty. *)
Theorem handlers_never_yield_empty_string :
  forall (float_repr : float -> string) (json_dump : pyval -> string)
         (client : QwenClient) (line t_history t_log : string) (w : world),
    strip line <> "" ->
    forall out : outcome pyval * world,
      out = generate_prompt float_repr json_dump client line t_history t_log w
      \/ out = create_mindmap float_repr json_dump client line t_history t_log w ->
      (fst out = Ok PNone \/ exists e, fst out = Raise e)
      /\ fst out <> Ok (PStr "")
      /\ exists shown : list pyval,
           printed (snd out) = (printed w ++ shown)%list
           /\ Forall (fun v => py_truthy v = true /\ v <> PStr "") shown.
Proof.
  intros fr jd client line th tl w Htopic out Hout.
  assert (Hnonempty : negb (py_truthy (PStr (strip line))) = false).
  { cbn. apply String.eqb_neq in Htopic. rewrite Htopic. reflexivity. }
  assert (H : (fst out = Ok PNone \/ exists e, fst out = Raise e)
              /\ exists shown : list pyval,
                   printed (snd out) = (printed w ++ shown)%list
                   /\ Forall (fun v => py_truthy v = true) shown).
  { destruct Hout as [-> | ->].
    - unfold generate_prompt. rewrite Hnonempty.
      apply (handler_outcome fr jd). apply keeps_generate.
    - unfold create_mindmap. rewrite Hnonempty.
      apply (handler_outcome fr jd). apply keeps_generate. }
  destruct H as (Hret & shown & Hshown & Htruthy).
  split; [exact Hret|]. split.
  - destruct Hret as [-> | [e ->]]; discriminate.
  - exists shown. split; [exact Hshown|].
    eapply Forall_impl; [|exact Htruthy].
    intros v Hv. split; [exact Hv|apply truthy_not_empty_string; exact Hv].
Qed.

Lemma handlers_never_yield_empty_string_witness :
  let w := sample_world
             (PostReturns
                (mk_response 200 (Ok (PList [PDict [("generated_text", PStr "")]])))) in
  fst (generate_prompt sample_float_repr sample_json_dump sample_client
         "  tides " "2025-06-01T12:00:00" "2025-06-01 12:00:00" w)
  <> Ok (PStr "").
Proof.
  intros w.
  apply (handlers_never_yield_empty_string sample_float_repr sample_json_dump
           sample_client "  tides " "2025-06-01T12:00:00" "2025-06-01 12:00:00" w).
  - vm_compute. discriminate.
  - left. reflexivity.
Defined.

(** C5.  For an empty or whitespace-only line, [generate_prompt] and
    [create_mindmap] return [None] and leave the world exactly as it was:
    no request is posted, the history document and its file are untouched,
    and nothing is appended to the learning log. *)
Theorem empty_topic_is_rejected :
  forall (float_repr : float -> string) (json_dump : pyval -> string)
         (client : QwenClient) (line t_history t_log : string) (w : world),
    forallb isspace (list_ascii_of_string line) = true ->
    forall out : outcome pyval * world,
      out = generate_prompt float_repr json_dump client line t_history t_log w
      \/ out = create_mindmap float_repr json_dump client line t_history t_log w ->
      out = (Ok PNone, w)
      /\ requests_sent (snd out) = requests_sent w
      /\ data (snd out) = data w
      /\ brain_history (snd out) = brain_history w
      /\ learning_log (snd out) = learning_log w.
Proof.
  intros fr jd client line th tl w Hspace out Hout.
  assert (H : out = (Ok PNone, w)).
  { destruct Hout as [-> | ->].
    - unfold generate_prompt. rewrite (strip_whitespace line Hspace). reflexivity.
    - unfold create_mindmap. rewrite (strip_whitespace line Hspace). reflexivity. }
  rewrite H. repeat split.
Qed.

Lemma empty_topic_is_rejected_witness :
  let w := sample_world
             (PostReturns
                (mk_response 200 (Ok (PList [PDict [("generated_text", PStr "Hello")]])))) in
  create_mindmap sample_float_repr sample_json_dump sample_client
    "   " "2025-06-01T12:00:00" "2025-06-01 12:00:00" w
  = (Ok PNone, w).
Proof.
  intros w.
  apply (empty_topic_is_rejected sample_float_repr sample_json_dump sample_client
           "   " "2025-06-01T12:00:00" "2025-06-01 12:00:00" w eq_refl).
  right. reflexivity.
Defined.

(** X14.  The handlers do return in the ordinary case: when the endpoint
    answers 200 with an object whose text is a non-empty string and the
    document has the default shape, [generate_prompt] returns [None] after
    one request, having shown the text and recorded it in the document
    under the type ["prompt"] with the stripped topic. *)
Lemma generate_prompt_records_text (float_repr : float -> string)
      (json_dump : pyval -> string) (client : QwenClient)
      (line t_history t_log : string) (w : world) (r : response)
      (d : list (string * pyval)) (text created : string)
      (total prompts mindmaps sessions : Z) (l : list pyval) :
  let req := generate_request client (prompt_template (strip line)) 800 0.7%float in
  strip line <> "" ->
  network w req = PostReturns r ->
  status_code r = 200%Z ->
  json r = Ok (PDict d) ->
  dict_get "generated_text" d = Some (PStr text) ->
  text <> "" ->
  data w = history_document created total prompts mindmaps sessions l ->
  exists w',
    generate_prompt float_repr json_dump client line t_history t_log w = (Ok PNone, w')
    /\ requests_sent w' = (requests_sent w ++ [req])%list
    /\ printed w' = (printed w ++ [PStr text])%list
    /\ data w'
       = history_document created (total + 1) (prompts + 1) mindmaps sessions
           (list_last_n 100
              (l ++ [interaction_record
                       (mk_call t_history (PStr "prompt") (strip line) text)])).
Proof.
  intros req Htopic Hnet Hst Hj Hd Htext Hdoc.
  pose proof (generate_status_200 float_repr client (prompt_template (strip line)) 800
                0.7%float w r Hnet Hst) as Hgen.
  rewrite Hj in Hgen. cbn [py_get] in Hgen. rewrite Hd in Hgen.
  apply String.eqb_neq in Htopic, Htext.
  assert (Htruthy : py_truthy (PStr text) = true) by (cbn; rewrite Htext; reflexivity).
  rewrite Htruthy in Hgen. fold req in Hgen.
  set (w_sent := set_requests_sent (requests_sent w ++ [req]) w) in *.
  set (w1 := set_printed (printed w_sent ++ [PStr text]) w_sent).
  destruct (add_interaction_on_document json_dump
              (mk_call t_history (PStr "prompt") (strip line) text)
              w1 created total prompts mindmaps sessions l Hdoc)
    as (w2 & Hadd & Hdoc2 & Hr2 & Hp2 & _).
  cbn [call_now call_type call_prompt call_response py_eq_str] in Hadd, Hdoc2.
  rewrite String.eqb_refl in Hdoc2.
  cbn [w1 w_sent requests_sent printed set_printed set_requests_sent] in Hr2, Hp2.
  exists (snd (log float_repr t_log (PStr "prompt_generation") (PStr (strip line))
                 (PStr text) w2)).
  split.
  - unfold generate_prompt. cbn [py_truthy]. rewrite Htopic. cbn [negb].
    unfold bind at 1. rewrite Hgen, Htruthy.
    unfold bind, print_result. fold w1. rewrite Hadd.
    pose proof (log_returns float_repr t_log (PStr "prompt_generation")
                  (PStr (strip line)) (PStr text) w2) as Hlog.
    destruct (log float_repr t_log (PStr "prompt_generation") (PStr (strip line))
                (PStr text) w2) as [o w3].
    cbn [fst] in Hlog. subst o. reflexivity.
  - unfold log, try_except, append_learning_log.
    destruct (learning_log_writable w2); cbn [snd set_learning_log requests_sent printed data];
      repeat split; assumption.
Qed.

(** * Further properties *)

(** ** What a computation leaves alone *)

Section Preserves.

Context {B : Type} (f : world -> B).

Lemma preserves_ret {A : Type} (a : A) : preserves f (ret a).
Proof. intros w. reflexivity. Qed.

Lemma preserves_raise {A : Type} (e : exn) : preserves f (@raise A e).
Proof. intros w. reflexivity. Qed.

Lemma preserves_lift {A : Type} (o : outcome A) : preserves f (lift o).
Proof. intros w. reflexivity. Qed.

Lemma preserves_get_data : preserves f get_data.
Proof. intros w. reflexivity. Qed.

Lemma preserves_bind {A C : Type} (m : M A) (k : A -> M C) :
  preserves f m -> (forall a, preserves f (k a)) -> preserves f (bind m k).
Proof.
  intros Hm Hk w. unfold bind. specialize (Hm w).
  destruct (m w) as [[a|e] w1]; cbn [snd] in *.
  - rewrite (Hk a w1). exact Hm.
  - exact Hm.
Qed.

Lemma preserves_try_except {A : Type} (body : M A) (handler : exn -> M A) :
  preserves f body -> (forall e, preserves f (handler e)) ->
  preserves f (try_except body handler).
Proof.
  intros Hb Hh w. unfold try_except. specialize (Hb w).
  destruct (body w) as [[a|e] w1]; cbn [snd] in *.
  - exact Hb.
  - rewrite (Hh e w1). exact Hb.
Qed.

Lemma preserves_if {A : Type} (c : bool) (m1 m2 : M A) :
  preserves f m1 -> preserves f m2 -> preserves f (if c then m1 else m2).
Proof. destruct c; auto. Qed.

Lemma preserves_then_on_raise {A : Type} (m : M A) :
  preserves f m -> preserves_on_raise f m.
Proof.
  intros Hm w e w' H. specialize (Hm w). rewrite H in Hm. exact Hm.
Qed.

(** After steps that leave [f] alone, a raise of the rest leaves it alone. *)
Lemma preserves_on_raise_bind {A C : Type} (m : M A) (k : A -> M C) :
  preserves f m -> (forall a, preserves_on_raise f (k a)) ->
  preserves_on_raise f (bind m k).
Proof.
  intros Hm Hk w e w'. unfold bind. specialize (Hm w).
  destruct (m w) as [[a|e1] w1]; cbn [snd] in *; intros H.
  - rewrite <- Hm. exact (Hk a w1 e w' H).
  - injection H as _ <-. exact Hm.
Qed.

(** The document is not what [f] looks at. *)
Hypothesis f_set_data : forall d w, f (set_data d w) = f w.

Lemma preserves_put_data (d : pyval) : preserves f (put_data d).
Proof. intros w. apply f_set_data. Qed.

Lemma preserves_data_setitem (k : string) (v : pyval) : preserves f (data_setitem k v).
Proof.
  unfold data_setitem.
  repeat first [apply preserves_bind; [|intros ?] | apply preserves_get_data
               | apply preserves_lift | apply preserves_put_data].
Qed.

Lemma preserves_data_incr (k1 k2 : string) : preserves f (data_incr k1 k2).
Proof.
  unfold data_incr.
  repeat first [apply preserves_data_setitem | apply preserves_get_data
               | apply preserves_lift | apply preserves_bind; [|intros ?]].
Qed.

End Preserves.

(** [save] never raises. *)
Lemma save_returns (json_dump : pyval -> string) (w : world) :
  fst (save json_dump w) = Ok tt.
Proof. rewrite save_spec. reflexivity. Qed.

(** Recording an interaction touches the network requests, the printed
    results and the learning log in no outcome. *)
Lemma add_interaction_preserves {B : Type} (f : world -> B)
      (json_dump : pyval -> string) (now : string)
      (interaction_type prompt response : pyval) :
  (forall d w, f (set_data d w) = f w) ->
  (forall x w, f (set_brain_history x w) = f w) ->
  preserves f (add_interaction json_dump now interaction_type prompt response).
Proof.
  intros Hd Hf.
  assert (Hsave : preserves f (save json_dump)).
  { intros w. rewrite save_spec. cbn [snd].
    destruct (brain_history_writable w); [apply Hf|reflexivity]. }
  unfold add_interaction.
  repeat first [ exact Hsave
               | apply (preserves_data_setitem f Hd)
               | apply (preserves_data_incr f Hd)
               | apply preserves_if
               | apply preserves_get_data
               | apply preserves_lift
               | apply preserves_ret
               | apply preserves_bind; [|intros ?] ].
Qed.

(** When recording an interaction raises, the history file is as it was:
    the only write is the last step, and that step never raises. *)
Lemma add_interaction_raise_keeps_file (json_dump : pyval -> string) (now : string)
      (interaction_type prompt response : pyval) :
  preserves_on_raise brain_history
    (add_interaction json_dump now interaction_type prompt response).
Proof.
  assert (Hsave : preserves_on_raise brain_history (save json_dump)).
  { intros w e w' H. pose proof (save_returns json_dump w) as Hr.
    rewrite H in Hr. discriminate Hr. }
  assert (Hd : forall d w, brain_history (set_data d w) = brain_history w)
    by reflexivity.
  unfold add_interaction.
  repeat first [ exact Hsave
               | apply (preserves_data_setitem brain_history Hd)
               | apply (preserves_data_incr brain_history Hd)
               | apply preserves_if
               | apply preserves_get_data
               | apply preserves_lift
               | apply preserves_ret
               | apply preserves_on_raise_bind; [|intros ?]
               | apply preserves_bind; [|intros ?] ].
Qed.

(** ** BrainHistory: more on recording an interaction *)

(** X1.  Whenever [add_interaction] returns, the document holds between 1
    and 100 interactions, however many it held before: a longer list, as a
    file written by hand may give, is cut back by the first call. *)
Theorem add_interaction_bounds_history :
  forall (json_dump : pyval -> string) (now : string)
         (interaction_type prompt response : pyval) (w w' : world) (u : unit),
    add_interaction json_dump now interaction_type prompt response w = (Ok u, w') ->
    exists stored : list pyval,
      py_getitem (data w') "interactions" = Ok (PList stored)
      /\ 1 <= List.length stored <= 100.
Proof.
  intros jd now ty prompt response w w' u H.
  apply add_interaction_Ok_inv in H as (d & l & p & r & _ & _ & _ & _ & H).
  eexists. split; [exact H|].
  rewrite list_last_n_length, length_app. cbn [List.length]. lia.
Qed.

Lemma add_interaction_bounds_history_witness :
  let long := history_document "2025-01-01T00:00:00" 250 250 0 1 (repeat PNone 250) in
  exists (w' : world) (stored : list pyval),
    add_interaction sample_json_dump "2025-06-01T12:00:00" (PStr "prompt")
                    (PStr "tides") (PStr "Moon, Sun")
                    (set_data long (sample_world (PostRaises OSError)))
    = (Ok tt, w')
    /\ py_getitem (data w') "interactions" = Ok (PList stored)
    /\ 1 <= List.length stored <= 100.
Proof.
  intros long.
  destruct (add_interaction_on_document sample_json_dump
              (mk_call "2025-06-01T12:00:00" (PStr "prompt") "tides" "Moon, Sun")
              (set_data long (sample_world (PostRaises OSError)))
              "2025-01-01T00:00:00" 250 250 0 1 (repeat PNone 250) eq_refl)
    as (w' & Hrun & _).
  cbn [call_now call_type call_prompt call_response] in Hrun.
  destruct (add_interaction_bounds_history _ _ _ _ _ _ _ _ Hrun) as (stored & Hs & Hlen).
  exists w', stored. repeat split; try assumption; apply Hlen.
Defined.

(** A computation whose successful runs end with [save], reached with the
    history file and its writability as they were at the start. *)
Lemma ends_with_save_bind {A : Type} (json_dump : pyval -> string)
      (m : M A) (k : A -> M unit) :
  preserves brain_history m ->
  preserves brain_history_writable m ->
  (forall a w u w',
      k a w = (Ok u, w') ->
      exists w1, brain_history w1 = brain_history w
                 /\ brain_history_writable w1 = brain_history_writable w
                 /\ save json_dump w1 = (Ok u, w')) ->
  forall w u w',
    bind m k w = (Ok u, w') ->
    exists w1, brain_history w1 = brain_history w
               /\ brain_history_writable w1 = brain_history_writable w
               /\ save json_dump w1 = (Ok u, w').
Proof.
  intros Hf Hw Hk w u w' H.
  apply bind_Ok_inv in H as (a & w0 & Hm & H).
  specialize (Hf w). specialize (Hw w). rewrite Hm in Hf, Hw. cbn [snd] in Hf, Hw.
  destruct (Hk a w0 u w' H) as (w1 & H1 & H2 & H3).
  exists w1. repeat split; congruence.
Qed.

Lemma add_interaction_ends_with_save (json_dump : pyval -> string) (now : string)
      (interaction_type prompt response : pyval) (w w' : world) (u : unit) :
  add_interaction json_dump now interaction_type prompt response w = (Ok u, w') ->
  exists w1, brain_history w1 = brain_history w
             /\ brain_history_writable w1 = brain_history_writable w
             /\ save json_dump w1 = (Ok u, w').
Proof.
  assert (Hd1 : forall d w, brain_history (set_data d w) = brain_history w)
    by reflexivity.
  assert (Hd2 : forall d w, brain_history_writable (set_data d w) = brain_history_writable w)
    by reflexivity.
  revert w u w'. unfold add_interaction.
  repeat (apply ends_with_save_bind;
          [ repeat first [ apply (preserves_data_setitem brain_history Hd1)
                         | apply (preserves_data_incr brain_history Hd1)
                         | apply preserves_if | apply preserves_get_data
                         | apply preserves_lift | apply preserves_ret
                         | apply preserves_bind; [|intros ?] ]
          | repeat first [ apply (preserves_data_setitem brain_history_writable Hd2)
                         | apply (preserves_data_incr brain_history_writable Hd2)
                         | apply preserves_if | apply preserves_get_data
                         | apply preserves_lift | apply preserves_ret
                         | apply preserves_bind; [|intros ?] ]
          | intros ? ]).
  intros w u w' H. exists w. repeat split. exact H.
Qed.



(** X3.  [add_interaction] leaves the learning log, the requests posted
    and the results printed alone in every outcome, and when it raises the
    history file is as it was: no path writes a file and then fails. *)
Theorem add_interaction_touches_history_only :
  forall (json_dump : pyval -> string) (now : string)
         (interaction_type prompt response : pyval) (w : world),
    let out := add_interaction json_dump now interaction_type prompt response w in
    learning_log (snd out) = learning_log w
    /\ requests_sent (snd out) = requests_sent w
    /\ printed (snd out) = printed w
    /\ (forall e, fst out = Raise e -> brain_history (snd out) = brain_history w).
Proof.
  intros jd now ty prompt response w out. subst out.
  repeat split.
  - apply (add_interaction_preserves learning_log); reflexivity.
  - apply (add_interaction_preserves requests_sent); reflexivity.
  - apply (add_interaction_preserves printed); reflexivity.
  - intros e He.
    apply (add_interaction_raise_keeps_file jd now ty prompt response w e).
    rewrite <- He. apply surjective_pairing.
Qed.

(** X4.  [add_interaction] checks before it changes anything: a document
    without an ["interactions"] entry, an entry that is not a list, or a
    prompt or response that cannot be sliced make it raise, with the world
    exactly as it was. *)
Theorem add_interaction_rejects_before_change :
  forall (json_dump : pyval -> string) (now : string)
         (interaction_type prompt response : pyval) (w : world) (e : exn),
    py_getitem (data w) "interactions" = Raise e
    \/ (exists v, py_getitem (data w) "interactions" = Ok v
                  /\ (py_getattr_append v = Raise e
                      \/ (py_getattr_append v = Ok tt
                          /\ (py_slice_to 200 prompt = Raise e
                              \/ (exists p, py_slice_to 200 prompt = Ok p
                                            /\ py_slice_to 500 response = Raise e))))) ->
    add_interaction json_dump now interaction_type prompt response w = (Raise e, w).
Proof.
  intros jd now ty prompt response w e H.
  unfold add_interaction, bind at 1, get_data. unfold bind at 1, lift at 1.
  destruct H as [H|(v & H & H')]; rewrite H; [reflexivity|].
  unfold bind at 1, lift at 1.
  destruct H' as [H'|(H' & H'')]; rewrite H'; [reflexivity|].
  unfold bind at 1, lift at 1.
  destruct H'' as [H''|(p & H'' & H''')]; rewrite H''; [reflexivity|].
  unfold bind at 1, lift at 1. rewrite H'''. reflexivity.
Qed.

Lemma add_interaction_rejects_before_change_witness :
  let w := sample_world (PostRaises OSError) in
  add_interaction sample_json_dump "2025-06-01T12:00:00" (PStr "prompt")
                  (PStr "tides") (PInt 5) w
  = (Raise TypeError, w).
Proof.
  intros w.
  apply (add_interaction_rejects_before_change sample_json_dump "2025-06-01T12:00:00"
           (PStr "prompt") (PStr "tides") (PInt 5) w TypeError).
  right. exists (PList []). split; [reflexivity|].
  right. split; [reflexivity|].
  right. exists (PStr "tides"). split; reflexivity.
Defined.

(** X5.  The update is not all-or-nothing.  On a document that has its
    list of interactions but no ["metadata"] entry, [add_interaction]
    raises [KeyError] after the record went into the list in memory: the
    list has grown, no counter has moved, and nothing was saved. *)
Theorem add_interaction_missing_metadata :
  forall (json_dump : pyval -> string) (now : string) (interaction_type : pyval)
         (prompt response : string) (w : world)
         (d : list (string * pyval)) (l : list pyval),
    data w = PDict d ->
    dict_get "interactions" d = Some (PList l) ->
    dict_get "metadata" d = None ->
    add_interaction json_dump now interaction_type (PStr prompt) (PStr response) w
    = (Raise KeyError,
       set_data
         (PDict (dict_set "interactions"
                   (PList (l ++ [PDict [ ("timestamp", PStr now);
                                         ("type", interaction_type);
                                         ("prompt", PStr (str_take 200 prompt));
                                         ("response", PStr (str_take 500 response)) ]]))
                   d))
         w).
Proof.
  intros jd now ty prompt response w d l Hd Hi Hm.
  unfold add_interaction, data_setitem, data_incr, bind, get_data, lift, put_data.
  rewrite Hd. cbn [py_getitem]. rewrite Hi.
  cbn [py_getattr_append py_slice_to py_append py_setitem data set_data py_getitem].
  rewrite (dict_get_set_other "interactions" "metadata") by discriminate.
  rewrite Hm. reflexivity.
Qed.

Lemma add_interaction_missing_metadata_witness :
  let w := set_data (PDict [("interactions", PList [])]) (sample_world (PostRaises OSError)) in
  exists w',
    add_interaction sample_json_dump "2025-06-01T12:00:00" (PStr "prompt")
                    (PStr "tides") (PStr "Moon, Sun") w
    = (Raise KeyError, w')
    /\ py_getitem (data w') "interactions"
       = Ok (PList [PDict [ ("timestamp", PStr "2025-06-01T12:00:00");
                            ("type", PStr "prompt");
                            ("prompt", PStr "tides");
                            ("response", PStr "Moon, Sun") ]])
    /\ brain_history w' = Absent.
Proof.
  intros w. eexists. split.
  - exact (add_interaction_missing_metadata sample_json_dump "2025-06-01T12:00:00"
             (PStr "prompt") "tides" "Moon, Sun" w
             [("interactions", PList [])] [] eq_refl eq_refl eq_refl).
  - split; reflexivity.
Defined.

(** ** BrainHistory: reading the counters *)

(** X6.  [get_stats] only reads: in every outcome the world is exactly as
    it was.  On a document of the default shape it returns the four
    counters under the names [total], [prompts], [mindmaps], [sessions];
    when the document lacks one of the entries it reads, it raises. *)
Theorem get_stats_only_reads :
  forall (w : world),
    snd (get_stats w) = w
    /\ (forall created total prompts mindmaps sessions l,
           data w = history_document created total prompts mindmaps sessions l ->
           fst (get_stats w)
           = Ok (PDict [ ("total", PInt total); ("prompts", PInt prompts);
                         ("mindmaps", PInt mindmaps); ("sessions", PInt sessions) ]))
    /\ (forall e,
           py_getitem (data w) "metadata" = Raise e ->
           fst (get_stats w) = Raise e).
Proof.
  intros w. split; [|split].
  - unfold get_stats, bind, get_data, lift, ret.
    repeat match goal with
           | |- context [match ?o with Ok _ => _ | Raise _ => _ end] =>
               destruct o; cbn [fst snd]
           end; reflexivity.
  - intros created total prompts mindmaps sessions l Hd.
    unfold get_stats, bind, get_data, lift, ret. rewrite Hd. reflexivity.
  - intros e He. unfold get_stats, bind, get_data, lift. rewrite He. reflexivity.
Qed.

(** X7.  After any run of [add_interaction] calls from the default
    document, [get_stats] reports the number of calls as [total], the
    calls of type ["prompt"] as [prompts], those of type ["mindmap"] as
    [mindmaps], and no session: a call of any other type is stored and
    counted in the total only. *)
Theorem add_interactions_then_get_stats :
  forall (json_dump : pyval -> string) (now : string)
         (calls : list interaction_call) (w : world),
    data w = _create_default now ->
    exists w',
      add_interactions json_dump calls w = (Ok tt, w')
      /\ get_stats w'
         = (Ok (PDict
                  [ ("total", PInt (Z.of_nat (List.length calls)));
                    ("prompts",
                     PInt (Z.of_nat (List.length
                             (filter (fun c => py_eq_str (call_type c) "prompt") calls))));
                    ("mindmaps",
                     PInt (Z.of_nat (List.length
                             (filter (fun c => py_eq_str (call_type c) "mindmap") calls))));
                    ("sessions", PInt 0) ]),
            w').
Proof.
  intros jd now calls w Hd.
  destruct (add_interactions_on_document jd calls w now 0 0 0 0 [] Hd)
    as (w' & Hrun & Hd'); [cbn; lia|].
  exists w'. split; [exact Hrun|].
  unfold get_stats, bind, get_data, lift, ret. rewrite Hd'. reflexivity.
Qed.

Lemma add_interactions_then_get_stats_witness :
  exists w',
    add_interactions sample_json_dump
      [ mk_call "2025-06-01T12:00:00" (PStr "prompt") "tides" "Moon, Sun";
        mk_call "2025-06-01T12:05:00" (PStr "mindmap") "tides" "Moon - Sun";
        mk_call "2025-06-01T12:09:00" (PStr "note") "tides" "spring, neap" ]
      (sample_world (PostRaises OSError))
    = (Ok tt, w')
    /\ fst (get_stats w')
       = Ok (PDict [ ("total", PInt 3); ("prompts", PInt 1);
                     ("mindmaps", PInt 1); ("sessions", PInt 0) ]).
Proof.
  destruct (add_interactions_then_get_stats sample_json_dump "2025-01-01T00:00:00"
              [ mk_call "2025-06-01T12:00:00" (PStr "prompt") "tides" "Moon, Sun";
                mk_call "2025-06-01T12:05:00" (PStr "mindmap") "tides" "Moon - Sun";
                mk_call "2025-06-01T12:09:00" (PStr "note") "tides" "spring, neap" ]
              (sample_world (PostRaises OSError)) eq_refl)
    as (w' & Hrun & Hstats).
  exists w'. split; [exact Hrun|]. rewrite Hstats. reflexivity.
Defined.

(** ** QwenClient: more on generate *)

(** X8.  One call of [generate] posts exactly one request, the one built
    from its arguments, whatever the endpoint answers: a 503 or a timeout
    is not retried.  Nothing else in the world changes: [generate] stores
    and logs nothing. *)
Theorem generate_posts_exactly_once :
  forall (float_repr : float -> string) (self : QwenClient) (prompt : string)
         (max_tokens : Z) (temperature : float) (w : world),
    let w' := snd (generate float_repr self prompt max_tokens temperature w) in
    requests_sent w'
    = (requests_sent w ++ [generate_request self prompt max_tokens temperature])%list
    /\ data w' = data w
    /\ brain_history w' = brain_history w
    /\ learning_log w' = learning_log w
    /\ printed w' = printed w.
Proof.
  intros fr self prompt mt temp w w'. subst w'.
  rewrite generate_world. repeat split.
Qed.

(** X9.  Whatever [generate] returns is [None] or truthy: it never returns
    an empty string, a zero, [False], an empty list or an empty object. *)
Theorem generate_returns_None_or_truthy :
  forall (float_repr : float -> string) (self : QwenClient) (prompt : string)
         (max_tokens : Z) (temperature : float) (w : world) (v : pyval),
    fst (generate float_repr self prompt max_tokens temperature w) = Ok v ->
    (v = PNone \/ py_truthy v = true)
    /\ v <> PStr "" /\ v <> PInt 0 /\ v <> PBool false /\ v <> PList [] /\ v <> PDict [].
Proof.
  intros fr self prompt mt temp w v H.
  apply generate_result in H.
  split; [exact H|].
  repeat split; intros ->; destruct H as [H|H]; discriminate H.
Qed.

Lemma generate_returns_None_or_truthy_witness :
  fst (generate sample_float_repr sample_client "tides" 512 0.7%float
         (sample_world
            (PostReturns (mk_response 200 (Ok (PDict [("generated_text", PInt 0)]))))))
  = Ok PNone.
Proof.
  destruct (generate_returns_None_or_truthy sample_float_repr sample_client "tides" 512
              0.7%float
              (sample_world
                 (PostReturns (mk_response 200 (Ok (PDict [("generated_text", PInt 0)])))))
              PNone eq_refl) as (_ & _).
  reflexivity.
Defined.

(** X10.  [generate] swallows ordinary exceptions only.  An exception that
    does not derive from [Exception], a keyboard interrupt while the
    request is under way or while the body is decoded, passes through to
    the caller, after the request was posted. *)
Theorem generate_lets_interrupts_through :
  forall (float_repr : float -> string) (self : QwenClient) (prompt : string)
         (max_tokens : Z) (temperature : float) (w : world) (e : exn),
    let req := generate_request self prompt max_tokens temperature in
    is_Exception e = false ->
    network w req = PostRaises e
    \/ (exists r, network w req = PostReturns r /\ status_code r = 200%Z
                  /\ json r = Raise e) ->
    generate float_repr self prompt max_tokens temperature w
    = (Raise e, set_requests_sent (requests_sent w ++ [req]) w).
Proof.
  intros fr self prompt mt temp w e req He [Hnet|(r & Hnet & Hst & Hj)].
  - rewrite (generate_post_raises fr self prompt mt temp w e Hnet), He. reflexivity.
  - rewrite (generate_status_200 fr self prompt mt temp w r Hnet Hst), Hj, He.
    reflexivity.
Qed.

Lemma generate_lets_interrupts_through_witness :
  fst (generate sample_float_repr sample_client "tides" 512 0.7%float
         (sample_world (PostRaises KeyboardInterrupt)))
  = Raise KeyboardInterrupt.
Proof.
  rewrite (generate_lets_interrupts_through sample_float_repr sample_client "tides" 512
             0.7%float (sample_world (PostRaises KeyboardInterrupt)) KeyboardInterrupt
             eq_refl (or_introl eq_refl)).
  reflexivity.
Defined.

(** X11.  Of a list body only the first element counts.  When that element
    is not an object, a list of plain strings for one, the lookup fails
    inside the [try] and [generate] returns [None]; the elements after the
    first never change the result. *)
Theorem generate_list_body_first_element :
  forall (float_repr : float -> string) (self : QwenClient) (prompt : string)
         (max_tokens : Z) (temperature : float) (w : world) (r : response)
         (first : pyval) (rest : list pyval),
    let req := generate_request self prompt max_tokens temperature in
    network w req = PostReturns r ->
    status_code r = 200%Z ->
    json r = Ok (PList (first :: rest)) ->
    generate float_repr self prompt max_tokens temperature w
    = (Ok match first with
          | PDict d =>
              match dict_get "generated_text" d with
              | Some text => if py_truthy text then text else PNone
              | None => PNone
              end
          | _ => PNone
          end,
       set_requests_sent (requests_sent w ++ [req]) w).
Proof.
  intros fr self prompt mt temp w r first rest req Hnet Hst Hj.
  rewrite (generate_status_200 fr self prompt mt temp w r Hnet Hst), Hj.
  destruct first as [ |b|z|f|s|l|d]; try reflexivity.
  cbn [py_get]. destruct (dict_get "generated_text" d); reflexivity.
Qed.

Lemma generate_list_body_first_element_witness :
  fst (generate sample_float_repr sample_client "tides" 512 0.7%float
         (sample_world
            (PostReturns
               (mk_response 200
                  (Ok (PList [PStr "Hello"; PDict [("generated_text", PStr "Hello")]]))))))
  = Ok PNone.
Proof.
  rewrite (generate_list_body_first_element sample_float_repr sample_client "tides" 512
             0.7%float
             (sample_world
                (PostReturns
                   (mk_response 200
                      (Ok (PList [PStr "Hello"; PDict [("generated_text", PStr "Hello")]])))))
             (mk_response 200
                (Ok (PList [PStr "Hello"; PDict [("generated_text", PStr "Hello")]])))
             (PStr "Hello") [PDict [("generated_text", PStr "Hello")]]
             eq_refl eq_refl eq_refl).
  reflexivity.
Defined.

(** ** GenyxAI: more on handling a task *)

(** The shared body of the handlers, when generation gives nothing. *)
Lemma handler_without_result (float_repr : float -> string)
      (json_dump : pyval -> string) (g : M pyval) (kind log_kind topic : pyval)
      (t_history t_log : string) (w w_g : world) :
  g w = (Ok PNone, w_g) ->
  bind g (fun result =>
    if py_truthy result
    then bind (print_result result) (fun _ =>
         bind (add_interaction json_dump t_history kind topic result) (fun _ =>
         bind (log float_repr t_log log_kind topic result) (fun _ => ret PNone)))
    else ret PNone) w
  = (Ok PNone, w_g).
Proof.
  intros H. unfold bind at 1. rewrite H. reflexivity.
Qed.

(** X12.  When [generate] gives [None] (a status other than 200, a
    timeout, an empty text), a handler called with a real topic returns
    [None] having posted its one request and nothing more: the document,
    the history file and the learning log are as they were, and nothing is
    shown as a result. *)
Theorem handlers_persist_nothing_without_result :
  forall (float_repr : float -> string) (json_dump : pyval -> string)
         (client : QwenClient) (line t_history t_log : string) (w : world),
    strip line <> "" ->
    (fst (generate float_repr client (prompt_template (strip line)) 800 0.7%float w)
     = Ok PNone ->
     generate_prompt float_repr json_dump client line t_history t_log w
     = (Ok PNone,
        set_requests_sent
          (requests_sent w
           ++ [generate_request client (prompt_template (strip line)) 800 0.7%float]) w))
    /\ (fst (generate float_repr client (mindmap_template (strip line)) 1000 0.8%float w)
        = Ok PNone ->
        create_mindmap float_repr json_dump client line t_history t_log w
        = (Ok PNone,
           set_requests_sent
             (requests_sent w
              ++ [generate_request client (mindmap_template (strip line)) 1000 0.8%float])
             w)).
Proof.
  intros fr jd client line th tl w Htopic.
  assert (Hnonempty : negb (py_truthy (PStr (strip line))) = false).
  { cbn. apply String.eqb_neq in Htopic. rewrite Htopic. reflexivity. }
  split; intros Hgen.
  - unfold generate_prompt. rewrite Hnonempty.
    apply handler_without_result.
    rewrite (surjective_pairing (generate fr client _ 800 0.7%float w)).
    rewrite Hgen, generate_world. reflexivity.
  - unfold create_mindmap. rewrite Hnonempty.
    apply handler_without_result.
    rewrite (surjective_pairing (generate fr client _ 1000 0.8%float w)).
    rewrite Hgen, generate_world. reflexivity.
Qed.

Lemma handlers_persist_nothing_without_result_witness :
  let w := sample_world (PostReturns (mk_response 429 (Raise JSONDecodeError))) in
  exists w',
    create_mindmap sample_float_repr sample_json_dump sample_client
      " tides " "2025-06-01T12:00:00" "2025-06-01 12:00:00" w
    = (Ok PNone, w')
    /\ data w' = data w /\ brain_history w' = Absent /\ learning_log w' = "".
Proof.
  intros w. eexists. split.
  - apply (handlers_persist_nothing_without_result sample_float_repr sample_json_dump
             sample_client " tides " "2025-06-01T12:00:00" "2025-06-01 12:00:00" w).
    + vm_compute. discriminate.
    + reflexivity.
  - repeat split.
Defined.

(** The shared body of the handlers, when generation gives a truthy value
    that cannot be sliced and the document has its list of interactions. *)
Lemma handler_with_unsliceable_result (float_repr : float -> string)
      (json_dump : pyval -> string) (g : M pyval) (kind log_kind : pyval)
      (topic t_history t_log : string) (w w_g : world) (v : pyval) (e : exn)
      (l : list pyval) :
  g w = (Ok v, w_g) ->
  py_truthy v = true ->
  py_slice_to 500 v = Raise e ->
  py_getitem (data w_g) "interactions" = Ok (PList l) ->
  bind g (fun result =>
    if py_truthy result
    then bind (print_result result) (fun _ =>
         bind (add_interaction json_dump t_history kind (PStr topic) result) (fun _ =>
         bind (log float_repr t_log log_kind (PStr topic) result) (fun _ => ret PNone)))
    else ret PNone) w
  = (Raise e, set_printed (printed w_g ++ [v]) w_g).
Proof.
  intros Hg Ht Hs Hi. unfold bind at 1. rewrite Hg, Ht.
  unfold bind at 1, print_result. unfold bind at 1.
  unfold add_interaction, bind at 1, get_data. unfold bind at 1, lift at 1.
  cbn [data set_printed]. rewrite Hi.
  unfold bind at 1, lift at 1. cbn [py_getattr_append].
  unfold bind at 1, lift at 1. cbn [py_slice_to].
  unfold bind at 1, lift at 1. rewrite Hs. reflexivity.
Qed.

(** X13.  A result that is truthy but not text, a number under
    ["generated_text"] for one, is shown and then lost: the handler prints
    it, [add_interaction] cannot slice it and raises, and the handler
    passes the exception on with nothing recorded, saved or logged. *)
Theorem generate_prompt_raises_on_unsliceable_result :
  forall (float_repr : float -> string) (json_dump : pyval -> string)
         (client : QwenClient) (line t_history t_log : string) (w : world)
         (v : pyval) (e : exn) (l : list pyval),
    let w_sent :=
      set_requests_sent
        (requests_sent w
         ++ [generate_request client (prompt_template (strip line)) 800 0.7%float]) w in
    strip line <> "" ->
    fst (generate float_repr client (prompt_template (strip line)) 800 0.7%float w)
    = Ok v ->
    py_truthy v = true ->
    py_slice_to 500 v = Raise e ->
    py_getitem (data w) "interactions" = Ok (PList l) ->
    generate_prompt float_repr json_dump client line t_history t_log w
    = (Raise e, set_printed (printed w ++ [v]) w_sent).
Proof.
  intros fr jd client line th tl w v e l w_sent Htopic Hgen Ht Hs Hi.
  assert (Hnonempty : negb (py_truthy (PStr (strip line))) = false).
  { cbn. apply String.eqb_neq in Htopic. rewrite Htopic. reflexivity. }
  unfold generate_prompt. rewrite Hnonempty.
  apply (handler_with_unsliceable_result fr jd _ _ _ _ th tl w w_sent v e l);
    try assumption.
  rewrite (surjective_pairing (generate fr client _ 800 0.7%float w)).
  rewrite Hgen, generate_world. reflexivity.
Qed.

Lemma generate_prompt_raises_on_unsliceable_result_witness :
  let w := sample_world
             (PostReturns (mk_response 200 (Ok (PDict [("generated_text", PInt 42)])))) in
  exists w',
    generate_prompt sample_float_repr sample_json_dump sample_client
      "tides" "2025-06-01T12:00:00" "2025-06-01 12:00:00" w
    = (Raise TypeError, w')
    /\ printed w' = [PInt 42]
    /\ data w' = data w /\ brain_history w' = Absent /\ learning_log w' = "".
Proof.
  intros w. eexists. split.
  - apply (generate_prompt_raises_on_unsliceable_result sample_float_repr sample_json_dump
             sample_client "tides" "2025-06-01T12:00:00" "2025-06-01 12:00:00" w
             (PInt 42) TypeError []).
    + vm_compute. discriminate.
    + reflexivity.
    + reflexivity.
    + reflexivity.
    + reflexivity.
  - repeat split.
Defined.

(** [log] appends its entry when the log can be written, and changes
    nothing when it cannot; it returns either way. *)
Lemma log_spec (float_repr : float -> string) (now : string)
      (interaction_type user_input ai_output : pyval) (w : world) :
  exists entry : string,
    log float_repr now interaction_type user_input ai_output w
    = (Ok tt,
       if learning_log_writable w
       then set_learning_log (learning_log w ++ entry) w
       else w)
    /\ entry
       = newline ++ str_repeat "=" 70 ++ newline
         ++ "[" ++ now ++ "] TYPE: " ++ py_str float_repr interaction_type ++ newline
         ++ str_repeat "=" 70 ++ newline
         ++ newline
         ++ "USER INPUT:" ++ newline
         ++ py_str float_repr user_input ++ newline
         ++ newline
         ++ "AI OUTPUT:" ++ newline
         ++ py_str float_repr ai_output ++ newline
         ++ newline
         ++ str_repeat "=" 70 ++ newline
         ++ newline.
Proof.
  eexists. split; [|reflexivity].
  unfold log, try_except, append_learning_log.
  destruct (learning_log_writable w); reflexivity.
Qed.

(** X15.  On the ordinary path [create_mindmap] commits in order: with a
    200 answer whose first object carries a non-empty text, a document of
    the default shape and both files writable, it posts one request, shows
    the text, records it under the type ["mindmap"] with the stripped topic
    (one more in [total_interactions] and in [mindmaps_created] only),
    leaves the history file holding the new document, appends to the
    learning log an entry with the whole text, and returns [None]. *)
Theorem create_mindmap_records_text :
  forall (float_repr : float -> string) (json_dump : pyval -> string)
         (client : QwenClient) (line t_history t_log : string) (w : world)
         (r : response) (d : list (string * pyval)) (rest : list pyval)
         (text created : string) (total prompts mindmaps sessions : Z) (l : list pyval),
    let req := generate_request client (mindmap_template (strip line)) 1000 0.8%float in
    strip line <> "" ->
    network w req = PostReturns r ->
    status_code r = 200%Z ->
    json r = Ok (PList (PDict d :: rest)) ->
    dict_get "generated_text" d = Some (PStr text) ->
    text <> "" ->
    data w = history_document created total prompts mindmaps sessions l ->
    brain_history_writable w = true ->
    learning_log_writable w = true ->
    exists w',
      create_mindmap float_repr json_dump client line t_history t_log w = (Ok PNone, w')
      /\ requests_sent w' = (requests_sent w ++ [req])%list
      /\ printed w' = (printed w ++ [PStr text])%list
      /\ data w'
         = history_document created (total + 1) prompts (mindmaps + 1) sessions
             (list_last_n 100
                (l ++ [interaction_record
                         (mk_call t_history (PStr "mindmap") (strip line) text)]))
      /\ brain_history w' = Content (json_dump (data w'))
      /\ learning_log w'
         = learning_log w
           ++ newline ++ str_repeat "=" 70 ++ newline
           ++ "[" ++ t_log ++ "] TYPE: mindmap_creation" ++ newline
           ++ str_repeat "=" 70 ++ newline
           ++ newline
           ++ "USER INPUT:" ++ newline
           ++ strip line ++ newline
           ++ newline
           ++ "AI OUTPUT:" ++ newline
           ++ text ++ newline
           ++ newline
           ++ str_repeat "=" 70 ++ newline
           ++ newline.
Proof.
  intros fr jd client line th tl w r d rest text created total prompts mindmaps sessions l
         req Htopic Hnet Hst Hj Hd Htext Hdoc Hbw Hlw.
  pose proof (generate_status_200 fr client (mindmap_template (strip line)) 1000
                0.8%float w r Hnet Hst) as Hgen.
  rewrite Hj in Hgen. cbn [py_get] in Hgen. rewrite Hd in Hgen.
  apply String.eqb_neq in Htopic, Htext.
  assert (Htruthy : py_truthy (PStr text) = true) by (cbn; rewrite Htext; reflexivity).
  rewrite Htruthy in Hgen. fold req in Hgen.
  set (w_sent := set_requests_sent (requests_sent w ++ [req]) w) in *.
  set (w1 := set_printed (printed w_sent ++ [PStr text]) w_sent).
  destruct (add_interaction_on_document jd
              (mk_call th (PStr "mindmap") (strip line) text)
              w1 created total prompts mindmaps sessions l Hdoc)
    as (w2 & Hadd & Hdoc2 & Hr2 & Hp2 & Hl2).
  cbn [call_now call_type call_prompt call_response py_eq_str] in Hadd, Hdoc2.
  replace ("mindmap" =? "prompt") with false in Hdoc2 by reflexivity.
  rewrite String.eqb_refl in Hdoc2.
  cbn [w1 w_sent requests_sent printed learning_log set_printed set_requests_sent]
    in Hr2, Hp2, Hl2.
  destruct (add_interaction_ends_with_save jd th (PStr "mindmap") (PStr (strip line))
              (PStr text) w1 w2 tt Hadd) as (w0 & Hf0 & Hw0 & Hsave).
  rewrite save_spec in Hsave. injection Hsave as Hw2.
  cbn [w1 w_sent brain_history_writable set_printed set_requests_sent] in Hw0.
  rewrite Hbw in Hw0. rewrite Hw0 in Hw2.
  assert (Hfile : brain_history w2 = Content (jd (data w2)))
    by (rewrite <- Hw2; reflexivity).
  assert (Hlw2 : learning_log_writable w2 = true).
  { pose proof (add_interaction_preserves learning_log_writable jd th (PStr "mindmap")
                  (PStr (strip line)) (PStr text)
                  (fun _ _ => eq_refl) (fun _ _ => eq_refl) w1) as Hp.
    rewrite Hadd in Hp. cbn [snd] in Hp. rewrite Hp. exact Hlw. }
  destruct (log_spec fr tl (PStr "mindmap_creation") (PStr (strip line)) (PStr text) w2)
    as (entry & Hlog & Hentry).
  rewrite Hlw2 in Hlog.
  exists (set_learning_log (learning_log w2 ++ entry) w2).
  split.
  - unfold create_mindmap. cbn [py_truthy]. rewrite Htopic. cbn [negb].
    unfold bind at 1. rewrite Hgen, Htruthy.
    unfold bind, print_result. fold w1. rewrite Hadd, Hlog. reflexivity.
  - cbn [requests_sent printed data brain_history learning_log set_learning_log].
    rewrite Hl2, Hentry. cbn [py_str].
    repeat split; assumption.
Qed.

(** ** LearningLogger *)

Lemma str_append_empty (s : string) : s ++ "" = s.
Proof.
  induction s as [|c s IH]; [reflexivity|]. cbn. rewrite IH. reflexivity.
Qed.

(** X16.  The learning log only grows.  [log] and [log_event] return in
    every case; what the log held before is a prefix of what it holds
    after; nothing else in the world changes; and when the log cannot be
    written the call changes nothing at all.  A system event is one line,
    [[time] SYSTEM: event]. *)
Theorem learning_log_only_grows :
  forall (float_repr : float -> string) (now event : string)
         (interaction_type user_input ai_output : pyval) (w : world)
         (out : outcome unit * world),
    out = log float_repr now interaction_type user_input ai_output w
    \/ out = log_event now event w ->
    fst out = Ok tt
    /\ (exists suffix, learning_log (snd out) = learning_log w ++ suffix)
    /\ data (snd out) = data w
    /\ brain_history (snd out) = brain_history w
    /\ requests_sent (snd out) = requests_sent w
    /\ printed (snd out) = printed w
    /\ (learning_log_writable w = false -> snd out = w)
    /\ (learning_log_writable w = true ->
        learning_log (snd (log_event now event w))
        = learning_log w ++ "[" ++ now ++ "] SYSTEM: " ++ event ++ newline).
Proof.
  intros fr now event ty ui ao w out Hout.
  assert (Hline : learning_log_writable w = true ->
                  learning_log (snd (log_event now event w))
                  = learning_log w ++ "[" ++ now ++ "] SYSTEM: " ++ event ++ newline).
  { intros Hlw. unfold log_event, try_except, append_learning_log.
    rewrite Hlw. reflexivity. }
  destruct Hout as [-> | ->].
  - destruct (log_spec fr now ty ui ao w) as (entry & -> & _).
    destruct (learning_log_writable w) eqn:Hlw; cbn [fst snd];
      repeat split; try discriminate; try exact Hline.
    + exists entry. reflexivity.
    + exists "". symmetry. apply str_append_empty.
  - unfold log_event at 1 2 3 4 5 6 7, try_except, append_learning_log.
    destruct (learning_log_writable w) eqn:Hlw; cbn [fst snd];
      repeat split; try discriminate; try exact Hline.
    + eexists. reflexivity.
    + exists "". symmetry. apply str_append_empty.
Qed.

Lemma learning_log_only_grows_witness :
  let w := set_learning_log "earlier lines" (sample_world (PostRaises OSError)) in
  learning_log (snd (log_event "2025-06-01 12:00:00" "SYSTEM_EXIT" w))
  = "earlier lines[2025-06-01 12:00:00] SYSTEM: SYSTEM_EXIT" ++ newline.
Proof.
  intros w.
  destruct (learning_log_only_grows sample_float_repr "2025-06-01 12:00:00" "SYSTEM_EXIT"
              PNone PNone PNone w _ (or_intror eq_refl))
    as (_ & _ & _ & _ & _ & _ & _ & H).
  rewrite (H eq_refl). reflexivity.
Defined.

(** ** Starting up *)

(** What [increment_session] does to a document of the default shape. *)
Lemma increment_session_on_document (json_dump : pyval -> string) (w : world)
      (created : string) (total prompts mindmaps sessions : Z) (l : list pyval) :
  data w = history_document created total prompts mindmaps sessions l ->
  increment_session json_dump w
  = (Ok tt,
     let w1 := set_data (history_document created total prompts mindmaps (sessions + 1) l) w in
     if brain_history_writable w
     then set_brain_history (Content (json_dump (data w1))) w1
     else w1).
Proof.
  intros Hd.
  unfold increment_session, bind.
  rewrite (data_incr_spec "statistics" "sessions" w _ _ sessions Hd eq_refl eq_refl).
  rewrite save_spec. reflexivity.
Qed.

(** X17.  Every start counts one session.  When the history that [_load]
    finds (or the default it makes up) has the default shape and a token is
    set, [GenyxAI.__init__] returns a client for the fixed endpoint with
    that token, with [sessions] one higher and everything else in the
    document as loaded; the file holds the new document if it can be
    written, and the log gets the line [SYSTEM_START] if it can. *)
Theorem init_counts_one_session :
  forall (json_dump : pyval -> string) (json_load : string -> outcome pyval)
         (t_created t_log hf_token : string) (w : world)
         (created : string) (total prompts mindmaps sessions : Z) (l : list pyval),
    hf_token <> "" ->
    fst (_load json_load t_created w)
    = Ok (history_document created total prompts mindmaps sessions l) ->
    exists w',
      GenyxAI_init json_dump json_load t_created (Some hf_token) t_log w
      = (Ok (mk_QwenClient API_ENDPOINT hf_token), w')
      /\ data w' = history_document created total prompts mindmaps (sessions + 1) l
      /\ brain_history w'
         = (if brain_history_writable w then Content (json_dump (data w'))
            else brain_history w)
      /\ learning_log w'
         = (if learning_log_writable w
            then learning_log w ++ "[" ++ t_log ++ "] SYSTEM: SYSTEM_START" ++ newline
            else learning_log w)
      /\ requests_sent w' = requests_sent w
      /\ printed w' = printed w.
Proof.
  intros jd jl tc tl tok w created total prompts mindmaps sessions l Htok Hload.
  rewrite _load_spec in Hload. cbn [fst] in Hload. injection Hload as Hload.
  apply String.eqb_neq in Htok.
  unfold GenyxAI_init, BrainHistory_init, bind at 1 2. rewrite _load_spec, Hload.
  unfold put_data. unfold bind at 1, lift, QwenClient_init. rewrite Htok.
  unfold bind at 1.
  rewrite (increment_session_on_document jd
             (set_data (history_document created total prompts mindmaps sessions l) w)
             created total prompts mindmaps sessions l eq_refl).
  cbn [brain_history_writable set_data data].
  unfold bind, log_event, try_except, append_learning_log, ret.
  destruct (brain_history_writable w), (learning_log_writable w) eqn:Hlw;
    cbn [learning_log_writable set_brain_history set_data]; rewrite ?Hlw;
    eexists; (split; [reflexivity|]); repeat split.
Qed.

Lemma init_counts_one_session_witness :
  exists w',
    GenyxAI_init sample_json_dump sample_json_load "2025-06-01T12:00:00"
                 (Some "hf_sample") "2025-06-01 12:00:00"
                 (set_brain_history Absent (sample_world (PostRaises OSError)))
    = (Ok sample_client, w')
    /\ data w' = history_document "2025-06-01T12:00:00" 0 0 0 1 [].
Proof.
  destruct (init_counts_one_session sample_json_dump sample_json_load
              "2025-06-01T12:00:00" "2025-06-01 12:00:00" "hf_sample"
              (set_brain_history Absent (sample_world (PostRaises OSError)))
              "2025-06-01T12:00:00" 0 0 0 0 [])
    as (w' & Hinit & Hdata & _).
  - discriminate.
  - reflexivity.
  - exists w'. split; assumption.
Defined.

(** X18.  Without a token the start ends in [SystemExit], after the
    history was loaded and before anything is counted or written: the
    document in memory is the loaded one, and both files, the requests and
    the printed results are as they were. *)
Theorem init_without_token_exits :
  forall (json_dump : pyval -> string) (json_load : string -> outcome pyval)
         (t_created t_log : string) (hf_token : option string) (w : world),
    hf_token = None \/ hf_token = Some "" ->
    exists loaded,
      _load json_load t_created w = (Ok loaded, w)
      /\ GenyxAI_init json_dump json_load t_created hf_token t_log w
         = (Raise SystemExit, set_data loaded w).
Proof.
  intros jd jl tc tl tok w Htok.
  rewrite _load_spec. eexists. split; [reflexivity|].
  unfold GenyxAI_init, BrainHistory_init, bind at 1 2. rewrite _load_spec.
  unfold put_data. unfold bind at 1, lift.
  destruct Htok as [-> | ->]; reflexivity.
Qed.

Lemma init_without_token_exits_witness :
  let w := sample_world (PostRaises OSError) in
  exists w',
    GenyxAI_init sample_json_dump sample_json_load "2025-06-01T12:00:00" None
                 "2025-06-01 12:00:00" w
    = (Raise SystemExit, w')
    /\ brain_history w' = Absent /\ learning_log w' = "".
Proof.
  intros w.
  destruct (init_without_token_exits sample_json_dump sample_json_load
              "2025-06-01T12:00:00" "2025-06-01 12:00:00" None w (or_introl eq_refl))
    as (loaded & _ & Hinit).
  eexists. split; [exact Hinit|]. split; reflexivity.
Defined.

(** X19.  [_load] does not check what it reads.  A history file that
    parses as JSON but is not a history document (it has no
    ["statistics"] to index) is taken as the document, and the start then
    fails in [increment_session] with that lookup's exception; the file is
    left as it was, not replaced by a default. *)
Theorem init_fails_on_wrong_shape :
  forall (json_dump : pyval -> string) (json_load : string -> outcome pyval)
         (t_created t_log hf_token text : string) (w : world) (v : pyval) (e : exn),
    hf_token <> "" ->
    brain_history w = Content text ->
    json_load text = Ok v ->
    py_getitem v "statistics" = Raise e ->
    _load json_load t_created w = (Ok v, w)
    /\ GenyxAI_init json_dump json_load t_created (Some hf_token) t_log w
       = (Raise e, set_data v w).
Proof.
  intros jd jl tc tl tok text w v e Htok Hfile Hparse Hstat.
  assert (Hload : _load jl tc w = (Ok v, w)).
  { rewrite _load_spec, Hfile, Hparse. reflexivity. }
  split; [exact Hload|].
  apply String.eqb_neq in Htok.
  unfold GenyxAI_init, BrainHistory_init, bind at 1 2. rewrite Hload.
  unfold put_data. unfold bind at 1, lift, QwenClient_init. rewrite Htok.
  unfold bind at 1, increment_session, bind at 1, data_incr, bind at 1, get_data.
  unfold bind at 1, lift. cbn [data set_data]. rewrite Hstat. reflexivity.
Qed.

Lemma init_fails_on_wrong_shape_witness :
  let w := set_brain_history (Content "{}") (sample_world (PostRaises OSError)) in
  GenyxAI_init sample_json_dump sample_json_load "2025-06-01T12:00:00"
               (Some "hf_sample") "2025-06-01 12:00:00" w
  = (Raise KeyError, set_data (PDict []) w).
Proof.
  intros w.
  apply (init_fails_on_wrong_shape sample_json_dump sample_json_load
           "2025-06-01T12:00:00" "2025-06-01 12:00:00" "hf_sample" "{}" w (PDict [])
           KeyError).
  - discriminate.
  - reflexivity.
  - reflexivity.
  - reflexivity.
Defined.

(** X20.  What [add_interaction] recorded is what the next start loads:
    when the call returns with the file writable, and [json.load] reads
    [json.dump]'s text of the new document back, [_load] in the world it
    leaves gives the document that is in memory, the new record included. *)
Theorem add_interaction_then_load :
  forall (json_dump : pyval -> string) (json_load : string -> outcome pyval)
         (now t_next : string) (interaction_type prompt response : pyval)
         (w w' : world) (u : unit),
    add_interaction json_dump now interaction_type prompt response w = (Ok u, w') ->
    brain_history_writable w = true ->
    json_load (json_dump (data w')) = Ok (data w') ->
    _load json_load t_next w' = (Ok (data w'), w').
Proof.
  intros jd jl now tn ty prompt response w w' u H Hw Hrt.
  apply add_interaction_ends_with_save in H as (w1 & _ & Hw1 & H).
  rewrite save_spec in H. injection H as _ H. rewrite Hw1, Hw in H.
  rewrite _load_spec. rewrite <- H at 1. cbn [brain_history set_brain_history].
  assert (Hdata : data w1 = data w') by (rewrite <- H; reflexivity).
  rewrite Hdata, Hrt. reflexivity.
Qed.

Lemma add_interaction_then_load_witness :
  exists w',
    add_interaction sample_json_dump "2025-06-01T12:00:00" (PStr "prompt")
                    (PStr "tides") (PStr "Moon, Sun") (sample_world (PostRaises OSError))
    = (Ok tt, w')
    /\ _load sample_json_load "2025-06-02T09:00:00" w' = (Ok (data w'), w').
Proof.
  eexists. split; [reflexivity|].
  apply (add_interaction_then_load sample_json_dump sample_json_load
           "2025-06-01T12:00:00" "2025-06-02T09:00:00"
           (PStr "prompt") (PStr "tides") (PStr "Moon, Sun")
           (sample_world (PostRaises OSError)) _ tt eq_refl eq_refl).
  vm_compute. reflexivity.
Defined.

(** ** The handlers on sample answers *)

Lemma generate_prompt_records_text_witness :
  let w := sample_world
             (PostReturns
                (mk_response 200 (Ok (PDict [("generated_text", PStr "Moon, Sun")])))) in
  exists w',
    generate_prompt sample_float_repr sample_json_dump sample_client
      " tides " "2025-06-01T12:00:00" "2025-06-01 12:00:00" w
    = (Ok PNone, w')
    /\ printed w' = [PStr "Moon, Sun"]
    /\ data w'
       = history_document "2025-01-01T00:00:00" 1 1 0 0
           [PDict [ ("timestamp", PStr "2025-06-01T12:00:00");
                    ("type", PStr "prompt");
                    ("prompt", PStr "tides");
                    ("response", PStr "Moon, Sun") ]].
Proof.
  intros w.
  destruct (generate_prompt_records_text sample_float_repr sample_json_dump sample_client
              " tides " "2025-06-01T12:00:00" "2025-06-01 12:00:00" w
              (mk_response 200 (Ok (PDict [("generated_text", PStr "Moon, Sun")])))
              [("generated_text", PStr "Moon, Sun")] "Moon, Sun"
              "2025-01-01T00:00:00" 0 0 0 0 [])
    as (w' & Hrun & _ & Hprinted & Hdata);
    try reflexivity; try (vm_compute; discriminate).
  exists w'. split; [exact Hrun|]. split; [exact Hprinted|].
  rewrite Hdata. reflexivity.
Defined.

Lemma create_mindmap_records_text_witness :
  let w := sample_world
             (PostReturns
                (mk_response 200
                   (Ok (PList [PDict [("generated_text", PStr "Moon - Sun")]])))) in
  exists w',
    create_mindmap sample_float_repr sample_json_dump sample_client
      "tides" "2025-06-01T12:00:00" "2025-06-01 12:00:00" w
    = (Ok PNone, w')
    /\ py_getitem2 (data w') "statistics" "mindmaps_created" = Ok (PInt 1)
    /\ brain_history w' = Content (sample_json_dump (data w')).
Proof.
  intros w.
  destruct (create_mindmap_records_text sample_float_repr sample_json_dump sample_client
              "tides" "2025-06-01T12:00:00" "2025-06-01 12:00:00" w
              (mk_response 200 (Ok (PList [PDict [("generated_text", PStr "Moon - Sun")]])))
              [("generated_text", PStr "Moon - Sun")] [] "Moon - Sun"
              "2025-01-01T00:00:00" 0 0 0 0 [])
    as (w' & Hrun & _ & _ & Hdata & Hfile & _);
    try reflexivity; try (vm_compute; discriminate).
  exists w'. split; [exact Hrun|]. split; [|exact Hfile].
  rewrite Hdata. reflexivity.
Defined.

(** ** The statistics screen *)

Lemma str_split_nonempty (sep : ascii) (s : string) : str_split sep s <> [].
Proof.
  destruct s as [|c s]; cbn; [discriminate|].
  destruct (Ascii.eqb c sep); [discriminate|].
  destruct (str_split sep s); discriminate.
Qed.

(** A text splits into two parts or more exactly when it has the
    separator. *)
Lemma str_split_second (sep : ascii) (s : string) :
  (exists part, list_index (str_split sep s) 1 = Ok part /\ str_mem sep s = true)
  \/ (list_index (str_split sep s) 1 = Raise IndexError /\ str_mem sep s = false).
Proof.
  induction s as [|c s IH]; cbn.
  - right. split; reflexivity.
  - rewrite (Ascii.eqb_sym sep c).
    destruct (Ascii.eqb c sep) eqn:E; cbn.
    + left. unfold list_index. cbn.
      destruct (str_split sep s) as [|x xs] eqn:Es.
      * destruct (str_split_nonempty sep s Es).
      * eauto.
    + destruct (str_split sep s) as [|x xs] eqn:Es.
      * destruct (str_split_nonempty sep s Es).
      * unfold list_index in *. cbn in *. exact IH.
Qed.

Lemma list_index_first (sep : ascii) (s : string) :
  exists part, list_index (str_split sep s) 0 = Ok part.
Proof.
  unfold list_index. destruct (str_split sep s) as [|x xs] eqn:E.
  - destruct (str_split_nonempty sep s E).
  - cbn. eauto.
Qed.

(** The line for a record that [add_interaction] stored: it can be built
    exactly when the timestamp has a [T]. *)
Lemma recent_line_of_record (float_repr : float -> string) (c : interaction_call)
      (w : world) :
  (exists line, recent_line float_repr (interaction_record c) w = (Ok line, w)
                /\ str_mem "T" (call_now c) = true)
  \/ (recent_line float_repr (interaction_record c) w = (Raise IndexError, w)
      /\ str_mem "T" (call_now c) = false).
Proof.
  unfold recent_line, interaction_record, bind, lift, ret.
  cbn [py_getitem dict_get String.eqb Ascii.eqb Bool.eqb py_split].
  destruct (str_split_second "T" (call_now c)) as [(time & -> & Hmem)|(-> & Hmem)].
  - left. destruct (list_index_first "." time) as (ts & ->).
    cbn [py_slice_to]. eexists. split; [reflexivity|exact Hmem].
  - right. split; [reflexivity|exact Hmem].
Qed.

Lemma for_each_recent_lines (float_repr : float -> string)
      (calls : list interaction_call) (w : world) :
  for_each (map interaction_record calls)
           (fun i => bind (recent_line float_repr i) (fun _ => ret tt)) w
  = (if forallb (fun c => str_mem "T" (call_now c)) calls
     then Ok tt else Raise IndexError, w).
Proof.
  induction calls as [|c calls IH]; [reflexivity|].
  cbn [map for_each forallb]. unfold bind at 1. unfold bind at 1.
  destruct (recent_line_of_record float_repr c w) as [(line & -> & ->)|(-> & ->)].
  - cbn [ret andb]. exact IH.
  - reflexivity.
Qed.

Lemma list_last_n_map {A B : Type} (f : A -> B) (n : nat) (l : list A) :
  list_last_n n (map f l) = map f (list_last_n n l).
Proof.
  unfold list_last_n. rewrite length_map. apply skipn_map.
Qed.

(** X21.  [show_stats] only reads: the world is as it was in every
    outcome.  On a document of the default shape whose interactions were
    all stored by [add_interaction], it returns when each of the last three
    timestamps has a [T], as every ISO reading of the clock has, and raises
    [IndexError] when one of them has none; records older than the last
    three are not looked at. *)
Theorem show_stats_reads_last_three :
  forall (float_repr : float -> string) (w : world),
    snd (show_stats float_repr w) = w
    /\ (forall created total prompts mindmaps sessions (calls : list interaction_call),
           data w = history_document created total prompts mindmaps sessions
                      (map interaction_record calls) ->
           show_stats float_repr w
           = (if forallb (fun c => str_mem "T" (call_now c)) (list_last_n 3 calls)
              then Ok tt else Raise IndexError, w)).
Proof.
  intros fr w. split.
  - assert (Hline : forall i, preserves (fun w => w) (recent_line fr i)).
    { intros i. unfold recent_line.
      repeat first [apply preserves_lift | apply preserves_ret
                   | apply preserves_bind; [|intros ?]]. }
    assert (Hloop : forall items,
               preserves (fun w => w)
                 (for_each items (fun i => bind (recent_line fr i) (fun _ => ret tt)))).
    { induction items as [|x items IH]; cbn [for_each].
      - apply preserves_ret.
      - apply preserves_bind; [|intros _; exact IH].
        apply preserves_bind; [apply Hline|intros _; apply preserves_ret]. }
    assert (Hstats : preserves (fun w => w) get_stats).
    { unfold get_stats.
      repeat first [apply preserves_lift | apply preserves_ret | apply preserves_get_data
                   | apply preserves_bind; [|intros ?]]. }
    apply (preserves_bind (fun w => w) get_stats); [exact Hstats|intros stats].
    repeat first [ apply Hloop | apply preserves_if | apply preserves_lift
                 | apply preserves_ret | apply preserves_get_data
                 | apply preserves_bind; [|intros ?] ].
  - intros created total prompts mindmaps sessions calls Hd.
    destruct w as [d bh bw ll lw net rs pr]. cbn [data] in Hd. subst d.
    rewrite <- (for_each_recent_lines fr (list_last_n 3 calls)).
    rewrite <- list_last_n_map.
    destruct calls as [|c calls]; [reflexivity|].
    unfold show_stats, get_stats, bind at 1 2 3 4 5 6 7 8 9 10 11 12 13 14 15 16,
      get_data, lift, ret.
    reflexivity.
Qed.

(** ** The menu loop *)

Section RunFacts.

Variable float_repr : float -> string.
Variable json_dump : pyval -> string.
Variables now_iso now_log : nat -> string.

Lemma get_stats_world (w : world) : snd (get_stats w) = w.
Proof.
  revert w. change (preserves (fun w => w) get_stats). unfold get_stats.
  repeat first [apply preserves_lift | apply preserves_ret | apply preserves_get_data
               | apply preserves_bind; [|intros ?]].
Qed.

Lemma get_stats_Ok_inv (w w' : world) (stats : pyval) :
  get_stats w = (Ok stats, w') ->
  exists total prompts mindmaps sessions,
    stats = PDict [ ("total", total); ("prompts", prompts);
                    ("mindmaps", mindmaps); ("sessions", sessions) ].
Proof.
  unfold get_stats. intros H.
  repeat (apply bind_Ok_inv in H as (? & ? & _ & H)).
  apply ret_Ok_inv in H as [-> _]. eauto.
Qed.

(** The head of a turn: the menu is printed from what [get_stats] gave,
    and raises only what [get_stats] raised. *)
Lemma menu_head (w : world) :
  bind get_stats print_menu w
  = (match fst (get_stats w) with Ok _ => Ok tt | Raise e => Raise e end, w).
Proof.
  unfold bind at 1. pose proof (get_stats_world w) as Hw.
  destruct (get_stats w) as [[stats|e] w1] eqn:E; cbn [fst snd] in *; subst w1.
  - apply get_stats_Ok_inv in E as (t & p & m & s & ->). reflexivity.
  - reflexivity.
Qed.

(** Whatever a [try] block of a turn ends with, it has taken a line. *)
Lemma menu_body_consumes (client : QwenClient) (turn : nat) (keys keys' : keyboard)
      (w w' : world) (o : outcome loop_signal) :
  menu_body float_repr json_dump now_iso now_log client turn keys w = Some (o, keys', w') ->
  List.length keys' < List.length keys.
Proof.
  assert (Hpause : forall (ks : keyboard) (w0 : world) (o0 : outcome loop_signal)
                          (ks' : keyboard) (w0' : world),
             match ks with
             | [] => None
             | Raise e :: ks1 => Some (Raise e, ks1, w0)
             | Ok _ :: ks1 => Some (Ok Continue, ks1, w0)
             end = Some (o0, ks', w0') ->
             List.length ks' <= List.length ks).
  { intros [|[s|e] ks1] w0 o0 ks' w0' H; [discriminate| |];
      injection H as _ <- _; cbn; lia. }
  assert (Hafter : forall (A : Type) (r : outcome A * world) (ks : keyboard)
                          (o0 : outcome loop_signal) (ks' : keyboard) (w0' : world),
             match r with
             | (Ok _, w1) =>
                 match ks with
                 | [] => None
                 | Raise e :: ks1 => Some (Raise e, ks1, w1)
                 | Ok _ :: ks1 => Some (Ok Continue, ks1, w1)
                 end
             | (Raise e, w1) => Some (Raise e, ks, w1)
             end = Some (o0, ks', w0') ->
             List.length ks' <= List.length ks).
  { intros A [[a|e] w1] ks o0 ks' w0' H.
    - exact (Hpause ks w1 o0 ks' w0' H).
    - injection H as _ <- _. lia. }
  unfold menu_body. destruct keys as [|[line|e] keys1]; [discriminate| |].
  - cbn [List.length].
    destruct (strip line =? "1").
    { destruct keys1 as [|[topic|e] keys2]; [discriminate| |]; intros H.
      - apply Hafter in H. cbn. lia.
      - injection H as _ <- _. cbn. lia. }
    destruct (strip line =? "2").
    { destruct keys1 as [|[topic|e] keys2]; [discriminate| |]; intros H.
      - apply Hafter in H. cbn. lia.
      - injection H as _ <- _. cbn. lia. }
    destruct (strip line =? "3"); [intros H; apply Hafter in H; lia|].
    destruct (strip line =? "4"); [intros H; apply Hafter in H; lia|].
    destruct (strip line =? "0").
    { destruct (log_event (now_log turn) "SYSTEM_EXIT" w) as [[u|e] w1];
        intros H; injection H as _ <- _; lia. }
    intros H. apply Hpause in H. lia.
  - intros H. injection H as _ <- _. cbn. lia.
Qed.

Lemma menu_turn_consumes (client : QwenClient) (turn : nat) (keys keys' : keyboard)
      (w w' : world) :
  menu_turn float_repr json_dump now_iso now_log client turn keys w
  = Some (Ok Continue, keys', w') ->
  List.length keys' < List.length keys.
Proof.
  unfold menu_turn.
  destruct (bind get_stats print_menu w) as [[u|e] w1]; [|discriminate].
  destruct (menu_body float_repr json_dump now_iso now_log client turn keys w1)
    as [[[o ks] w2]|] eqn:Hbody; [|discriminate].
  apply menu_body_consumes in Hbody.
  destruct o as [signal|e].
  - intros H. injection H as _ <- _. exact Hbody.
  - destruct e;
      try (cbn [is_Exception]; intros H; injection H as <- _; exact Hbody);
      try (cbn [is_Exception]; discriminate).
    destruct (log_event (now_log turn) "INTERRUPT" w2) as [[u'|e'] w3]; discriminate.
Qed.

(** Fuel beyond the number of lines changes nothing. *)
Lemma menu_loop_fuel (client : QwenClient) (fuel1 : nat) :
  forall (fuel2 turn : nat) (keys : keyboard) (w : world),
    List.length keys < fuel1 ->
    List.length keys < fuel2 ->
    menu_loop float_repr json_dump now_iso now_log fuel1 client turn keys w
    = menu_loop float_repr json_dump now_iso now_log fuel2 client turn keys w.
Proof.
  induction fuel1 as [|fuel1 IH]; intros fuel2 turn keys w H1 H2; [lia|].
  destruct fuel2 as [|fuel2]; [lia|].
  cbn [menu_loop].
  destruct (menu_turn float_repr json_dump now_iso now_log client turn keys w)
    as [[[[[]|e] keys'] w']|] eqn:Hturn; try reflexivity.
  apply menu_turn_consumes in Hturn.
  apply IH; lia.
Qed.

(** [run] is the loop: one turn, and then [run] again unless the turn
    broke out, raised, or is waiting for a line. *)
Lemma run_unfold (client : QwenClient) (turn : nat) (keys : keyboard) (w : world) :
  run float_repr json_dump now_iso now_log client turn keys w
  = match menu_turn float_repr json_dump now_iso now_log client turn keys w with
    | None => None
    | Some (Ok Continue, keys', w') =>
        run float_repr json_dump now_iso now_log client (S turn) keys' w'
    | Some (Ok Break, keys', w') => Some (Ok tt, keys', w')
    | Some (Raise e, keys', w') => Some (Raise e, keys', w')
    end.
Proof.
  unfold run at 1. cbn [menu_loop].
  destruct (menu_turn float_repr json_dump now_iso now_log client turn keys w)
    as [[[[[]|e] keys'] w']|] eqn:Hturn; try reflexivity.
  apply menu_turn_consumes in Hturn.
  unfold run. apply menu_loop_fuel; lia.
Qed.

End RunFacts.

(** The choice [0] ends the loop after the exit line is logged. *)
Lemma menu_turn_exit (float_repr : float -> string) (json_dump : pyval -> string)
      (now_iso now_log : nat -> string) (client : QwenClient) (turn : nat)
      (line : string) (keys : keyboard) (w : world) (stats : pyval) :
  fst (get_stats w) = Ok stats ->
  strip line = "0" ->
  menu_turn float_repr json_dump now_iso now_log client turn (Ok line :: keys) w
  = Some (Ok Break, keys, snd (log_event (now_log turn) "SYSTEM_EXIT" w)).
Proof.
  intros Hstats Hchoice. unfold menu_turn. rewrite menu_head, Hstats.
  unfold menu_body. rewrite Hchoice. cbn [String.eqb Ascii.eqb Bool.eqb].
  unfold log_event, try_except, append_learning_log.
  destruct (learning_log_writable w); reflexivity.
Qed.

(** X22.  The choice [0] ends [run] normally: the line [SYSTEM_EXIT] goes
    to the learning log, nothing else in the world changes, and no further
    line of input is read, not even the pause. *)
Theorem run_exits_on_zero :
  forall (float_repr : float -> string) (json_dump : pyval -> string)
         (now_iso now_log : nat -> string) (client : QwenClient) (turn : nat)
         (line : string) (keys : keyboard) (w : world) (stats : pyval),
    fst (get_stats w) = Ok stats ->
    strip line = "0" ->
    run float_repr json_dump now_iso now_log client turn (Ok line :: keys) w
    = Some (Ok tt, keys, snd (log_event (now_log turn) "SYSTEM_EXIT" w)).
Proof.
  intros fr jd ni nl client turn line keys w stats Hstats Hchoice.
  rewrite run_unfold, (menu_turn_exit fr jd ni nl client turn line keys w stats Hstats Hchoice).
  reflexivity.
Qed.

Lemma run_exits_on_zero_witness :
  let w := sample_world (PostRaises OSError) in
  run sample_float_repr sample_json_dump (fun _ => "2025-06-01T12:00:00")
      (fun _ => "2025-06-01 12:00:00") sample_client 1
      [Ok " 0 "; Ok "1"; Ok "tides"] w
  = Some (Ok tt, [Ok "1"; Ok "tides"],
          set_learning_log ("[2025-06-01 12:00:00] SYSTEM: SYSTEM_EXIT" ++ newline) w).
Proof.
  intros w.
  rewrite (run_exits_on_zero sample_float_repr sample_json_dump
             (fun _ => "2025-06-01T12:00:00") (fun _ => "2025-06-01 12:00:00")
             sample_client 1 " 0 " [Ok "1"; Ok "tides"] w _ eq_refl eq_refl).
  reflexivity.
Defined.

(** X23.  A keyboard interrupt at a prompt, the menu's or a handler's,
    ends [run] normally: the line [INTERRUPT] goes to the learning log,
    nothing else changes, and no exception reaches the caller. *)
Theorem run_ends_on_interrupt :
  forall (float_repr : float -> string) (json_dump : pyval -> string)
         (now_iso now_log : nat -> string) (client : QwenClient) (turn : nat)
         (keys : keyboard) (w : world) (stats : pyval),
    fst (get_stats w) = Ok stats ->
    run float_repr json_dump now_iso now_log client turn
        (Raise KeyboardInterrupt :: keys) w
    = Some (Ok tt, keys, snd (log_event (now_log turn) "INTERRUPT" w))
    /\ (forall line,
           strip line = "1" \/ strip line = "2" ->
           run float_repr json_dump now_iso now_log client turn
               (Ok line :: Raise KeyboardInterrupt :: keys) w
           = Some (Ok tt, keys, snd (log_event (now_log turn) "INTERRUPT" w))).
Proof.
  intros fr jd ni nl client turn keys w stats Hstats.
  assert (Hlog : forall ks,
             match log_event (nl turn) "INTERRUPT" w with
             | (Ok _, w3) => Some (Ok Break, ks, w3)
             | (Raise e', w3) => Some (Raise e', (ks : keyboard), w3)
             end = Some (Ok Break, ks, snd (log_event (nl turn) "INTERRUPT" w))).
  { intros ks. unfold log_event, try_except, append_learning_log.
    destruct (learning_log_writable w); reflexivity. }
  split.
  - rewrite run_unfold. unfold menu_turn. rewrite menu_head, Hstats.
    cbn [menu_body]. rewrite Hlog. reflexivity.
  - intros line Hchoice. rewrite run_unfold. unfold menu_turn.
    rewrite menu_head, Hstats. unfold menu_body.
    destruct Hchoice as [-> | ->]; cbn [String.eqb Ascii.eqb Bool.eqb];
      rewrite Hlog; reflexivity.
Qed.

Lemma run_ends_on_interrupt_witness :
  let w := sample_world (PostRaises OSError) in
  run sample_float_repr sample_json_dump (fun _ => "2025-06-01T12:00:00")
      (fun _ => "2025-06-01 12:00:00") sample_client 1
      [Raise KeyboardInterrupt] w
  = Some (Ok tt, [],
          set_learning_log ("[2025-06-01 12:00:00] SYSTEM: INTERRUPT" ++ newline) w).
Proof.
  intros w.
  destruct (run_ends_on_interrupt sample_float_repr sample_json_dump
              (fun _ => "2025-06-01T12:00:00") (fun _ => "2025-06-01 12:00:00")
              sample_client 1 [] w _ eq_refl) as [H _].
  rewrite H. reflexivity.
Defined.

(** X24.  A choice that is none of [0] to [4], the empty line included,
    does nothing: after the pause the loop is where it was, one turn on,
    with the world untouched. *)
Theorem run_ignores_unknown_choice :
  forall (float_repr : float -> string) (json_dump : pyval -> string)
         (now_iso now_log : nat -> string) (client : QwenClient) (turn : nat)
         (line enter : string) (keys : keyboard) (w : world) (stats : pyval),
    fst (get_stats w) = Ok stats ->
    ~ In (strip line) ["0"; "1"; "2"; "3"; "4"] ->
    run float_repr json_dump now_iso now_log client turn (Ok line :: Ok enter :: keys) w
    = run float_repr json_dump now_iso now_log client (S turn) keys w.
Proof.
  intros fr jd ni nl client turn line enter keys w stats Hstats Hchoice.
  rewrite run_unfold. unfold menu_turn. rewrite menu_head, Hstats.
  unfold menu_body.
  assert (Hne : forall c, In c ["0"; "1"; "2"; "3"; "4"] -> (strip line =? c) = false).
  { intros c Hc. apply String.eqb_neq. intros E. apply Hchoice. rewrite E. exact Hc. }
  rewrite (Hne "1"), (Hne "2"), (Hne "3"), (Hne "4"), (Hne "0") by (cbn; tauto).
  reflexivity.
Qed.

Lemma run_ignores_unknown_choice_witness :
  let w := sample_world (PostRaises OSError) in
  run sample_float_repr sample_json_dump (fun _ => "2025-06-01T12:00:00")
      (fun _ => "2025-06-01 12:00:00") sample_client 1
      [Ok "9"; Ok ""; Ok "0"] w
  = Some (Ok tt, [],
          set_learning_log ("[2025-06-01 12:00:00] SYSTEM: SYSTEM_EXIT" ++ newline) w).
Proof.
  intros w.
  rewrite (run_ignores_unknown_choice sample_float_repr sample_json_dump
             (fun _ => "2025-06-01T12:00:00") (fun _ => "2025-06-01 12:00:00")
             sample_client 1 "9" "" [Ok "0"] w _ eq_refl).
  - reflexivity.
  - cbn. intros [H|[H|[H|[H|[H|[]]]]]]; discriminate H.
Defined.

(** X25.  The loop outlives its handlers.  When [generate_prompt] raises
    an ordinary exception the loop goes on at the next turn, with the
    world the handler left and without the pause; when it returns, the
    pause takes one line and the loop goes on. *)
Theorem run_survives_handler :
  forall (float_repr : float -> string) (json_dump : pyval -> string)
         (now_iso now_log : nat -> string) (client : QwenClient) (turn : nat)
         (line topic : string) (keys : keyboard) (w w' : world) (stats : pyval)
         (o : outcome pyval),
    fst (get_stats w) = Ok stats ->
    strip line = "1" ->
    generate_prompt float_repr json_dump client topic (now_iso turn) (now_log turn) w
    = (o, w') ->
    (forall e, o = Raise e -> is_Exception e = true) ->
    run float_repr json_dump now_iso now_log client turn (Ok line :: Ok topic :: keys) w
    = match o with
      | Raise _ => run float_repr json_dump now_iso now_log client (S turn) keys w'
      | Ok _ =>
          match keys with
          | Ok _ :: keys' =>
              run float_repr json_dump now_iso now_log client (S turn) keys' w'
          | Raise KeyboardInterrupt :: keys' =>
              Some (Ok tt, keys', snd (log_event (now_log turn) "INTERRUPT" w'))
          | Raise e :: keys' =>
              if is_Exception e
              then run float_repr json_dump now_iso now_log client (S turn) keys' w'
              else Some (Raise e, keys', w')
          | [] => None
          end
      end.
Proof.
  intros fr jd ni nl client turn line topic keys w w' stats o Hstats Hchoice Hrun He.
  rewrite run_unfold. unfold menu_turn. rewrite menu_head, Hstats.
  unfold menu_body. rewrite Hchoice. cbn [String.eqb Ascii.eqb Bool.eqb].
  rewrite Hrun.
  destruct o as [v|e].
  - destruct keys as [|[enter|e] keys']; [reflexivity|reflexivity|].
    destruct e; try reflexivity.
    unfold log_event, try_except, append_learning_log.
    destruct (learning_log_writable w'); reflexivity.
  - specialize (He e eq_refl). destruct e; try discriminate He; reflexivity.
Qed.

Lemma run_survives_handler_witness :
  let w := sample_world
             (PostReturns (mk_response 200 (Ok (PDict [("generated_text", PInt 42)])))) in
  exists w',
    run sample_float_repr sample_json_dump (fun _ => "2025-06-01T12:00:00")
        (fun _ => "2025-06-01 12:00:00") sample_client 1
        [Ok "1"; Ok "tides"; Ok "0"] w
    = Some (Ok tt, [], w')
    /\ printed w' = [PInt 42]
    /\ data w' = data w
    /\ learning_log w' = "[2025-06-01 12:00:00] SYSTEM: SYSTEM_EXIT" ++ newline.
Proof.
  intros w. eexists. split.
  - rewrite (run_survives_handler sample_float_repr sample_json_dump
               (fun _ => "2025-06-01T12:00:00") (fun _ => "2025-06-01 12:00:00")
               sample_client 1 "1" "tides" [Ok "0"] w _ _ _ eq_refl eq_refl eq_refl).
    + reflexivity.
    + intros e H. injection H as <-. reflexivity.
  - repeat split.
Defined.

(** ** Exceptions that leave the loop *)

Lemma bind_Raise_inv {A B : Type} (m : M A) (k : A -> M B) (w w' : world) (e : exn) :
  bind m k w = (Raise e, w') ->
  m w = (Raise e, w') \/ exists a w1, m w = (Ok a, w1) /\ k a w1 = (Raise e, w').
Proof.
  unfold bind. destruct (m w) as [[a|e1] w1]; intros H.
  - right. eauto.
  - left. injection H as -> ->. reflexivity.
Qed.

Lemma py_getitem_raises (v : pyval) (k : string) (e : exn) :
  py_getitem v k = Raise e -> e = KeyError \/ e = TypeError.
Proof.
  destruct v; cbn; try (intros H; injection H as <-; auto).
  destruct (dict_get k d); [discriminate|]. intros H. injection H as <-. auto.
Qed.

(** Reading the counters fails with a lookup's exception or not at all. *)
Lemma get_stats_raises (w : world) (e : exn) :
  fst (get_stats w) = Raise e -> e = KeyError \/ e = TypeError.
Proof.
  intros H.
  assert (H' : get_stats w = (Raise e, snd (get_stats w))).
  { rewrite <- H. apply surjective_pairing. }
  revert H'. generalize (snd (get_stats w)). intros w'. clear H.
  unfold get_stats. intros H.
  repeat match type of H with
         | bind _ _ _ = (Raise _, _) =>
             apply bind_Raise_inv in H as [H|(? & ? & _ & H)]
         end;
    try (unfold lift in H; injection H as H _; exact (py_getitem_raises _ _ _ H));
    try discriminate H.
Qed.

(** X26.  The counters are read outside the [try]: when [get_stats] fails
    at the head of a turn (a document that has lost an entry), [run] does
    not swallow it.  The lookup's exception leaves [run] at once, before
    any line of input is read, with the world as it was. *)
Theorem run_fails_when_counters_are_missing :
  forall (float_repr : float -> string) (json_dump : pyval -> string)
         (now_iso now_log : nat -> string) (client : QwenClient) (turn : nat)
         (keys : keyboard) (w : world) (e : exn),
    fst (get_stats w) = Raise e ->
    run float_repr json_dump now_iso now_log client turn keys w = Some (Raise e, keys, w)
    /\ (e = KeyError \/ e = TypeError).
Proof.
  intros fr jd ni nl client turn keys w e Hstats. split.
  - rewrite run_unfold. unfold menu_turn. rewrite menu_head, Hstats. reflexivity.
  - exact (get_stats_raises w e Hstats).
Qed.

Lemma run_fails_when_counters_are_missing_witness :
  let w := set_data (PDict [("statistics", PDict [("sessions", PInt 1)])])
             (sample_world (PostRaises OSError)) in
  run sample_float_repr sample_json_dump (fun _ => "2025-06-01T12:00:00")
      (fun _ => "2025-06-01 12:00:00") sample_client 1 [Ok "0"] w
  = Some (Raise KeyError, [Ok "0"], w).
Proof.
  intros w.
  apply (run_fails_when_counters_are_missing sample_float_repr sample_json_dump
           (fun _ => "2025-06-01T12:00:00") (fun _ => "2025-06-01 12:00:00")
           sample_client 1 [Ok "0"] w KeyError eq_refl).
Defined.

Section LoopExceptions.

Variable float_repr : float -> string.
Variable json_dump : pyval -> string.
Variables now_iso now_log : nat -> string.

Lemma log_event_returns (now event : string) (w : world) :
  fst (log_event now event w) = Ok tt.
Proof.
  unfold log_event, try_except, append_learning_log.
  destruct (learning_log_writable w); reflexivity.
Qed.

Lemma menu_turn_never_interrupt (client : QwenClient) (turn : nat)
      (keys keys' : keyboard) (w w' : world) (e : exn) :
  menu_turn float_repr json_dump now_iso now_log client turn keys w
  = Some (Raise e, keys', w') ->
  e <> KeyboardInterrupt.
Proof.
  unfold menu_turn. rewrite menu_head.
  destruct (fst (get_stats w)) as [stats|e0] eqn:Hstats.
  - destruct (menu_body float_repr json_dump now_iso now_log client turn keys w)
      as [[[[signal|e1] ks] w2]|]; try discriminate.
    destruct e1; cbn [is_Exception]; try discriminate.
    + pose proof (log_event_returns (now_log turn) "INTERRUPT" w2) as Hlog.
      destruct (log_event (now_log turn) "INTERRUPT" w2) as [[u|e'] w3];
        [discriminate|discriminate Hlog].
    + intros H. injection H as <- _ _. discriminate.
  - intros H. injection H as <- _ _.
    destruct (get_stats_raises w e0 Hstats) as [-> | ->]; discriminate.
Qed.

Lemma menu_loop_never_interrupt (client : QwenClient) (fuel : nat) :
  forall (turn : nat) (keys keys' : keyboard) (w w' : world) (e : exn),
    menu_loop float_repr json_dump now_iso now_log fuel client turn keys w
    = Some (Raise e, keys', w') ->
    e <> KeyboardInterrupt.
Proof.
  induction fuel as [|fuel IH]; intros turn keys keys' w w' e; [discriminate|].
  cbn [menu_loop].
  destruct (menu_turn float_repr json_dump now_iso now_log client turn keys w)
    as [[[[[]|e1] ks] w1]|] eqn:Hturn; try discriminate.
  - apply IH.
  - intros H. injection H as <- _ _.
    exact (menu_turn_never_interrupt client turn keys ks w w1 e1 Hturn).
Qed.

End LoopExceptions.

(** X27.  No keyboard interrupt leaves [run]: raised at a prompt, in a
    handler or during a request, it is caught in the loop and ends it
    normally.  Whatever exception does leave [run] is another one. *)
Theorem run_never_raises_interrupt :
  forall (float_repr : float -> string) (json_dump : pyval -> string)
         (now_iso now_log : nat -> string) (client : QwenClient) (turn : nat)
         (keys keys' : keyboard) (w w' : world) (e : exn),
    run float_repr json_dump now_iso now_log client turn keys w
    = Some (Raise e, keys', w') ->
    e <> KeyboardInterrupt.
Proof.
  intros fr jd ni nl client turn keys keys' w w' e H.
  exact (menu_loop_never_interrupt fr jd ni nl client _ turn keys keys' w w' e H).
Qed.

Lemma run_never_raises_interrupt_witness :
  let w := set_data (PList []) (sample_world (PostRaises KeyboardInterrupt)) in
  run sample_float_repr sample_json_dump (fun _ => "2025-06-01T12:00:00")
      (fun _ => "2025-06-01 12:00:00") sample_client 1 [Raise KeyboardInterrupt] w
  = Some (Raise TypeError, [Raise KeyboardInterrupt], w)
  /\ TypeError <> KeyboardInterrupt.
Proof.
  intros w. split; [reflexivity|].
  exact (run_never_raises_interrupt sample_float_repr sample_json_dump
           (fun _ => "2025-06-01T12:00:00") (fun _ => "2025-06-01 12:00:00")
           sample_client 1 [Raise KeyboardInterrupt] [Raise KeyboardInterrupt] w w
           TypeError eq_refl).
Defined.

(** ** The whole program *)

(** The world a successful start leaves. *)
Lemma GenyxAI_init_on_document (json_dump : pyval -> string)
      (json_load : string -> outcome pyval) (t_created t_log hf_token : string)
      (w : world) (created : string) (total prompts mindmaps sessions : Z)
      (l : list pyval) :
  hf_token <> "" ->
  fst (_load json_load t_created w)
  = Ok (history_document created total prompts mindmaps sessions l) ->
  GenyxAI_init json_dump json_load t_created (Some hf_token) t_log w
  = (Ok (mk_QwenClient API_ENDPOINT hf_token),
     let w1 := set_data (history_document created total prompts mindmaps (sessions + 1) l) w in
     let w2 := if brain_history_writable w
               then set_brain_history (Content (json_dump (data w1))) w1 else w1 in
     if learning_log_writable w
     then set_learning_log
            (learning_log w ++ "[" ++ t_log ++ "] SYSTEM: SYSTEM_START" ++ newline) w2
     else w2).
Proof.
  intros Htok Hload.
  rewrite _load_spec in Hload. cbn [fst] in Hload. injection Hload as Hload.
  apply String.eqb_neq in Htok.
  unfold GenyxAI_init, BrainHistory_init, bind at 1 2. rewrite _load_spec, Hload.
  unfold put_data. unfold bind at 1, lift, QwenClient_init. rewrite Htok.
  unfold bind at 1.
  rewrite (increment_session_on_document json_dump
             (set_data (history_document created total prompts mindmaps sessions l) w)
             created total prompts mindmaps sessions l eq_refl).
  cbn [brain_history_writable set_data data].
  unfold bind, log_event, try_except, append_learning_log, ret.
  destruct (brain_history_writable w), (learning_log_writable w) eqn:Hlw;
    cbn [learning_log_writable set_brain_history set_data]; rewrite ?Hlw; reflexivity.
Qed.

(** The start raises [SystemExit] or a lookup's exception, nothing else. *)
Lemma GenyxAI_init_raises (json_dump : pyval -> string)
      (json_load : string -> outcome pyval) (t_created t_log : string)
      (hf_token : option string) (w w' : world) (e : exn) :
  GenyxAI_init json_dump json_load t_created hf_token t_log w = (Raise e, w') ->
  e = SystemExit \/ is_Exception e = true.
Proof.
  unfold GenyxAI_init. intros H.
  apply bind_Raise_inv in H as [H|(u & w1 & _ & H)].
  { unfold BrainHistory_init in H.
    apply bind_Raise_inv in H as [H|(d & w1 & _ & H)]; [|discriminate H].
    rewrite _load_spec in H. discriminate H. }
  apply bind_Raise_inv in H as [H|(client & w2 & _ & H)].
  { unfold lift, QwenClient_init in H. left.
    destruct hf_token as [t|]; [destruct (t =? "")|]; congruence. }
  apply bind_Raise_inv in H as [H|(u2 & w3 & _ & H)].
  { right. unfold increment_session in H.
    apply bind_Raise_inv in H as [H|(u3 & w4 & _ & H)].
    - unfold data_incr, data_setitem in H.
      repeat match type of H with
             | bind _ _ _ = (Raise _, _) =>
                 apply bind_Raise_inv in H as [H|(? & ? & _ & H)]
             end;
        try discriminate H;
        unfold lift in H; injection H as H _;
        try (destruct (py_getitem_raises _ _ _ H) as [-> | ->]; reflexivity).
      + match type of H with py_add_one ?v = _ => destruct v end;
          cbn in H; try discriminate H; injection H as <-; reflexivity.
      + match type of H with py_setitem ?v _ _ = _ => destruct v end;
          cbn in H; try discriminate H; injection H as <-; reflexivity.
      + match type of H with py_setitem ?v _ _ = _ => destruct v end;
          cbn in H; try discriminate H; injection H as <-; reflexivity.
    - pose proof (save_returns json_dump w4) as Hs. rewrite H in Hs. discriminate Hs. }
  apply bind_Raise_inv in H as [H|(u4 & w5 & _ & H)]; [|discriminate H].
  pose proof (log_event_returns t_log "SYSTEM_START" w3) as Hl.
  rewrite H in Hl. discriminate Hl.
Qed.

(** X28.  [main] lets no exception out but [SystemExit]: whatever the
    start or the loop raises is turned into [sys.exit(1)], an interrupt
    ends the loop normally, and the one exception that passes through is a
    [SystemExit] itself. *)
Theorem main_raises_only_SystemExit :
  forall (float_repr : float -> string) (json_dump : pyval -> string)
         (now_iso now_log : nat -> string) (json_load : string -> outcome pyval)
         (hf_token : option string) (keys keys' : keyboard) (w w' : world) (e : exn),
    main float_repr json_dump now_iso now_log json_load hf_token keys w
    = Some (Raise e, keys', w') ->
    e = SystemExit.
Proof.
  intros fr jd ni nl jl tok keys keys' w w' e. unfold main.
  destruct (GenyxAI_init jd jl (ni 0) tok (nl 0) w) as [[client|e0] w1] eqn:Hinit.
  - destruct (run fr jd ni nl client 1 keys w1) as [[[[u|e1] ks] w2]|] eqn:Hrun;
      try discriminate.
    intros H. injection H as <- _ _.
    pose proof (menu_loop_never_interrupt fr jd ni nl client _ 1 keys ks w1 w2 e1 Hrun)
      as Hki.
    destruct e1; try reflexivity. destruct (Hki eq_refl).
  - intros H. injection H as <- _ _.
    destruct (GenyxAI_init_raises jd jl (ni 0) (nl 0) tok w w1 e0 Hinit) as [-> | He];
      [reflexivity|rewrite He; reflexivity].
Qed.

Lemma main_raises_only_SystemExit_witness :
  let w := set_brain_history (Content "[]") (sample_world (PostRaises OSError)) in
  main sample_float_repr sample_json_dump (fun _ => "2025-06-01T12:00:00")
       (fun _ => "2025-06-01 12:00:00") sample_json_load (Some "hf_sample") [Ok "0"] w
  = Some (Raise SystemExit, [Ok "0"], set_data (PList []) w).
Proof.
  intros w.
  assert (H : exists e,
             main sample_float_repr sample_json_dump (fun _ => "2025-06-01T12:00:00")
                  (fun _ => "2025-06-01 12:00:00") sample_json_load (Some "hf_sample")
                  [Ok "0"] w
             = Some (Raise e, [Ok "0"], set_data (PList []) w))
    by (eexists; reflexivity).
  destruct H as [e H]. rewrite H.
  rewrite (main_raises_only_SystemExit _ _ _ _ _ _ _ _ _ _ e H). reflexivity.
Defined.

(** X29.  A session that only quits.  With a token set, a history that
    loads as a document of the default shape, and [0] as the first choice,
    [main] returns normally having read that one line: the document has one
    session more and is otherwise as loaded, no request was posted, nothing
    was shown as a result, and a writable learning log has gained the lines
    [SYSTEM_START] and [SYSTEM_EXIT], in that order. *)
Theorem main_start_and_quit :
  forall (float_repr : float -> string) (json_dump : pyval -> string)
         (now_iso now_log : nat -> string) (json_load : string -> outcome pyval)
         (hf_token line : string) (keys : keyboard) (w : world)
         (created : string) (total prompts mindmaps sessions : Z) (l : list pyval),
    hf_token <> "" ->
    fst (_load json_load (now_iso 0) w)
    = Ok (history_document created total prompts mindmaps sessions l) ->
    strip line = "0" ->
    exists w',
      main float_repr json_dump now_iso now_log json_load (Some hf_token)
           (Ok line :: keys) w
      = Some (Ok tt, keys, w')
      /\ data w' = history_document created total prompts mindmaps (sessions + 1) l
      /\ requests_sent w' = requests_sent w
      /\ printed w' = printed w
      /\ (learning_log_writable w = true ->
          learning_log w'
          = (learning_log w ++ "[" ++ now_log 0 ++ "] SYSTEM: SYSTEM_START" ++ newline)
            ++ "[" ++ now_log 1 ++ "] SYSTEM: SYSTEM_EXIT" ++ newline).
Proof.
  intros fr jd ni nl jl tok line keys w created total prompts mindmaps sessions l
         Htok Hload Hchoice.
  unfold main.
  rewrite (GenyxAI_init_on_document jd jl (ni 0) (nl 0) tok w created total prompts
             mindmaps sessions l Htok Hload).
  cbv zeta.
  match goal with
  | |- context [run fr jd ni nl ?c 1 (Ok line :: keys) ?w1] =>
      set (w_init := w1);
      assert (Hdata : data w_init
                      = history_document created total prompts mindmaps (sessions + 1) l)
        by (subst w_init; destruct (brain_history_writable w), (learning_log_writable w);
            reflexivity);
      assert (Hframe : requests_sent w_init = requests_sent w
                       /\ printed w_init = printed w
                       /\ learning_log_writable w_init = learning_log_writable w
                       /\ (learning_log_writable w = true ->
                           learning_log w_init
                           = learning_log w ++ "[" ++ nl 0 ++ "] SYSTEM: SYSTEM_START"
                             ++ newline))
        by (subst w_init;
            destruct (brain_history_writable w), (learning_log_writable w) eqn:El;
            cbn [requests_sent printed learning_log_writable learning_log
                 set_learning_log set_brain_history set_data];
            rewrite ?El; repeat split; try reflexivity;
            intros Hx; first [discriminate Hx|reflexivity])
  end.
  destruct Hframe as (Hreq & Hpr & Hlw & Hlog).
  assert (Hstats : fst (get_stats w_init)
                   = Ok (PDict [ ("total", PInt total); ("prompts", PInt prompts);
                                 ("mindmaps", PInt mindmaps);
                                 ("sessions", PInt (sessions + 1)) ])).
  { unfold get_stats, bind, get_data, lift, ret. rewrite Hdata. reflexivity. }
  rewrite run_unfold,
    (menu_turn_exit fr jd ni nl _ 1 line keys w_init _ Hstats Hchoice).
  eexists. split; [reflexivity|].
  unfold log_event, try_except, append_learning_log. rewrite Hlw.
  destruct (learning_log_writable w) eqn:E;
    cbn [snd data requests_sent printed learning_log set_learning_log];
    repeat split; try assumption; try discriminate.
Qed.

Lemma main_start_and_quit_witness :
  let w := set_brain_history Absent (sample_world (PostRaises OSError)) in
  exists w',
    main sample_float_repr sample_json_dump (fun _ => "2025-06-01T12:00:00")
         (fun n => if Nat.eqb n 0 then "2025-06-01 12:00:00" else "2025-06-01 12:00:07")
         sample_json_load (Some "hf_sample") [Ok "0"] w
    = Some (Ok tt, [], w')
    /\ data w' = history_document "2025-06-01T12:00:00" 0 0 0 1 []
    /\ learning_log w'
       = "[2025-06-01 12:00:00] SYSTEM: SYSTEM_START" ++ newline
         ++ "[2025-06-01 12:00:07] SYSTEM: SYSTEM_EXIT" ++ newline.
Proof.
  intros w.
  destruct (main_start_and_quit sample_float_repr sample_json_dump
              (fun _ => "2025-06-01T12:00:00")
              (fun n => if Nat.eqb n 0 then "2025-06-01 12:00:00" else "2025-06-01 12:00:07")
              sample_json_load "hf_sample" "0" [] w
              "2025-06-01T12:00:00" 0 0 0 0 [])
    as (w' & Hmain & Hdata & _ & _ & Hlog).
  - discriminate.
  - reflexivity.
  - reflexivity.
  - exists w'. split; [exact Hmain|]. split; [exact Hdata|].
    rewrite (Hlog eq_refl). reflexivity.
Defined.
